(** * donizo-material-scraper: crawl, extraction, snapshot and query engine

    A shallow embedding of [scraper.py] and [api_server.py].

    Conventions of the embedding.
    - A Python [str] is a [string]: the bytes of its UTF-8 encoding.  Case
      folding and [str.isspace] are the ASCII ones.  Where the code looks at
      decimal digits ([\d] of [re], [float]) the text is decoded into its
      characters and the digits of every script count, as in Python.
    - A Python [float] price is an exact rational [Q]: the decimal value a
      literal denotes.  Binary64 rounding is not modelled, so numeric
      equalities on prices are stated with [==].
    - A call that may raise returns a [result]; [Raise e] is the exception
      leaving the function.  [try/except] is a match on the result.
    - The collaborators the code calls but does not define (the HTTP
      transport, the HTML parser, [urljoin], the clock) are section variables
      or arguments. *)

From Stdlib Require Import String Ascii List Bool ZArith QArith Lia DecimalString.
From Stdlib Require Import Sorted Permutation.
From stdpp Require Import gmap strings.
Import ListNotations.

Local Open Scope string_scope.
Local Open Scope list_scope.
#[local] Arguments String.append !s1 s2 : simpl nomatch.

(** ** Python values and exceptions *)

Module Py.

(** The exception classes the modelled code meets; all of them derive from
    [Exception]. *)
Inductive exn : Type :=
| ValueError
| AttributeError
| ZeroDivisionError
| ValidationError
| ClientError
| TimeoutError
| FileNotFoundError
| JSONDecodeError
| UnicodeDecodeError
| TypeError.

Inductive result (A : Type) : Type :=
| Ret (a : A)
| Raise (e : exn).
Arguments Ret {A} a.
Arguments Raise {A} e.

Definition bind {A B} (m : result A) (k : A -> result B) : result B :=
  match m with
  | Ret a => k a
  | Raise e => Raise e
  end.

(** [try: body / except Exception: handler] *)
Definition try_except {A} (body : result A) (handler : exn -> result A)
  : result A :=
  match body with
  | Ret a => Ret a
  | Raise e => handler e
  end.

Fixpoint mapM {A B} (f : A -> result B) (l : list A) : result (list B) :=
  match l with
  | [] => Ret []
  | x :: xs =>
      bind (f x) (fun y => bind (mapM f xs) (fun ys => Ret (y :: ys)))
  end.

(** *** Characters *)

Definition code (c : ascii) : nat := nat_of_ascii c.

(** The byte of an ASCII digit, [0] to [9].  The decimal digits of the
    other scripts take several bytes; [is_decimal] below is the class [\d]
    on decoded characters. *)
Definition is_digit (c : ascii) : bool :=
  (48 <=? code c)%nat && (code c <=? 57)%nat.

Definition is_upper (c : ascii) : bool :=
  (65 <=? code c)%nat && (code c <=? 90)%nat.

(** [str.isspace] on one-byte characters: TAB..CR, FS..US and the space. *)
Definition is_space (c : ascii) : bool :=
  ((9 <=? code c)%nat && (code c <=? 13)%nat)
  || ((28 <=? code c)%nat && (code c <=? 32)%nat).

Definition lower_char (c : ascii) : ascii :=
  if is_upper c then ascii_of_nat (code c + 32) else c.

(** *** Strings *)

Fixpoint str_map (f : ascii -> ascii) (s : string) : string :=
  match s with
  | EmptyString => EmptyString
  | String c r => String (f c) (str_map f r)
  end.

Fixpoint str_forall (f : ascii -> bool) (s : string) : bool :=
  match s with
  | EmptyString => true
  | String c r => f c && str_forall f r
  end.

Fixpoint str_exists (f : ascii -> bool) (s : string) : bool :=
  match s with
  | EmptyString => false
  | String c r => f c || str_exists f r
  end.

(** [s.lower()] *)
Definition lower (s : string) : string := str_map lower_char s.

(** [not s] for a string. *)
Definition is_empty (s : string) : bool :=
  match s with
  | EmptyString => true
  | String _ _ => false
  end.

(** [hay.startswith(needle)] *)
Fixpoint startswith (needle hay : string) : bool :=
  match needle, hay with
  | EmptyString, _ => true
  | String _ _, EmptyString => false
  | String a n', String b h' => Ascii.eqb a b && startswith n' h'
  end.

(** [needle in hay] *)
Fixpoint contains (needle hay : string) : bool :=
  startswith needle hay
  || match hay with
     | EmptyString => false
     | String _ h' => contains needle h'
     end.

(** [s.lstrip()], [s.rstrip()] and [s.strip()] *)
Fixpoint lstrip (s : string) : string :=
  match s with
  | EmptyString => EmptyString
  | String c r => if is_space c then lstrip r else s
  end.

Fixpoint rstrip (s : string) : string :=
  match s with
  | EmptyString => EmptyString
  | String c r =>
      match rstrip r with
      | EmptyString => if is_space c then EmptyString else String c EmptyString
      | r' => String c r'
      end
  end.

Definition strip (s : string) : string := rstrip (lstrip s).

(** *** Decimal numerals *)

Definition digit_value (c : ascii) : Z := Z.of_nat (code c - 48).

(** Value of a run of decimal digits, most significant first. *)
Fixpoint digits_value_from (acc : Z) (s : string) : Z :=
  match s with
  | EmptyString => acc
  | String c r => digits_value_from (10 * acc + digit_value c) r
  end.

Definition digits_value (s : string) : Z := digits_value_from 0 s.

Fixpoint pow10 (n : nat) : positive :=
  match n with
  | O => 1%positive
  | S k => (10 * pow10 k)%positive
  end.

(** Split at the first period: the part before it, and the part after it
    when there is one. *)
Fixpoint split_point (s : string) : string * option string :=
  match s with
  | EmptyString => (EmptyString, None)
  | String c r =>
      if Ascii.eqb c "." then (EmptyString, Some r)
      else let '(a, b) := split_point r in (String c a, b)
  end.

(** The parser behind [float], on ASCII text over digits and periods.  It
    accepts exactly [d+], [d+.d*] and [.d+] there and fails ([None]) on
    everything else over that alphabet.  The result is the exact decimal
    value. *)
Definition string_to_double (s : string) : option Q :=
  match split_point s with
  | (ip, None) =>
      if str_forall is_digit ip && negb (is_empty ip)
      then Some (inject_Z (digits_value ip))
      else None
  | (ip, Some fp) =>
      if str_forall is_digit ip && str_forall is_digit fp
         && negb (is_empty ip && is_empty fp)
      then Some (Qmake (digits_value ip * Zpos (pow10 (String.length fp))
                        + digits_value fp)
                       (pow10 (String.length fp)))
      else None
  end.

(** *** The characters of a text

    A character of one byte is that byte; a longer one is its code point. *)
Inductive char : Type :=
| Byte (a : ascii)
| Wide (cp : N).

(** The role of a byte in UTF-8, with the bits it contributes. *)
Inductive byte_class : Type :=
| Single
| Continuation (bits : N)
| Lead (more : nat) (bits : N)
| Invalid.

Definition classify (c : ascii) : byte_class :=
  let b := N_of_ascii c in
  if (b <? 128)%N then Single
  else if (b <? 192)%N then Continuation (b - 128)
  else if (b <? 224)%N then Lead 1 (b - 192)
  else if (b <? 240)%N then Lead 2 (b - 224)
  else if (b <? 248)%N then Lead 3 (b - 240)
  else Invalid.

(** U+FFFD, which stands for bytes that are not UTF-8.  The encoding of a
    [str] has none; the decoder is total all the same. *)
Definition replacement : char := Wide 65533.

(** The characters of [s], when [need] more continuation bytes are awaited
    for the character whose leading bits are [acc]. *)
Fixpoint chars_from (need : nat) (acc : N) (s : string) : list char :=
  match s with
  | EmptyString =>
      match need with
      | O => []
      | S _ => [replacement]
      end
  | String c r =>
      let broken :=
        match need with
        | O => []
        | S _ => [replacement]
        end in
      match classify c with
      | Single => broken ++ Byte c :: chars_from 0 0 r
      | Lead more bits => broken ++ chars_from more bits r
      | Invalid => broken ++ replacement :: chars_from 0 0 r
      | Continuation bits =>
          match need with
          | O => replacement :: chars_from 0 0 r
          | S O => Wide (acc * 64 + bits) :: chars_from 0 0 r
          | S k => chars_from k (acc * 64 + bits) r
          end
      end
  end.

Definition chars (s : string) : list char := chars_from 0 0 s.

(** The decimal digits beyond ASCII (category Nd of the Unicode database,
    version 14.0): the code point of the zero of each script.  The ten
    digits of a script follow each other in order of value. *)
Definition decimal_zeros : list N :=
  [1632; 1776; 1984; 2406; 2534; 2662; 2790; 2918; 3046; 3174; 3302; 3430;
   3558; 3664; 3792; 3872; 4160; 4240; 6112; 6160; 6470; 6608; 6784; 6800;
   6992; 7088; 7232; 7248; 42528; 43216; 43264; 43472; 43504; 43600; 44016;
   65296; 66720; 68912; 69734; 69872; 69942; 70096; 70384; 70736; 70864;
   71248; 71360; 71472; 71904; 72016; 72784; 73040; 73120; 92768; 92864;
   93008; 120782; 120792; 120802; 120812; 120822; 123200; 123632; 125264;
   130032]%N.

Definition wide_decimal (cp : N) : option N :=
  option_map (fun zero => (cp - zero)%N)
    (List.find (fun zero => (zero <=? cp)%N && (cp <? zero + 10)%N)
               decimal_zeros).

(** The value of a decimal digit, [None] for any other character. *)
Definition decimal (ch : char) : option N :=
  match ch with
  | Byte a => if is_digit a then Some (N_of_ascii a - 48)%N else None
  | Wide cp => wide_decimal cp
  end.

(** [\d] *)
Definition is_decimal (ch : char) : bool :=
  match decimal ch with
  | Some _ => true
  | None => false
  end.

(** [re.search(r'\d', s)] finds something. *)
Definition has_decimal (s : string) : bool := existsb is_decimal (chars s).

(** The character is the one-byte character [a]. *)
Definition char_is (a : ascii) (ch : char) : bool :=
  match ch with
  | Byte b => Ascii.eqb b a
  | Wide _ => false
  end.

(** [t.replace(a, b)] for one-byte [a] and [b], on decoded text. *)
Definition text_replace (a b : ascii) (t : list char) : list char :=
  map (fun ch => if char_is a ch then Byte b else ch) t.

(** What [float] makes of a character before it parses: a decimal digit of
    any script becomes the ASCII digit of its value, another character
    beyond ASCII becomes one the parser rejects. *)
Definition to_ascii (ch : char) : ascii :=
  match ch with
  | Byte a => a
  | Wide cp =>
      match wide_decimal cp with
      | Some d => ascii_of_N (48 + d)
      | None => "?"%char
      end
  end.

Fixpoint ascii_decimal (t : list char) : string :=
  match t with
  | [] => EmptyString
  | ch :: r => String (to_ascii ch) (ascii_decimal r)
  end.

(** [float(t)] on a text over decimal digits, periods and commas, which is
    all the price cleaner leaves; [None] is [ValueError]. *)
Definition float (t : list char) : option Q :=
  string_to_double (ascii_decimal t).

End Py.


(** ** The parsed HTML tree and the BeautifulSoup queries the scraper uses *)

Module Bs4.
Import Py.

#[warnings="-register-all"]
Inductive node : Type :=
| Text (s : string)
| Tag (name : string) (attrs : list (string * string)) (children : list node).

(** Everything below a node, in document order. *)
Fixpoint descendants (n : node) : list node :=
  match n with
  | Text _ => []
  | Tag _ _ cs => flat_map (fun c => c :: descendants c) cs
  end.

(** The strings below a node, in document order. *)
Fixpoint strings (n : node) : list string :=
  match n with
  | Text s => [s]
  | Tag _ _ cs => flat_map strings cs
  end.

(** The strings strictly below a node, each with the tag that holds it. *)
Fixpoint strings_with_parent (n : node) : list (string * node) :=
  match n with
  | Text _ => []
  | Tag _ _ cs =>
      flat_map (fun c => match c with
                         | Text s => [(s, n)]
                         | Tag _ _ _ => strings_with_parent c
                         end) cs
  end.

(** [tag.get(key)] *)
Definition get (key : string) (n : node) : option string :=
  match n with
  | Text _ => None
  | Tag _ attrs _ =>
      option_map snd (List.find (fun kv => String.eqb (fst kv) key) attrs)
  end.

(** [key=True]: the attribute is present. *)
Definition has_attr (key : string) (n : node) : bool :=
  match get key n with
  | Some _ => true
  | None => false
  end.

(** [class_=re.compile(r'p1|p2|...', re.I)] for lower-case literal
    alternatives: some alternative occurs in the class attribute. *)
Definition class_matches (alternatives : list string) (n : node) : bool :=
  match get "class" n with
  | Some v => existsb (fun p => contains p (lower v)) alternatives
  | None => false
  end.

Definition is_tag (names : list string) (n : node) : bool :=
  match n with
  | Text _ => false
  | Tag nm _ _ => existsb (String.eqb nm) names
  end.

(** [tag.find(names, ...)] and [tag.find_all(names, ...)] *)
Definition find (names : list string) (p : node -> bool) (n : node)
  : option node :=
  List.find (fun d => is_tag names d && p d) (descendants n).

Definition find_all (names : list string) (p : node -> bool) (n : node)
  : list node :=
  List.filter (fun d => is_tag names d && p d) (descendants n).

(** [tag.find(string=regex)] followed by [.parent] *)
Definition find_string_parent (p : string -> bool) (n : node) : option node :=
  option_map snd (List.find (fun sp => p (fst sp)) (strings_with_parent n)).

(** [tag.get_text()] and [tag.get_text(strip=True)] *)
Definition get_text (n : node) : string := String.concat "" (strings n).

Definition get_text_strip (n : node) : string :=
  String.concat ""
    (List.filter (fun s => negb (is_empty s)) (map strip (strings n))).

End Bs4.

(** ** scraper.py *)

Module Product.
(** [@dataclass class Product] *)
Record t : Type := mk {
  name : string;
  category : string;
  price : Q;
  currency : string;
  product_url : string;
  brand : option string;
  unit : option string;
  pack_size : option string;
  image_url : option string;
  in_stock : bool;
  supplier : string;
  scraped_at : string
}.

(** [__post_init__]: an empty [scraped_at] is replaced by the clock's
    reading [now]. *)
Definition post_init (now : string) (p : t) : t :=
  if Py.is_empty (scraped_at p)
  then mk (name p) (category p) (price p) (currency p) (product_url p)
          (brand p) (unit p) (pack_size p) (image_url p) (in_stock p)
          (supplier p) now
  else p.
End Product.

(** ** The persisted snapshot

    [json.dump] followed by [json.load] is taken to give back the document
    written; a file is modelled by the document its text decodes to. *)

Module ProductDict.
(** A product as a JSON object.  [None] is an absent key; for the fields
    that are [Optional] in the dataclass it is [null] as well, which the
    readers do not tell apart. *)
Record t : Type := mk {
  name : option string;
  category : option string;
  price : option Q;
  currency : option string;
  product_url : option string;
  brand : option string;
  unit : option string;
  pack_size : option string;
  image_url : option string;
  in_stock : option bool;
  supplier : option string;
  scraped_at : option string
}.
End ProductDict.

Module Snapshot.
(** The snapshot object; [None] is an absent key. *)
Record t : Type := mk {
  scraped_at : option string;
  total_products : option Z;
  products : option (list ProductDict.t)
}.
End Snapshot.

Module Storage.
Inductive Json : Type :=
| JObject (d : Snapshot.t)
| JArray (items : list ProductDict.t)
| JString (s : string)
| JNumber (q : Q)
| JBool (b : bool)
| JNull.

(** A regular file that the process may open: bytes that are not UTF-8
    text, text that is not a JSON document, or a JSON document.  A path
    that [open] refuses for another reason than a missing file (a directory,
    a file without read permission) is not represented in the store. *)
Inductive File : Type :=
| NotText
| Garbled
| Document (j : Json).

(** [dataclasses.asdict] *)
Definition asdict (p : Product.t) : ProductDict.t :=
  ProductDict.mk (Some (Product.name p)) (Some (Product.category p))
                 (Some (Product.price p)) (Some (Product.currency p))
                 (Some (Product.product_url p)) (Product.brand p)
                 (Product.unit p) (Product.pack_size p) (Product.image_url p)
                 (Some (Product.in_stock p)) (Some (Product.supplier p))
                 (Some (Product.scraped_at p)).
End Storage.

Module Scraper.
Import Py Bs4.

(** The part of the configuration the crawl reads. *)
Record Config : Type := {
  base_url : string;
  max_products_per_category : nat
}.

(** What [session.get(url)] gives: a response with its status and the
    outcome of reading its text, or an exception. *)
Record Response : Type := { status : Z; text : result string }.

(** [_parse_price].  [re.sub(r'[^\d,.]', '', ...)] keeps the decimal digits
    of every script, the commas and the periods of the text, and [float]
    reads what is kept. *)
Definition _parse_price (price_text : string) : Q * string :=
  if is_empty price_text then (0%Q, "EUR")
  else
    let price_clean :=
      List.filter (fun ch => is_decimal ch || char_is "," ch || char_is "." ch)
                  (text_replace "," "." (chars price_text)) in
    match float price_clean with
    | Some price =>
        let currency := if contains "â‚¬" price_text then "EUR" else "EUR" in
        (price, currency)
    | None => (0%Q, "EUR")
    end.

(** [_extract_unit] *)
Definition units : list string :=
  ["mÂ²"; "m2"; "cmÂ²"; "cm2"; "ml"; "cl"; "l"; "kg"; "g"; "piÃ¨ce"; "lot";
   "paquet"].

Definition _extract_unit (text : string) : option string :=
  if is_empty text then None
  else
    let text_lower := lower text in
    List.find (fun unit => contains (lower unit) text_lower) units.

(** [_fetch_page]; the politeness delay has no result and is left out. *)
Definition _fetch_page (get : string -> result Response) (url : string)
  : result (option string) :=
  try_except
    (bind (get url) (fun response =>
       if (status response =? 200)%Z
       then bind (text response) (fun content => Ret (Some content))
       else Ret None))
    (fun _ => Ret None).

(** [save_data]: the document written at [filepath]; [now] is the clock's
    reading.  Missing parent directories are created, which the flat store
    does not show. *)
Definition save_data (products : list Product.t) (filepath : string)
    (now : string) (fs : gmap string Storage.File)
  : gmap string Storage.File :=
  let data :=
    Snapshot.mk (Some now) (Some (Z.of_nat (length products)))
                (Some (map Storage.asdict products)) in
  <[filepath := Storage.Document (Storage.JObject data)]> fs.

Section Crawl.
Variable config : Config.
(** [urljoin] raises [ValueError] on some malformed URLs. *)
Variable urljoin : string -> string -> result string.
(** [BeautifulSoup(content, 'html.parser')] *)
Variable BeautifulSoup : string -> node.
Variable get : string -> result Response.
(** [datetime.now().isoformat()] when container [i] of page [page] is
    turned into a product. *)
Variable clock : nat -> nat -> string.

Definition or_else {A} (a b : option A) : option A :=
  match a with
  | Some _ => a
  | None => b
  end.

(** [_parse_leroymerlin_product]: the body of the [try], then the
    [except Exception] that turns a raise into [None]. *)
Definition parse_product_body (container : node) (category base : string)
    (now : string) : result (option Product.t) :=
  let name_elem :=
    or_else (find ["h2"; "h3"; "a"]
                  (class_matches ["title"; "name"; "product"]) container)
            (find ["a"] (has_attr "title") container) in
  match name_elem with
  | None => Ret None
  | Some name_elem =>
      let name :=
        if is_empty (get_text_strip name_elem)
        then default "" (Bs4.get "title" name_elem)
        else get_text_strip name_elem in
      match find ["a"] (has_attr "href") container with
      | None => Ret None
      | Some url_elem =>
          bind (urljoin base (default "" (Bs4.get "href" url_elem)))
            (fun product_url =>
          let price_elem :=
            or_else (find ["span"; "div"] (class_matches ["price"; "prix"])
                          container)
                    (find_string_parent
                       (fun s => contains "â‚¬" s || has_decimal s)
                       container) in
          let '(price, currency) :=
            _parse_price (match price_elem with
                          | Some e => get_text e
                          | None => "0"
                          end) in
          let brand :=
            option_map get_text_strip
              (find ["span"; "div"] (class_matches ["brand"; "marque"])
                    container) in
          bind (match find ["img"] (fun _ => true) container with
                | None => Ret None
                | Some img_elem =>
                    let image_url :=
                      match Bs4.get "src" img_elem with
                      | Some s => if is_empty s
                                  then Bs4.get "data-src" img_elem
                                  else Some s
                      | None => Bs4.get "data-src" img_elem
                      end in
                    match image_url with
                    | Some u =>
                        if negb (is_empty u) && negb (startswith "http" u)
                        then bind (urljoin base u) (fun j => Ret (Some j))
                        else Ret (Some u)
                    | None => Ret None
                    end
                end)
            (fun image_url =>
          let unit := _extract_unit name in
          let in_stock :=
            match find ["span"; "div"] (class_matches ["stock"; "disponib"])
                       container with
            | Some stock_elem =>
                let stock_text := lower (get_text stock_elem) in
                contains "disponible" stock_text
                || contains "en stock" stock_text
            | None => true
            end in
          Ret (Some (Product.post_init now
                       (Product.mk name category price currency product_url
                                   brand unit None image_url in_stock
                                   "Leroy Merlin" "")))))
      end
  end.

Definition _parse_leroymerlin_product (container : node)
    (category base : string) (now : string) : option Product.t :=
  match parse_product_body container category base now with
  | Ret r => r
  | Raise _ => None
  end.

(** The loop state of [_scrape_leroymerlin_category].  [fetched] is a
    ghost log of the URLs handed to [_fetch_page], latest first. *)
Record state : Type := {
  page : nat;
  products : list Product.t;
  fetched : list string
}.

Definition str_of_nat (n : nat) : string :=
  DecimalString.NilZero.string_of_uint (Nat.to_uint n).

(** The [for container in ...] loop of one page: the products parsed, in
    order; [i] is the position of the first container. *)
Fixpoint parse_containers (category : string) (pg i : nat)
    (containers : list node) : list Product.t :=
  match containers with
  | [] => []
  | c :: rest =>
      match _parse_leroymerlin_product c category (base_url config)
                                       (clock pg i) with
      | Some p => p :: parse_containers category pg (S i) rest
      | None => parse_containers category pg (S i) rest
      end
  end.

(** One turn of the [while] body: the new state, and whether the loop
    goes back to its test ([true]) or left through a [break]. *)
Definition crawl_page (category full_url : string) (st : state)
  : result (state * bool) :=
  let page_url := (full_url ++ "?page=" ++ str_of_nat (page st))%string in
  let st1 := {| page := page st; products := products st;
                fetched := page_url :: fetched st |} in
  bind (_fetch_page get page_url) (fun content =>
  match content with
  | None => Ret (st1, false)
  | Some content =>
      if is_empty content then Ret (st1, false)
      else
        let soup := BeautifulSoup content in
        let by_class :=
          find_all ["div"; "article"]
                   (class_matches ["product"; "item"; "card"]) soup in
        let product_containers :=
          match by_class with
          | [] => find_all ["div"] (has_attr "data-product-id") soup
          | _ => by_class
          end in
        match product_containers with
        | [] => Ret (st1, false)
        | _ =>
            let parsed :=
              parse_containers category (page st) 0
                (firstn (max_products_per_category config
                         - length (products st)) product_containers) in
            let st2 := {| page := page st;
                          products := products st ++ parsed;
                          fetched := fetched st1 |} in
            if (length parsed =? 0)%nat then Ret (st2, false)
            else
              let st3 := {| page := page st + 1;
                            products := products st2;
                            fetched := fetched st2 |} in
              if (10 <? page st3)%nat then Ret (st3, false)
              else Ret (st3, true)
        end
  end).

(** The [while len(products) < max_products] loop.  [None] means the
    fuel ran out before the loop was left. *)
Fixpoint crawl_loop (fuel : nat) (category full_url : string) (st : state)
  : option (result state) :=
  if (length (products st) <? max_products_per_category config)%nat then
    match fuel with
    | O => None
    | S fuel' =>
        match crawl_page category full_url st with
        | Raise e => Some (Raise e)
        | Ret (st', true) => crawl_loop fuel' category full_url st'
        | Ret (st', false) => Some (Ret st')
        end
    end
  else Some (Ret st).

(** [_scrape_leroymerlin_category]: the final loop state, whose
    [products] the function returns. *)
Definition _scrape_leroymerlin_category (fuel : nat)
    (category category_url : string) : option (result state) :=
  match urljoin (base_url config) category_url with
  | Raise e => Some (Raise e)
  | Ret full_url =>
      crawl_loop fuel category full_url
                 {| page := 1; products := []; fetched := [] |}
  end.

End Crawl.

(** The configuration as [scrape_supplier] and [scrape_all] read it: the
    suppliers in the order of the file, each with its base URL and its
    categories (key and path) in order, and the cap of the scraping
    section. *)
Record SupplierConfig : Type := {
  supplier_base_url : string;
  supplier_categories : list (string * string)
}.

Record FullConfig : Type := {
  suppliers : list (string * SupplierConfig);
  scraping_max_products : nat
}.

Section Coordinator.
Variable urljoin : string -> string -> result string.
Variable BeautifulSoup : string -> node.
Variable get : string -> result Response.
(** The clock of the crawl of each category. *)
Variable clock : string -> nat -> nat -> string.

(** [config['suppliers'][supplier_name]], when the key is there. *)
Definition supplier_config (config : FullConfig) (supplier_name : string)
  : option SupplierConfig :=
  option_map snd
    (List.find (fun kv => String.eqb (fst kv) supplier_name) (suppliers config)).

(** What [asyncio.gather] hands back: the results of the tasks in the order
    of the tasks, or the exception of a task (here the first in task order).
    [None] when a task ran out of fuel.  The semaphore bounds how many tasks
    run at once and does not change any result. *)
Fixpoint gather (tasks : list (option (result state)))
  : option (result (list state)) :=
  match tasks with
  | [] => Some (Ret [])
  | task :: rest =>
      match task, gather rest with
      | None, _ => None
      | _, None => None
      | Some (Raise e), _ => Some (Raise e)
      | Some (Ret _), Some (Raise e) => Some (Raise e)
      | Some (Ret st), Some (Ret sts) => Some (Ret (st :: sts))
      end
  end.

(** [scrape_supplier]: the flattened products and, as ghost result, the
    fetch logs of the categories in task order. *)
Definition scrape_supplier (fuel : nat) (config : FullConfig)
    (supplier_name : string) : option (result (list Product.t * list (list string))) :=
  match supplier_config config supplier_name with
  | None => Some (Ret ([], []))
  | Some supplier =>
      let tasks :=
        flat_map
          (fun cu : string * string =>
             if String.eqb supplier_name "leroymerlin"
             then [_scrape_leroymerlin_category
                     {| base_url := supplier_base_url supplier;
                        max_products_per_category := scraping_max_products config |}
                     urljoin BeautifulSoup get (clock (fst cu)) fuel
                     (fst cu) (snd cu)]
             else [])
          (supplier_categories supplier) in
      match gather tasks with
      | None => None
      | Some (Raise e) => Some (Raise e)
      | Some (Ret results) =>
          Some (Ret (flat_map products results, map fetched results))
      end
  end.

(** [scrape_all]: the suppliers one after the other, in the order of the
    configuration. *)
Fixpoint scrape_suppliers (fuel : nat) (config : FullConfig)
    (names : list string) : option (result (list Product.t * list (list string))) :=
  match names with
  | [] => Some (Ret ([], []))
  | supplier_name :: rest =>
      match scrape_supplier fuel config supplier_name with
      | None => None
      | Some (Raise e) => Some (Raise e)
      | Some (Ret (found, log)) =>
          match scrape_suppliers fuel config rest with
          | None => None
          | Some (Raise e) => Some (Raise e)
          | Some (Ret (more, logs)) => Some (Ret (found ++ more, log ++ logs))
          end
      end
  end.

Definition scrape_all (fuel : nat) (config : FullConfig)
  : option (result (list Product.t * list (list string))) :=
  scrape_suppliers fuel config (map fst (suppliers config)).

End Coordinator.

End Scraper.

(** ** api_server.py *)

Module ProductResponse.
Record t : Type := mk {
  name : string;
  category : string;
  price : Q;
  currency : string;
  product_url : string;
  brand : option string;
  unit : option string;
  pack_size : option string;
  image_url : option string;
  in_stock : bool;
  supplier : string;
  scraped_at : string
}.
End ProductResponse.

Module MaterialsResponse.
(** A value of [filters_applied]: a string, a number, a boolean, or the
    [Query(...)] default of a parameter the caller did not pass. *)
Inductive filter_value : Type :=
| FStr (s : string)
| FNum (q : Q)
| FBool (b : bool)
| FQuery.

Record t : Type := mk {
  total : Z;
  page : Z;
  per_page : Z;
  total_pages : Z;
  products : list ProductResponse.t;
  filters_applied : list (string * filter_value)
}.
End MaterialsResponse.

Module PriceRange.
Record t : Type := mk { min : Q; max : Q }.
End PriceRange.

Module CategoryResponse.
Record t : Type := mk {
  name : string;
  product_count : nat;
  average_price : Q;
  price_range : PriceRange.t;
  suppliers : list string
}.
End CategoryResponse.

Module SupplierResponse.
Record t : Type := mk {
  name : string;
  product_count : nat;
  categories : list string;
  average_price : Q;
  last_updated : string
}.
End SupplierResponse.

Module StatsResponse.
Record t : Type := mk {
  total_products : nat;
  total_suppliers : nat;
  total_categories : nat;
  average_price : Q;
  price_range : PriceRange.t;
  last_updated : string
}.
End StatsResponse.

Module ApiServer.
Import Py Storage.

(** The query parameters of [GET /materials]. *)
Record MaterialsQuery : Type := {
  page : Z;
  per_page : Z;
  category : option string;
  supplier : option string;
  min_price : option Q;
  max_price : option Q;
  brand : option string;
  in_stock : option bool;
  search : option string
}.

(** The bounds [Query(...)] declares; the framework rejects a request
    outside them before the handler runs. *)
Definition query_valid (q : MaterialsQuery) : Prop :=
  (1 <= page q)%Z /\ (1 <= per_page q <= 100)%Z
  /\ (forall m, min_price q = Some m -> 0 <= m)%Q
  /\ (forall m, max_price q = Some m -> 0 <= m)%Q.

Definition empty_dataset (now : string) : Snapshot.t :=
  Snapshot.mk (Some now) (Some 0%Z) (Some []).

(** [open(..., encoding='utf-8')] and [json.load(f)]: [open] raises on a
    missing file, reading the text raises on bytes that are not UTF-8, and
    the JSON decoder raises on text that is not a document. *)
Definition load_json (fs : gmap string File) (data_file : string)
  : result Json :=
  match fs !! data_file with
  | None => Raise FileNotFoundError
  | Some NotText => Raise UnicodeDecodeError
  | Some Garbled => Raise JSONDecodeError
  | Some (Document j) => Ret j
  end.

(** [data.get('total_products', 0)], which needs [data] to be a dict. *)
Definition get_total_products (data : Json) : result Z :=
  match data with
  | JObject d => Ret (default 0%Z (Snapshot.total_products d))
  | _ => Raise AttributeError
  end.

(** [_load_data]; a value it returns that is not a dict cannot get past
    the logging line, so the result is typed as the snapshot object. *)
Definition _load_data (fs : gmap string File) (data_file : string)
    (now : string) : result Snapshot.t :=
  match
    bind (load_json fs data_file) (fun data =>
    bind (get_total_products data) (fun _ =>
    match data with
    | JObject d => Ret d
    | _ => Raise AttributeError
    end))
  with
  | Ret d => Ret d
  | Raise FileNotFoundError => Ret (empty_dataset now)
  | Raise JSONDecodeError => Ret (empty_dataset now)
  | Raise e => Raise e
  end.

(** *** Filtering and pagination *)

(** A string parameter is applied when it is given and not empty. *)
Definition given (o : option string) : option string :=
  match o with
  | Some s => if is_empty s then None else Some s
  | None => None
  end.

Definition matches_category (category : string) (p : ProductDict.t) : bool :=
  String.eqb (lower (default "" (ProductDict.category p))) (lower category).

Definition matches_supplier (supplier : string) (p : ProductDict.t) : bool :=
  contains (lower supplier) (lower (default "" (ProductDict.supplier p))).

Definition matches_min_price (min_price : Q) (p : ProductDict.t) : bool :=
  Qle_bool min_price (default 0%Q (ProductDict.price p)).

Definition matches_max_price (max_price : Q) (p : ProductDict.t) : bool :=
  Qle_bool (default 0%Q (ProductDict.price p)) max_price.

Definition matches_brand (brand : string) (p : ProductDict.t) : bool :=
  contains (lower brand) (lower (default "" (ProductDict.brand p))).

Definition matches_in_stock (in_stock : bool) (p : ProductDict.t) : bool :=
  Bool.eqb (default true (ProductDict.in_stock p)) in_stock.

Definition matches_search (search : string) (p : ProductDict.t) : bool :=
  contains (lower search) (lower (default "" (ProductDict.name p))).

(** One [if param: products = [...]; filters_applied[...] = param] step. *)
Definition apply_filter {P} (param : option P)
    (test : P -> ProductDict.t -> bool) (key : string)
    (tag : P -> MaterialsResponse.filter_value)
    (acc : list ProductDict.t * list (string * MaterialsResponse.filter_value))
  : list ProductDict.t * list (string * MaterialsResponse.filter_value) :=
  match param with
  | Some v => (List.filter (test v) (fst acc), snd acc ++ [(key, tag v)])
  | None => acc
  end.

(** [l[start:stop]] *)
Definition slice_index (len i : Z) : Z :=
  if (i <? 0)%Z then Z.max (i + len) 0 else Z.min i len.

Definition slice {A} (l : list A) (start stop : Z) : list A :=
  let len := Z.of_nat (length l) in
  let a := slice_index len start in
  let b := slice_index len stop in
  firstn (Z.to_nat (b - a)) (skipn (Z.to_nat a) l).

(** [a // b] *)
Definition floordiv (a b : Z) : result Z :=
  if (b =? 0)%Z then Raise ZeroDivisionError else Ret (a / b)%Z.

(** [ProductResponse] built from the keys of [p]: the fields without a
    default must be there. *)
Definition to_response (p : ProductDict.t) : result ProductResponse.t :=
  match ProductDict.name p, ProductDict.category p, ProductDict.price p,
        ProductDict.product_url p, ProductDict.supplier p,
        ProductDict.scraped_at p with
  | Some name, Some category, Some price, Some product_url, Some supplier,
    Some scraped_at =>
      Ret (ProductResponse.mk name category price
             (default "EUR" (ProductDict.currency p)) product_url
             (ProductDict.brand p) (ProductDict.unit p)
             (ProductDict.pack_size p) (ProductDict.image_url p)
             (default true (ProductDict.in_stock p)) supplier scraped_at)
  | _, _, _, _, _, _ => Raise ValidationError
  end.

(** The records and the [filters_applied] the filter steps leave. *)
Definition filter_products (data : Snapshot.t) (q : MaterialsQuery)
  : list ProductDict.t * list (string * MaterialsResponse.filter_value) :=
  let acc := (default [] (Snapshot.products data), []) in
  let acc := apply_filter (given (category q)) matches_category "category"
                          MaterialsResponse.FStr acc in
  let acc := apply_filter (given (supplier q)) matches_supplier "supplier"
                          MaterialsResponse.FStr acc in
  let acc := apply_filter (min_price q) matches_min_price "min_price"
                          MaterialsResponse.FNum acc in
  let acc := apply_filter (max_price q) matches_max_price "max_price"
                          MaterialsResponse.FNum acc in
  let acc := apply_filter (given (brand q)) matches_brand "brand"
                          MaterialsResponse.FStr acc in
  let acc := apply_filter (in_stock q) matches_in_stock "in_stock"
                          MaterialsResponse.FBool acc in
  apply_filter (given (search q)) matches_search "search"
               MaterialsResponse.FStr acc.

(** [get_materials] *)
Definition get_materials (data : Snapshot.t) (q : MaterialsQuery)
  : result MaterialsResponse.t :=
  let '(products, filters_applied) := filter_products data q in
  let total := Z.of_nat (length products) in
  bind (floordiv (total + per_page q - 1) (per_page q)) (fun total_pages =>
  let start := ((page q - 1) * per_page q)%Z in
  let stop := (start + per_page q)%Z in
  let paginated_products := slice products start stop in
  bind (mapM to_response paginated_products) (fun responses =>
  Ret (MaterialsResponse.mk total (page q) (per_page q) total_pages
                            responses filters_applied))).

(** *** Aggregation *)

Definition Qltb (a b : Q) : bool := negb (Qle_bool b a).

(** [sum(prices)], [min(prices)] and [max(prices)] *)
Definition sum (prices : list Q) : Q := fold_left Qplus prices 0%Q.

Definition min_of (first : Q) (rest : list Q) : Q :=
  fold_left (fun m x => if Qltb x m then x else m) rest first.

Definition max_of (first : Q) (rest : list Q) : Q :=
  fold_left (fun m x => if Qltb m x then x else m) rest first.

(** [[p.get("price", 0) for p in products if p.get("price", 0) > 0]] *)
Definition positive_prices (products : list ProductDict.t) : list Q :=
  List.filter (fun x => Qltb 0 x)
              (map (fun p => default 0%Q (ProductDict.price p)) products).

(** [sum(prices) / len(prices) if prices else 0] *)
Definition average (prices : list Q) : Q :=
  match prices with
  | [] => 0%Q
  | _ => (sum prices / inject_Z (Z.of_nat (length prices)))%Q
  end.

Definition range (prices : list Q) : PriceRange.t :=
  match prices with
  | [] => PriceRange.mk 0 0
  | x :: rest => PriceRange.mk (min_of x rest) (max_of x rest)
  end.

(** The dict built by the grouping loops: keys in first-seen order, each
    with its records in order and the set of counterpart keys. *)
Definition groups : Type := list (string * (list ProductDict.t * gset string)).

(** One turn of the grouping loop for a record with key [key] and
    counterpart [other]. *)
Fixpoint group_add (key : string) (p : ProductDict.t) (other : string)
    (g : groups) : groups :=
  match g with
  | [] => [(key, ([p], {[other]}))]
  | (k, (ps, others)) :: rest =>
      if String.eqb k key then (k, (ps ++ [p], others ∪ {[other]})) :: rest
      else (k, (ps, others)) :: group_add key p other rest
  end.

Definition category_key (p : ProductDict.t) : string :=
  default "unknown" (ProductDict.category p).

Definition supplier_key (p : ProductDict.t) : string :=
  default "unknown" (ProductDict.supplier p).

Definition group_by (key other : ProductDict.t -> string)
    (products : list ProductDict.t) : groups :=
  fold_left (fun g p => group_add (key p) p (other p) g) products [].

(** [sorted(result, key=..., reverse=True)]: decreasing keys, entries with
    equal keys in their original order. *)
Fixpoint insert_desc {A} (key : A -> nat) (x : A) (l : list A) : list A :=
  match l with
  | [] => [x]
  | y :: r => if (key x <? key y)%nat then y :: insert_desc key x r
              else x :: y :: r
  end.

Definition sorted_desc {A} (key : A -> nat) (l : list A) : list A :=
  fold_right (insert_desc key) [] l.

Definition category_response (entry : string * (list ProductDict.t * gset string))
  : CategoryResponse.t :=
  let '(cat_name, (products, suppliers)) := entry in
  let prices := positive_prices products in
  CategoryResponse.mk cat_name (length products) (average prices)
                      (range prices) (elements suppliers).

(** [get_categories] *)
Definition get_categories (data : Snapshot.t) : list CategoryResponse.t :=
  let products := default [] (Snapshot.products data) in
  let categories := group_by category_key supplier_key products in
  sorted_desc CategoryResponse.product_count
              (map category_response categories).

Definition supplier_response (last_updated : string)
    (entry : string * (list ProductDict.t * gset string))
  : SupplierResponse.t :=
  let '(sup_name, (products, categories)) := entry in
  let prices := positive_prices products in
  SupplierResponse.mk sup_name (length products) (elements categories)
                      (average prices) last_updated.

(** [get_suppliers] *)
Definition get_suppliers (data : Snapshot.t) : list SupplierResponse.t :=
  let products := default [] (Snapshot.products data) in
  let suppliers := group_by supplier_key category_key products in
  sorted_desc SupplierResponse.product_count
              (map (supplier_response (default "" (Snapshot.scraped_at data)))
                   suppliers).

(** [get_stats] *)
Definition get_stats (data : Snapshot.t) : StatsResponse.t :=
  let products := default [] (Snapshot.products data) in
  let last_updated := default "" (Snapshot.scraped_at data) in
  match products with
  | [] => StatsResponse.mk 0 0 0 0 (PriceRange.mk 0 0) last_updated
  | _ =>
      let prices := positive_prices products in
      let suppliers : gset string := list_to_set (map supplier_key products) in
      let categories : gset string := list_to_set (map category_key products) in
      StatsResponse.mk (length products) (size suppliers) (size categories)
                       (average prices) (range prices) last_updated
  end.

(** *** The remaining endpoints and the server object *)

(** **** The handler called from Python

    When the framework serves [GET /materials] it resolves every parameter
    to a value or to [None]; [get_materials] above is the handler on such
    arguments.  In a call from Python a parameter that is not passed is its
    default, the [Query(...)] object itself: it is truthy, it is not
    [None], it has no [lower], it is not ordered with a number and it
    equals no boolean. *)
Inductive Argument (P : Type) : Type :=
| Passed (v : option P)
| QueryObject.
Arguments Passed {P} v.
Arguments QueryObject {P}.

Record MaterialsCall : Type := {
  call_page : Z;
  call_per_page : Z;
  call_category : Argument string;
  call_supplier : Argument string;
  call_min_price : Argument Q;
  call_max_price : Argument Q;
  call_brand : Argument string;
  call_in_stock : Argument bool;
  call_search : Argument string
}.

(** The comprehension [[p for p in products if test(p, param)]] when the
    test raises [e] on a [Query] object: nothing is tested, and nothing
    raised, when [products] is empty. *)
Definition filter_raising (e : exn) (key : string)
    (acc : list ProductDict.t * list (string * MaterialsResponse.filter_value))
  : result (list ProductDict.t
            * list (string * MaterialsResponse.filter_value)) :=
  match fst acc with
  | [] => Ret ([], snd acc ++ [(key, MaterialsResponse.FQuery)])
  | _ :: _ => Raise e
  end.

(** [if param:] with [param.lower()] inside the comprehension (category,
    supplier, brand). *)
Definition step_lower (param : Argument string)
    (test : string -> ProductDict.t -> bool) (key : string)
    (acc : list ProductDict.t * list (string * MaterialsResponse.filter_value))
  : result (list ProductDict.t
            * list (string * MaterialsResponse.filter_value)) :=
  match param with
  | Passed o => Ret (apply_filter (given o) test key MaterialsResponse.FStr acc)
  | QueryObject => filter_raising AttributeError key acc
  end.

(** [if param is not None:] with an order comparison inside the
    comprehension (min_price, max_price). *)
Definition step_compare (param : Argument Q)
    (test : Q -> ProductDict.t -> bool) (key : string)
    (acc : list ProductDict.t * list (string * MaterialsResponse.filter_value))
  : result (list ProductDict.t
            * list (string * MaterialsResponse.filter_value)) :=
  match param with
  | Passed o => Ret (apply_filter o test key MaterialsResponse.FNum acc)
  | QueryObject => filter_raising TypeError key acc
  end.

(** [if in_stock is not None:] with [==] inside the comprehension: no
    record equals a [Query] object. *)
Definition step_equal (param : Argument bool) (key : string)
    (acc : list ProductDict.t * list (string * MaterialsResponse.filter_value))
  : result (list ProductDict.t
            * list (string * MaterialsResponse.filter_value)) :=
  match param with
  | Passed o =>
      Ret (apply_filter o matches_in_stock key MaterialsResponse.FBool acc)
  | QueryObject => Ret ([], snd acc ++ [(key, MaterialsResponse.FQuery)])
  end.

(** [if search:] with [search_lower = search.lower()] ahead of the
    comprehension. *)
Definition step_search (param : Argument string) (key : string)
    (acc : list ProductDict.t * list (string * MaterialsResponse.filter_value))
  : result (list ProductDict.t
            * list (string * MaterialsResponse.filter_value)) :=
  match param with
  | Passed o =>
      Ret (apply_filter (given o) matches_search key MaterialsResponse.FStr acc)
  | QueryObject => Raise AttributeError
  end.

(** The body of [get_materials] in a call from Python. *)
Definition get_materials_call (data : Snapshot.t) (c : MaterialsCall)
  : result MaterialsResponse.t :=
  let acc := (default [] (Snapshot.products data), []) in
  bind (step_lower (call_category c) matches_category "category" acc)
    (fun acc =>
  bind (step_lower (call_supplier c) matches_supplier "supplier" acc)
    (fun acc =>
  bind (step_compare (call_min_price c) matches_min_price "min_price" acc)
    (fun acc =>
  bind (step_compare (call_max_price c) matches_max_price "max_price" acc)
    (fun acc =>
  bind (step_lower (call_brand c) matches_brand "brand" acc) (fun acc =>
  bind (step_equal (call_in_stock c) "in_stock" acc) (fun acc =>
  bind (step_search (call_search c) "search" acc) (fun acc =>
  let '(products, filters_applied) := acc in
  let total := Z.of_nat (length products) in
  bind (floordiv (total + call_per_page c - 1) (call_per_page c))
    (fun total_pages =>
  let start := ((call_page c - 1) * call_per_page c)%Z in
  let stop := (start + call_per_page c)%Z in
  let paginated_products := slice products start stop in
  bind (mapM to_response paginated_products) (fun responses =>
  Ret (MaterialsResponse.mk total (call_page c) (call_per_page c) total_pages
                            responses filters_applied)))))))))).

(** The call in which every parameter is passed, as the framework does. *)
Definition passed (q : MaterialsQuery) : MaterialsCall :=
  {| call_page := page q; call_per_page := per_page q;
     call_category := Passed (category q);
     call_supplier := Passed (supplier q);
     call_min_price := Passed (min_price q);
     call_max_price := Passed (max_price q);
     call_brand := Passed (brand q);
     call_in_stock := Passed (in_stock q);
     call_search := Passed (search q) |}.

(** [get_materials_by_category]:
    [get_materials(page=page, per_page=per_page, category=category)], a
    call from Python that passes three of the nine parameters. *)
Definition get_materials_by_category (data : Snapshot.t) (category : string)
    (page per_page : Z) : result MaterialsResponse.t :=
  get_materials_call data
    {| call_page := page; call_per_page := per_page;
       call_category := Passed (Some category);
       call_supplier := QueryObject; call_min_price := QueryObject;
       call_max_price := QueryObject; call_brand := QueryObject;
       call_in_stock := QueryObject; call_search := QueryObject |}.

(** The fields of [root] and [health_check] that come from the data. *)
Definition root_total_products (data : Snapshot.t) : Z :=
  default 0%Z (Snapshot.total_products data).

Definition root_last_updated (data : Snapshot.t) : string :=
  default "" (Snapshot.scraped_at data).

(** The server object: the file it reads and the data it holds. *)
Record DonizoAPI : Type := {
  data_file : string;
  data : Snapshot.t
}.

(** [DonizoAPI.__init__] *)
Definition DonizoAPI_init (fs : gmap string File) (data_file now : string)
  : result DonizoAPI :=
  bind (_load_data fs data_file now) (fun d =>
  Ret {| data_file := data_file; data := d |}).

(** [refresh_data]: the server after the reload and [products_loaded]. *)
Definition refresh_data (api : DonizoAPI) (fs : gmap string File) (now : string)
  : result (DonizoAPI * Z) :=
  bind (_load_data fs (data_file api) now) (fun d =>
  Ret ({| data_file := data_file api; data := d |}, root_total_products d)).

End ApiServer.

(** ** scraper.py: the summary of a run *)

Module Summary.
Import Py.

Record t : Type := mk {
  total_products : nat;
  categories : list (string * nat);
  suppliers : list (string * nat);
  average_price : Q;
  price_range : PriceRange.t
}.

(** [d[k] = d.get(k, 0) + 1] on a dict kept in insertion order. *)
Fixpoint count_add (k : string) (d : list (string * nat)) : list (string * nat) :=
  match d with
  | [] => [(k, 1%nat)]
  | (k', n) :: rest =>
      if String.eqb k' k then (k', (n + 1)%nat) :: rest
      else (k', n) :: count_add k rest
  end.

(** [get_summary]; [None] is the empty dict returned when nothing was
    scraped. *)
Definition get_summary (products : list Product.t) : option t :=
  match products with
  | [] => None
  | first :: rest =>
      let categories :=
        fold_left (fun d p => count_add (Product.category p) d) products [] in
      let suppliers :=
        fold_left (fun d p => count_add (Product.supplier p) d) products [] in
      let total_value :=
        fold_left (fun v p => (v + Product.price p)%Q) products 0%Q in
      Some (mk (length products) categories suppliers
               (total_value / inject_Z (Z.of_nat (length products)))%Q
               (PriceRange.mk
                  (ApiServer.min_of (Product.price first) (map Product.price rest))
                  (ApiServer.max_of (Product.price first) (map Product.price rest))))
  end.

End Summary.

(** ** Reference notions the properties are stated with *)

Module Reference.
Import Py.

(** The number a decimal numeral [ip.fp] (or [ip,fp]) denotes. *)
Definition decimal_value (ip fp : string) : Q :=
  (inject_Z (digits_value ip)
   + inject_Z (digits_value fp) / inject_Z (Zpos (pow10 (String.length fp))))%Q.

(** A run of decimal digits with at least one digit. *)
Definition is_digits (s : string) : bool :=
  str_forall is_digit s && negb (is_empty s).

(** [ceil(n / d)] for a positive [d]. *)
Definition ceil_div (n d : Z) : Z := (- ((- n) / d))%Z.

(** A success status of HTTP. *)
Definition is_success (status : Z) : bool :=
  (200 <=? status)%Z && (status <? 300)%Z.

(** A stand-in for [urljoin] on the inputs of the examples: an absolute
    reference is kept, a relative one is appended to the base. *)
Definition join (base url : string) : result string :=
  if startswith "http" url then Ret url else Ret (base ++ url)%string.

(** A container with a classed anchor that holds only an image. *)
Definition image_only_card : Bs4.node :=
  Bs4.Tag "div" [("class", "product-card")]
      [Bs4.Tag "a" [("class", "product-link"); ("href", "/p/1")]
           [Bs4.Tag "img" [("src", "/img/1.jpg")] []]].

(** A container whose stock element reads "Indisponible". *)
Definition out_of_stock_card : Bs4.node :=
  Bs4.Tag "div" [("class", "product-card")]
      [Bs4.Tag "a" [("class", "product-title"); ("href", "/p/2")] [Bs4.Text "Lavabo"];
       Bs4.Tag "span" [("class", "stock-info")] [Bs4.Text "Indisponible"]].

(** A site that serves the same one-product page at every URL. *)
Definition endless_get (url : string) : result Scraper.Response :=
  Ret {| Scraper.status := 200; Scraper.text := Ret "<html>page</html>" |}.

Definition endless_soup (content : string) : Bs4.node :=
  Bs4.Tag "[document]" []
    [Bs4.Tag "div" [("class", "product-card")]
       [Bs4.Tag "a" [("class", "product-title"); ("href", "/p/7")]
          [Bs4.Text "Carrelage gris"]]].

(** The records of a snapshot. *)
Definition records (data : Snapshot.t) : list ProductDict.t :=
  default [] (Snapshot.products data).

(** A filter that was not supplied accepts every record. *)
Definition supplied {P} (param : option P) (test : P -> ProductDict.t -> bool)
    (p : ProductDict.t) : bool :=
  match param with
  | Some v => test v p
  | None => true
  end.

(** The record satisfies every filter the query supplies. *)
Definition satisfies (q : ApiServer.MaterialsQuery) (p : ProductDict.t) : bool :=
  supplied (ApiServer.given (ApiServer.category q)) ApiServer.matches_category p
  && supplied (ApiServer.given (ApiServer.supplier q)) ApiServer.matches_supplier p
  && supplied (ApiServer.min_price q) ApiServer.matches_min_price p
  && supplied (ApiServer.max_price q) ApiServer.matches_max_price p
  && supplied (ApiServer.given (ApiServer.brand q)) ApiServer.matches_brand p
  && supplied (ApiServer.in_stock q) ApiServer.matches_in_stock p
  && supplied (ApiServer.given (ApiServer.search q)) ApiServer.matches_search p.

(** The records of page [page] (counted from 1) at [per_page] a page. *)
Definition window {A} (l : list A) (page per_page : Z) : list A :=
  firstn (Z.to_nat per_page) (skipn (Z.to_nat ((page - 1) * per_page)) l).

(** The record has every key [ProductResponse] requires. *)
Definition complete (p : ProductDict.t) : bool :=
  match ProductDict.name p, ProductDict.category p, ProductDict.price p,
        ProductDict.product_url p, ProductDict.supplier p,
        ProductDict.scraped_at p with
  | Some _, Some _, Some _, Some _, Some _, Some _ => true
  | _, _, _, _, _, _ => false
  end.

(** A query with no filter. *)
Definition unfiltered (page per_page : Z) : ApiServer.MaterialsQuery :=
  {| ApiServer.page := page; ApiServer.per_page := per_page;
     ApiServer.category := None; ApiServer.supplier := None;
     ApiServer.min_price := None; ApiServer.max_price := None;
     ApiServer.brand := None; ApiServer.in_stock := None;
     ApiServer.search := None |}.

(** A complete record of category [c] and supplier [s] priced [price]. *)
Definition record (name c : string) (price : Q) (s : string) : ProductDict.t :=
  ProductDict.mk (Some name) (Some c) (Some price) (Some "EUR")
                 (Some "https://www.leroymerlin.fr/p") None None None None
                 (Some true) (Some s) (Some "2024-01-01T00:00:00").

(** [p.get("price", 0)] *)
Definition price_of (p : ProductDict.t) : Q := default 0%Q (ProductDict.price p).

(** The records whose key is [k]. *)
Definition with_key (key : ProductDict.t -> string) (k : string)
    (l : list ProductDict.t) : list ProductDict.t :=
  List.filter (fun p => String.eqb (key p) k) l.

(** The prices of the records of key [k] that are strictly positive. *)
Definition priced (key : ProductDict.t -> string) (k : string)
    (l : list ProductDict.t) : list Q :=
  map price_of
      (List.filter (fun p => String.eqb (key p) k && negb (Qle_bool (price_of p) 0)) l).

(** The prices of all the records that are strictly positive. *)
Definition priced_all (l : list ProductDict.t) : list Q :=
  map price_of (List.filter (fun p => negb (Qle_bool (price_of p) 0)) l).

Definition total (l : list Q) : Q := fold_right Qplus 0%Q l.

(** The mean of a list, and 0 for the empty one. *)
Definition mean (l : list Q) : Q :=
  match l with
  | [] => 0%Q
  | _ => (total l / inject_Z (Z.of_nat (length l)))%Q
  end.

(** [m] is the least (greatest) element of [l], and 0 when [l] is empty. *)
Definition least (m : Q) (l : list Q) : Prop :=
  match l with
  | [] => m = 0%Q
  | _ => In m l /\ forall x, In x l -> (m <= x)%Q
  end.

Definition greatest (m : Q) (l : list Q) : Prop :=
  match l with
  | [] => m = 0%Q
  | _ => In m l /\ forall x, In x l -> (x <= m)%Q
  end.

(** The catalog of the aggregation example: category cat1 has records
    priced 10, 20 and one unparsed record priced 0. *)
Definition cat1_catalog : Snapshot.t :=
  Snapshot.mk (Some "2024-01-01T00:00:00") (Some 4%Z)
    (Some [record "P1" "cat1" 10 "S1"; record "P2" "cat2" 30 "S2";
           record "P3" "cat1" 20 "S1"; record "P4" "cat1" 0 "S2"]).

(** The entry of key [k] in the dict of groups. *)
Definition entry_of (k : string) (g : ApiServer.groups)
  : option (string * (list ProductDict.t * gset string)) :=
  List.find (fun e => String.eqb (fst e) k) g.

(** What the dict holds once the records [seen] went through the grouping
    loop: under each key, exactly the records of that key, in order. *)
Definition grouped (key : ProductDict.t -> string) (g : ApiServer.groups)
    (seen : list ProductDict.t) : Prop :=
  List.NoDup (map fst g)
  /\ forall k,
       match entry_of k g with
       | Some (k', (ps, _)) => k' = k /\ ps = with_key key k seen /\ ps <> []
       | None => with_key key k seen = []
       end.

(** The characters the price cleaner keeps. *)
Definition keep (ch : Py.char) : bool :=
  Py.is_decimal ch || Py.char_is "," ch || Py.char_is "." ch.

(** The text the price cleaner hands to [float]. *)
Definition clean (s : string) : list Py.char :=
  List.filter keep (Py.text_replace "," "." (Py.chars s)).

(** The one-byte characters of an ASCII text. *)
Fixpoint bytes (s : string) : list Py.char :=
  match s with
  | EmptyString => []
  | String c r => Py.Byte c :: bytes r
  end.

(** The number of commas and periods among the characters of a text. *)
Definition separator_chars (t : list Py.char) : nat :=
  length (List.filter (fun ch => Py.char_is "," ch || Py.char_is "." ch) t).

(** The number of commas and periods of a text. *)
Fixpoint separators (s : string) : nat :=
  match s with
  | EmptyString => 0%nat
  | String c r =>
      ((if Ascii.eqb c "," || Ascii.eqb c "." then 1 else 0) + separators r)%nat
  end.

(** The number of periods of a text. *)
Fixpoint points (s : string) : nat :=
  match s with
  | EmptyString => 0%nat
  | String c r => ((if Ascii.eqb c "." then 1 else 0) + points r)%nat
  end.

(** The URL of page [k] of a category. *)
Definition page_url (full_url : string) (k : nat) : string :=
  (full_url ++ "?page=" ++ Scraper.str_of_nat k)%string.

(** The product containers of a page: the [div]s and [article]s with a
    product/item/card class, or else the [div]s with [data-product-id]. *)
Definition containers_of (soup : Bs4.node) : list Bs4.node :=
  let by_class :=
    Bs4.find_all ["div"; "article"]
                 (Bs4.class_matches ["product"; "item"; "card"]) soup in
  match by_class with
  | [] => Bs4.find_all ["div"] (Bs4.has_attr "data-product-id") soup
  | _ => by_class
  end.

(** What the crawl of [category] stamps on a record. *)
Definition stamped (category : string) (p : Product.t) : Prop :=
  Product.category p = category
  /\ Product.supplier p = "Leroy Merlin"
  /\ Product.currency p = "EUR"
  /\ (0 <= Product.price p)%Q.

(** The log lists the pages 1, 2, ... once each, latest first. *)
Definition in_sequence (full_url : string) (st : Scraper.state) : Prop :=
  (1 <= Scraper.page st)%nat
  /\ Scraper.fetched st = rev (map (page_url full_url) (seq 1 (Scraper.page st - 1))).

(** The number of categories configured under a supplier name. *)
Definition category_count (config : Scraper.FullConfig) (supplier_name : string)
  : nat :=
  match Scraper.supplier_config config supplier_name with
  | Some supplier => length (Scraper.supplier_categories supplier)
  | None => 0%nat
  end.

(** The response of a record of the scraper, field for field. *)
Definition response_of (p : Product.t) : ProductResponse.t :=
  ProductResponse.mk (Product.name p) (Product.category p) (Product.price p)
                     (Product.currency p) (Product.product_url p)
                     (Product.brand p) (Product.unit p) (Product.pack_size p)
                     (Product.image_url p) (Product.in_stock p)
                     (Product.supplier p) (Product.scraped_at p).

(** The response of a complete record: its keys, and the defaults of
    [ProductResponse] for the optional ones. *)
Definition response_with_defaults (p : ProductDict.t) : ProductResponse.t :=
  ProductResponse.mk (default "" (ProductDict.name p))
                     (default "" (ProductDict.category p))
                     (default 0%Q (ProductDict.price p))
                     (default "EUR" (ProductDict.currency p))
                     (default "" (ProductDict.product_url p))
                     (ProductDict.brand p) (ProductDict.unit p)
                     (ProductDict.pack_size p) (ProductDict.image_url p)
                     (default true (ProductDict.in_stock p))
                     (default "" (ProductDict.supplier p))
                     (default "" (ProductDict.scraped_at p)).

(** The query [q] asked for page [page]. *)
Definition on_page (q : ApiServer.MaterialsQuery) (page : Z)
  : ApiServer.MaterialsQuery :=
  {| ApiServer.page := page; ApiServer.per_page := ApiServer.per_page q;
     ApiServer.category := ApiServer.category q;
     ApiServer.supplier := ApiServer.supplier q;
     ApiServer.min_price := ApiServer.min_price q;
     ApiServer.max_price := ApiServer.max_price q;
     ApiServer.brand := ApiServer.brand q;
     ApiServer.in_stock := ApiServer.in_stock q;
     ApiServer.search := ApiServer.search q |}.

(** The entry a supplied filter leaves in [filters_applied]. *)
Definition echo {P} (param : option P) (key : string)
    (tag : P -> MaterialsResponse.filter_value)
  : list (string * MaterialsResponse.filter_value) :=
  match param with
  | Some v => [(key, tag v)]
  | None => []
  end.

(** The filters a query supplies, in the order the handler tests them. *)
Definition applied (q : ApiServer.MaterialsQuery)
  : list (string * MaterialsResponse.filter_value) :=
  echo (ApiServer.given (ApiServer.category q)) "category" MaterialsResponse.FStr
  ++ echo (ApiServer.given (ApiServer.supplier q)) "supplier" MaterialsResponse.FStr
  ++ echo (ApiServer.min_price q) "min_price" MaterialsResponse.FNum
  ++ echo (ApiServer.max_price q) "max_price" MaterialsResponse.FNum
  ++ echo (ApiServer.given (ApiServer.brand q)) "brand" MaterialsResponse.FStr
  ++ echo (ApiServer.in_stock q) "in_stock" MaterialsResponse.FBool
  ++ echo (ApiServer.given (ApiServer.search q)) "search" MaterialsResponse.FStr.

(** The query with its empty string parameters left out. *)
Definition without_empty (q : ApiServer.MaterialsQuery) : ApiServer.MaterialsQuery :=
  {| ApiServer.page := ApiServer.page q; ApiServer.per_page := ApiServer.per_page q;
     ApiServer.category := ApiServer.given (ApiServer.category q);
     ApiServer.supplier := ApiServer.given (ApiServer.supplier q);
     ApiServer.min_price := ApiServer.min_price q;
     ApiServer.max_price := ApiServer.max_price q;
     ApiServer.brand := ApiServer.given (ApiServer.brand q);
     ApiServer.in_stock := ApiServer.in_stock q;
     ApiServer.search := ApiServer.given (ApiServer.search q) |}.

(** Two catalogs of one supplier with the same number of records and the
    same mean price, and different least and greatest prices. *)
Definition narrow_catalog : Snapshot.t :=
  Snapshot.mk (Some "2024-01-01T00:00:00") (Some 2%Z)
    (Some [record "P1" "cat1" 10 "S1"; record "P2" "cat1" 20 "S1"]).

Definition wide_catalog : Snapshot.t :=
  Snapshot.mk (Some "2024-01-01T00:00:00") (Some 2%Z)
    (Some [record "P1" "cat1" 5 "S1"; record "P2" "cat1" 25 "S1"]).

(** The distinct keys of a list, in the order of their first occurrence. *)
Definition first_seen (keys : list string) : list string :=
  fold_left (fun seen k => if existsb (String.eqb k) seen then seen else seen ++ [k])
            keys [].

(** The key of a group and the number of its records. *)
Definition size_of (e : string * (list ProductDict.t * gset string)) : string * nat :=
  (fst e, length (fst (snd e))).

(** Three records of one category priced 10, 20 and 0. *)
Definition three_products : list Product.t :=
  [Product.mk "P1" "cat1" 10 "EUR" "https://www.leroymerlin.fr/p/1" None None None
              None true "Leroy Merlin" "2024-01-01T00:00:00";
   Product.mk "P2" "cat1" 20 "EUR" "https://www.leroymerlin.fr/p/2" None None None
              None true "Leroy Merlin" "2024-01-01T00:00:00";
   Product.mk "P3" "cat1" 0 "EUR" "https://www.leroymerlin.fr/p/3" None None None
              None true "Leroy Merlin" "2024-01-01T00:00:00"].

End Reference.

(** * Properties *)

(** ** Strings and numerals *)

Module PyFacts.
Import Py.

Lemma app_empty_r (s : string) : (s ++ EmptyString)%string = s.
Proof. induction s as [|c s IH]; simpl; [reflexivity | now rewrite IH]. Qed.

Lemma str_exists_app f (a b : string) :
  str_exists f (a ++ b) = str_exists f a || str_exists f b.
Proof.
  induction a as [|c a IH]; simpl; [reflexivity |].
  now rewrite IH, orb_assoc.
Qed.

Lemma is_digit_not_comma c : is_digit c = true -> Ascii.eqb c "," = false.
Proof.
  intros H. destruct (Ascii.eqb_spec c ","); [subst; discriminate | reflexivity].
Qed.

Lemma is_digit_not_point c : is_digit c = true -> Ascii.eqb c "." = false.
Proof.
  intros H. destruct (Ascii.eqb_spec c "."); [subst; discriminate | reflexivity].
Qed.

Lemma split_point_digits (ip rest : string) :
  str_forall is_digit ip = true ->
  split_point (ip ++ String "." rest) = (ip, Some rest).
Proof.
  induction ip as [|c ip IH]; simpl; [reflexivity |].
  intros [Hc Hs]%andb_prop.
  now rewrite (is_digit_not_point c Hc), IH.
Qed.

(** What [split_point] returns spells the string it was given. *)
Lemma split_point_spell (s : string) :
  s = (fst (split_point s)
       ++ match snd (split_point s) with
          | Some fp => String "." fp
          | None => EmptyString
          end)%string.
Proof.
  induction s as [|c s IH]; simpl; [reflexivity |].
  destruct (Ascii.eqb_spec c ".") as [->|Hne]; simpl; [reflexivity |].
  destruct (split_point s) as [a b]; simpl in *. rewrite IH at 1. reflexivity.
Qed.

Lemma forall_digit_exists (s : string) :
  str_forall is_digit s = true -> is_empty s = false ->
  str_exists is_digit s = true.
Proof.
  destruct s as [|c s]; simpl; [discriminate |].
  intros [Hc _]%andb_prop _. now rewrite Hc.
Qed.

(** The parser fails on a string without a digit. *)
Lemma string_to_double_no_digit (s : string) :
  str_exists is_digit s = false -> string_to_double s = None.
Proof.
  intros Hno. unfold string_to_double.
  pose proof (split_point_spell s) as Hs.
  destruct (split_point s) as [ip [fp|]]; simpl in Hs.
  - destruct (str_forall is_digit ip) eqn:Hip; [| reflexivity].
    destruct (str_forall is_digit fp) eqn:Hfp; [| reflexivity].
    destruct (is_empty ip) eqn:Ei, (is_empty fp) eqn:Ef; simpl;
      try reflexivity; exfalso;
      rewrite Hs, str_exists_app in Hno; simpl in Hno;
      apply orb_false_elim in Hno as [H1 H2].
    + rewrite (forall_digit_exists fp Hfp Ef) in H2. discriminate.
    + rewrite (forall_digit_exists ip Hip Ei) in H1. discriminate.
    + rewrite (forall_digit_exists ip Hip Ei) in H1. discriminate.
  - rewrite app_empty_r in Hs. subst ip.
    destruct (str_forall is_digit s) eqn:Hd; [| reflexivity].
    destruct (is_empty s) eqn:Es; [reflexivity |].
    rewrite (forall_digit_exists s Hd Es) in Hno. discriminate.
Qed.

(** *** Decoding *)

(** An ASCII digit, a comma and a period are characters of one byte. *)
Lemma is_digit_single (c : ascii) : is_digit c = true -> classify c = Single.
Proof.
  destruct c as [[] [] [] [] [] [] [] []]; intros H; vm_compute in H;
    try discriminate H; reflexivity.
Qed.

Lemma separator_single (c : ascii) :
  Ascii.eqb c "," || Ascii.eqb c "." = true -> classify c = Single.
Proof.
  destruct (Ascii.eqb_spec c ",") as [-> | _]; [reflexivity |].
  destruct (Ascii.eqb_spec c ".") as [-> | _]; [reflexivity | discriminate].
Qed.

Lemma chars_single (c : ascii) (r : string) :
  classify c = Single -> chars (String c r) = Byte c :: chars r.
Proof. intros H. unfold chars. cbn [chars_from]. now rewrite H. Qed.

(** The value of a digit beyond ASCII is below ten, so [float] turns it into
    an ASCII digit. *)
Lemma wide_decimal_digit (cp d : N) :
  wide_decimal cp = Some d -> is_digit (ascii_of_N (48 + d)) = true.
Proof.
  unfold wide_decimal.
  destruct (List.find _ decimal_zeros) as [zero|] eqn:E; [| discriminate].
  cbn [option_map]. intros [= <-].
  apply List.find_some in E as [_ [Hlo Hhi]%andb_prop].
  apply N.leb_le in Hlo. apply N.ltb_lt in Hhi.
  assert (Hd : (cp - zero < 10)%N) by lia.
  destruct (cp - zero)%N as [|p]; [reflexivity |].
  repeat (destruct p as [p|p|]; try reflexivity; try lia).
Qed.

Lemma is_decimal_byte (a : ascii) : is_decimal (Byte a) = is_digit a.
Proof. unfold is_decimal, decimal. now destruct (is_digit a). Qed.

End PyFacts.

(** ** The price parser *)

Module ParsePriceSpec.
Import Py PyFacts Reference Scraper.

Lemma keep_byte (a : ascii) :
  keep (Byte a) = is_digit a || Ascii.eqb a "," || Ascii.eqb a ".".
Proof. unfold keep. now rewrite is_decimal_byte. Qed.

Lemma keep_wide (cp : N) : keep (Wide cp) = is_decimal (Wide cp).
Proof. unfold keep. cbn [char_is]. now rewrite !orb_false_r. Qed.

(** The cleaner, one character of one byte at a time. *)
Lemma clean_single (c : ascii) (r : string) :
  classify c = Single ->
  clean (String c r)
  = let ch := if Ascii.eqb c "," then Byte "." else Byte c in
    if keep ch then ch :: clean r else clean r.
Proof.
  intros H. unfold clean. rewrite (chars_single c r H).
  unfold text_replace. cbn [map char_is List.filter].
  now destruct (Ascii.eqb c ",").
Qed.

(** A run of ASCII digits goes through the cleaner unchanged. *)
Lemma clean_digits (a b : string) :
  str_forall is_digit a = true -> clean (a ++ b) = bytes a ++ clean b.
Proof.
  induction a as [|c a IH]; [reflexivity |].
  cbn [str_forall]. intros [Hc Ha]%andb_prop.
  change ((String c a ++ b)%string) with (String c (a ++ b)).
  rewrite (clean_single c _ (is_digit_single c Hc)).
  cbv zeta. rewrite (is_digit_not_comma c Hc).
  unfold keep. rewrite is_decimal_byte, Hc. cbn [orb bytes app].
  now rewrite (IH Ha).
Qed.

Lemma clean_separator (sep b : string) :
  sep = "," \/ sep = "." -> clean (sep ++ b) = Byte "." :: clean b.
Proof. intros [-> | ->]; apply clean_single; reflexivity. Qed.

Lemma ascii_decimal_bytes (a : string) (t : list char) :
  ascii_decimal (bytes a ++ t) = (a ++ ascii_decimal t)%string.
Proof. induction a as [|c a IH]; simpl; [reflexivity | now rewrite IH]. Qed.

(** The cleaner turns [ip sep fp suffix] into [ip.fp]. *)
Lemma clean_decimal (ip fp sep suffix : string) :
  str_forall is_digit ip = true ->
  str_forall is_digit fp = true ->
  sep = "," \/ sep = "." ->
  clean suffix = [] ->
  ascii_decimal (clean (ip ++ sep ++ fp ++ suffix))
  = (ip ++ String "." fp)%string.
Proof.
  intros Hip Hfp Hsep Hsuf.
  rewrite (clean_digits ip _ Hip), (clean_separator sep _ Hsep).
  rewrite (clean_digits fp _ Hfp), Hsuf.
  rewrite ascii_decimal_bytes. cbn [ascii_decimal to_ascii].
  rewrite ascii_decimal_bytes. cbn [ascii_decimal].
  now rewrite app_empty_r.
Qed.

Lemma string_to_double_decimal (ip fp : string) :
  is_digits ip = true -> is_digits fp = true ->
  exists v, string_to_double (ip ++ String "." fp) = Some v
            /\ (v == decimal_value ip fp)%Q.
Proof.
  unfold is_digits. intros [Hip Ni]%andb_prop [Hfp Nf]%andb_prop.
  unfold string_to_double. rewrite (split_point_digits ip fp Hip), Hip, Hfp.
  apply negb_true_iff in Ni. rewrite Ni. simpl.
  eexists; split; [reflexivity |].
  unfold decimal_value. rewrite Qmake_Qdiv, inject_Z_plus, inject_Z_mult.
  field. discriminate.
Qed.

Lemma parse_price_clean_form (s : string) :
  _parse_price s
  = if is_empty s then (0%Q, "EUR")
    else match float (clean s) with
         | Some price => (price, "EUR")
         | None => (0%Q, "EUR")
         end.
Proof.
  unfold _parse_price, clean, keep. destruct (is_empty s); [reflexivity |].
  destruct (float _); [| reflexivity]. now destruct (contains _ _).
Qed.

(** A text without a decimal digit leaves [float] nothing to read. *)
Lemma clean_no_decimal (t : list char) :
  existsb is_decimal t = false ->
  str_exists is_digit
    (ascii_decimal (List.filter keep (text_replace "," "." t))) = false.
Proof.
  induction t as [|ch t IH]; [reflexivity |].
  cbn [existsb]. intros [Hc Ht]%orb_false_elim.
  unfold text_replace in *. cbn [map List.filter].
  destruct ch as [a|cp]; cbn [char_is].
  - rewrite is_decimal_byte in Hc.
    destruct (Ascii.eqb a ",") eqn:Ec.
    + change (keep (Byte ".")) with true. cbn [ascii_decimal to_ascii str_exists].
      exact (IH Ht).
    + unfold keep. rewrite is_decimal_byte, Hc. cbn [char_is orb]. rewrite Ec.
      cbn [orb].
      destruct (Ascii.eqb a "."); [| exact (IH Ht)].
      cbn [ascii_decimal to_ascii str_exists]. rewrite Hc. exact (IH Ht).
  - unfold keep. rewrite Hc. cbn [char_is orb]. exact (IH Ht).
Qed.

Lemma parse_price_no_decimal (s : string) :
  has_decimal s = false -> _parse_price s = (0%Q, "EUR").
Proof.
  intros Hno. rewrite parse_price_clean_form.
  destruct (is_empty s); [reflexivity |].
  unfold float, clean.
  now rewrite (string_to_double_no_digit _ (clean_no_decimal _ Hno)).
Qed.

Lemma parse_price_currency (s : string) : snd (_parse_price s) = "EUR".
Proof.
  rewrite parse_price_clean_form. destruct (is_empty s); [reflexivity |].
  now destruct (float _).
Qed.

(** C2.  A price written as digits, a comma or a period, digits, and
    then nothing, the euro sign, or a space and the euro sign, parses to the
    number the numeral denotes with the comma read as the decimal separator,
    in EUR.  A text without any decimal digit, the empty one included, parses
    to [(0, EUR)], and the currency is EUR on every text.  A decimal digit is
    one of any script, as [\d] and [float] take it: the Arabic-Indic
    numeral for 123 is numeric and parses to 123.  The parser is a total
    function: the [ValueError] of [float] is the only exception its body can
    meet and it is handled.  The two examples of the specification are
    instances. *)
Theorem parse_price_contract :
  (forall ip fp sep suffix : string,
      is_digits ip = true -> is_digits fp = true ->
      sep = "," \/ sep = "." ->
      suffix = "" \/ suffix = "€" \/ suffix = " €" ->
      exists v, _parse_price (ip ++ sep ++ fp ++ suffix) = (v, "EUR")
                /\ (v == decimal_value ip fp)%Q)
  /\ (forall s : string,
         has_decimal s = false -> _parse_price s = (0%Q, "EUR"))
  /\ (forall s : string, snd (_parse_price s) = "EUR")
  /\ _parse_price "29,99 €" = (29.99%Q, "EUR")
  /\ _parse_price "invalid" = (0%Q, "EUR")
  /\ _parse_price "١٢٣" = (123%Q, "EUR").
Proof.
  split; [| split; [exact parse_price_no_decimal
                   | split; [exact parse_price_currency
                            | repeat split; reflexivity]]].
  intros ip fp sep suffix Hip Hfp Hsep Hsuf.
  destruct (string_to_double_decimal ip fp Hip Hfp) as (v & Hv & Hval).
  exists v. split; [| exact Hval].
  pose proof Hip as [Hip' Ni]%andb_prop. pose proof Hfp as [Hfp' _]%andb_prop.
  rewrite parse_price_clean_form.
  assert (He : is_empty (ip ++ sep ++ fp ++ suffix) = false).
  { destruct ip; [discriminate | reflexivity]. }
  rewrite He. unfold float.
  rewrite (clean_decimal ip fp sep suffix Hip' Hfp' Hsep).
  - now rewrite Hv.
  - destruct Hsuf as [-> | [-> | ->]]; reflexivity.
Qed.

Lemma parse_price_contract_witness :
  exists v, _parse_price ("159" ++ "." ++ "50" ++ "€") = (v, "EUR")
            /\ (v == decimal_value "159" "50")%Q.
Proof.
  apply (proj1 parse_price_contract "159" "50" "." "€");
    [reflexivity | reflexivity | right; reflexivity
    | right; left; reflexivity].
Defined.

End ParsePriceSpec.

(** ** Fetching one page *)

Module FetchSpec.
Import Py Reference Scraper.

(** C4, as stated, fails.  A response with status 201 is a success of
    HTTP, and its body is dropped. *)
Lemma fetch_page_drops_201 :
  is_success 201 = true
  /\ _fetch_page (fun _ => Ret {| status := 201; text := Ret "<html></html>" |})
                 "https://www.leroymerlin.fr/carrelage?page=1"
     = Ret None.
Proof. split; reflexivity. Qed.

(** A 404, a timeout and a transport error all come back as [None]; a 200
    comes back as its body. *)
Example fetch_page_outcomes :
  _fetch_page (fun _ => Ret {| status := 404; text := Ret "not found" |}) "u"
  = Ret None
  /\ _fetch_page (fun _ => Raise TimeoutError) "u" = Ret None
  /\ _fetch_page (fun _ => Raise ClientError) "u" = Ret None
  /\ _fetch_page (fun _ => Ret {| status := 200;
                                  text := Ret "<html>Test content</html>" |}) "u"
     = Ret (Some "<html>Test content</html>").
Proof. repeat split. Qed.

(** C4, amended.  [_fetch_page] returns the body exactly when the response
    has status 200 and its text could be read; for every other status, for
    a text that cannot be read and for every exception of the transport it
    returns [None].  It never raises. *)
Theorem fetch_page_contract (get : string -> result Response) (url : string) :
  (forall body,
      _fetch_page get url = Ret (Some body)
      <-> exists r, get url = Ret r /\ status r = 200%Z /\ text r = Ret body)
  /\ (_fetch_page get url = Ret None
      <-> (forall r, get url = Ret r -> status r = 200%Z ->
                     exists e, text r = Raise e))
  /\ (forall e, _fetch_page get url <> Raise e).
Proof.
  unfold _fetch_page, try_except, bind.
  destruct (get url) as [[st tx]|e0]; simpl.
  - destruct (Z.eqb_spec st 200) as [->|Hne]; [destruct tx as [content|e1] |];
      simpl; (split; [| split]); try discriminate.
    + intros body; split.
      * intros [= <-]. eexists; repeat split.
      * intros (r & [= <-] & _ & H). simpl in H. congruence.
    + split; [discriminate |].
      intros H. destruct (H _ eq_refl eq_refl) as [e He]. discriminate.
    + intros body; split; [discriminate |].
      intros (r & [= <-] & _ & H). discriminate.
    + split; [| reflexivity]. intros _ r [= <-] _. eexists; reflexivity.
    + intros body; split; [discriminate |].
      intros (r & [= <-] & H & _). simpl in H. contradiction.
    + split; [| reflexivity]. intros _ r [= <-] H. simpl in H. contradiction.
  - split; [| split]; try discriminate.
    + intros body; split; [discriminate |]. intros (r & H & _). discriminate.
    + split; [| reflexivity]. intros _ r H. discriminate.
Qed.

End FetchSpec.

(** ** Extraction of one product *)

Module ExtractSpec.
Import Py Bs4 Reference Scraper.

Lemma post_init_name now p :
  Product.name (Product.post_init now p) = Product.name p.
Proof. unfold Product.post_init. now destruct (is_empty _). Qed.

Lemma post_init_in_stock now p :
  Product.in_stock (Product.post_init now p) = Product.in_stock p.
Proof. unfold Product.post_init. now destruct (is_empty _). Qed.

Section Extract.
Variable urljoin : string -> string -> result string.

Abbreviation parse := (_parse_leroymerlin_product urljoin).

(** The record of a successful extraction, field by field. *)
Lemma parse_some (c : node) (category base now : string) (p : Product.t) :
  parse c category base now = Some p ->
  exists name_elem,
    or_else (find ["h2"; "h3"; "a"]
                  (class_matches ["title"; "name"; "product"]) c)
            (find ["a"] (has_attr "title") c) = Some name_elem
    /\ Product.name p
       = (if is_empty (get_text_strip name_elem)
          then default "" (Bs4.get "title" name_elem)
          else get_text_strip name_elem)
    /\ Product.in_stock p
       = match find ["span"; "div"] (class_matches ["stock"; "disponib"]) c with
         | Some stock_elem =>
             contains "disponible" (lower (get_text stock_elem))
             || contains "en stock" (lower (get_text stock_elem))
         | None => true
         end.
Proof.
  unfold _parse_leroymerlin_product, parse_product_body. intros H.
  destruct (or_else _ _) as [name_elem|] eqn:En; [| discriminate H].
  exists name_elem. split; [reflexivity |].
  destruct (find ["a"] (has_attr "href") c) as [url_elem|]; [| discriminate H].
  destruct (urljoin base _) as [product_url|]; [| discriminate H].
  simpl in H. destruct (_parse_price _) as [price currency].
  match type of H with
  | context [bind ?x _] => destruct x as [image_url|]; [| discriminate H]
  end.
  simpl in H. injection H as <-.
  rewrite post_init_name, post_init_in_stock. simpl. split; reflexivity.
Qed.

End Extract.

(** C5, as stated, fails.  The anchor of [image_only_card] is a name
    candidate with no text and no [title]; the record is built with an empty
    name. *)
Lemma parse_empty_name :
  exists p,
    _parse_leroymerlin_product join image_only_card "carrelage"
                               "https://www.leroymerlin.fr" "2024-01-01T00:00:00"
    = Some p
    /\ Product.name p = "".
Proof. eexists; split; reflexivity. Qed.

(** C5, amended.  Without a name candidate (no [h2]/[h3]/[a] with a
    title/name/product class and no anchor with a [title] attribute) the
    extraction returns [None].  A record that is built has a name candidate,
    and its name is the candidate's stripped text or, when that is empty, the
    candidate's [title] attribute, the empty string when it has none. *)
Theorem parse_name_candidate (urljoin : string -> string -> result string)
    (c : node) (category base now : string) :
  (find ["h2"; "h3"; "a"] (class_matches ["title"; "name"; "product"]) c = None
   -> find ["a"] (has_attr "title") c = None
   -> _parse_leroymerlin_product urljoin c category base now = None)
  /\ (forall p,
         _parse_leroymerlin_product urljoin c category base now = Some p ->
         exists name_elem,
           or_else (find ["h2"; "h3"; "a"]
                         (class_matches ["title"; "name"; "product"]) c)
                   (find ["a"] (has_attr "title") c) = Some name_elem
           /\ Product.name p
              = if is_empty (get_text_strip name_elem)
                then default "" (Bs4.get "title" name_elem)
                else get_text_strip name_elem).
Proof.
  split.
  - intros H1 H2. unfold _parse_leroymerlin_product, parse_product_body.
    now rewrite H1, H2.
  - intros p Hp. destruct (parse_some urljoin c category base now p Hp)
      as (e & He & Hn & _). now exists e.
Qed.

Lemma parse_name_candidate_witness :
  _parse_leroymerlin_product join (Tag "div" [] [Tag "span" [] [Text "Incomplete tag"]])
                             "test_category" "https://test.com" "now" = None.
Proof.
  apply (proj1 (parse_name_candidate join _ "test_category" "https://test.com" "now"));
    reflexivity.
Defined.

(** C9.  For a record that is built, [in_stock] is computed from the first
    [span]/[div] with a stock/disponib class: it is true exactly when the
    lower-cased text of that element contains "disponible" or "en stock", and
    true when there is no such element.  "Indisponible" contains
    "disponible", so [out_of_stock_card] is extracted as in stock. *)
Theorem parse_in_stock :
  (forall (urljoin : string -> string -> result string) (c : node)
          (category base now : string) (p : Product.t),
      _parse_leroymerlin_product urljoin c category base now = Some p ->
      Product.in_stock p
      = match find ["span"; "div"] (class_matches ["stock"; "disponib"]) c with
        | Some stock_elem =>
            contains "disponible" (lower (get_text stock_elem))
            || contains "en stock" (lower (get_text stock_elem))
        | None => true
        end)
  /\ (exists p,
         _parse_leroymerlin_product join out_of_stock_card "lavabos"
                                    "https://www.leroymerlin.fr" "now" = Some p
         /\ Product.in_stock p = true).
Proof.
  split.
  - intros urljoin c category base now p Hp.
    destruct (parse_some urljoin c category base now p Hp) as (e & _ & _ & Hs).
    exact Hs.
  - eexists; split; reflexivity.
Qed.

Lemma parse_in_stock_witness :
  exists p,
    _parse_leroymerlin_product join out_of_stock_card "lavabos"
                               "https://www.leroymerlin.fr" "now" = Some p
    /\ Product.in_stock p
       = (contains "disponible" (lower "Indisponible")
          || contains "en stock" (lower "Indisponible")).
Proof.
  eexists. split; [reflexivity |].
  exact (proj1 parse_in_stock join out_of_stock_card "lavabos"
               "https://www.leroymerlin.fr" "now" _ eq_refl).
Defined.

End ExtractSpec.

(** ** The crawl of one category *)

Module CrawlSpec.
Import Py Bs4 Reference Scraper.

Lemma fetch_page_returns (get : string -> result Response) (url : string) :
  exists content, _fetch_page get url = Ret content.
Proof.
  unfold _fetch_page, try_except, bind.
  destruct (get url) as [[st tx]|e]; simpl; [| eauto].
  destruct (st =? 200)%Z; [| eauto]. destruct tx; eauto.
Qed.

Section Crawl.
Variable config : Config.
Variable urljoin : string -> string -> result string.
Variable BeautifulSoup : string -> node.
Variable get : string -> result Response.
Variable clock : nat -> nat -> string.

Abbreviation cap := (max_products_per_category config).
Abbreviation step := (crawl_page config urljoin BeautifulSoup get clock).
Abbreviation loop := (crawl_loop config urljoin BeautifulSoup get clock).

Lemma parse_containers_length category pg i containers :
  (length (parse_containers config urljoin clock category pg i containers)
   <= length containers)%nat.
Proof.
  revert i. induction containers as [|c rest IH]; intros i; simpl; [lia |].
  destruct (_parse_leroymerlin_product _ _ _ _ _); simpl; specialize (IH (S i)); lia.
Qed.

(** Closes the case of a turn that leaves the loop through a [break]. *)
Ltac leaves_loop :=
  eexists _, _; split; [reflexivity |]; simpl;
  repeat split; (lia || discriminate).

(** One turn of the loop body never raises, logs one fetch, keeps the
    accumulator within the cap, and goes back to the loop test only with the
    next page number, which is then at most 10. *)
Lemma crawl_page_step category full_url st :
  (length (products st) < cap)%nat ->
  exists st' again,
    step category full_url st = Ret (st', again)
    /\ length (fetched st') = S (length (fetched st))
    /\ (length (products st') <= cap)%nat
    /\ (again = true -> page st' = S (page st) /\ (page st' <= 10)%nat).
Proof.
  intros Hlt. unfold crawl_page.
  destruct (fetch_page_returns get
              (full_url ++ "?page=" ++ str_of_nat (page st))%string)
    as [content ->].
  simpl bind.
  destruct content as [content|]; [| leaves_loop].
  destruct (is_empty content); [leaves_loop |].
  set (by_class := find_all _ _ _).
  set (containers := match by_class with [] => _ | _ => _ end).
  destruct containers as [|c0 cs] eqn:Ec; [leaves_loop |].
  set (parsed := parse_containers _ _ _ _ _ _ _).
  assert (Hp : (length parsed <= cap - length (products st))%nat).
  { subst parsed. etransitivity; [apply parse_containers_length |].
    rewrite length_firstn. lia. }
  destruct (length parsed =? 0)%nat eqn:E0.
  - eexists _, _; split; [reflexivity |]; simpl.
    rewrite length_app. repeat split; (lia || discriminate).
  - destruct (10 <? _)%nat eqn:E10; eexists _, _; (split; [reflexivity |]); simpl;
      rewrite length_app; repeat split; try (lia || discriminate).
    apply Nat.ltb_ge in E10. simpl in E10. lia.
Qed.

(** With fuel for the pages that are left, the loop returns, having
    fetched at most ten pages and gathered at most [cap] records. *)
Lemma crawl_loop_bounded category full_url fuel st :
  (1 <= page st <= 10)%nat ->
  (11 <= fuel + page st)%nat ->
  length (fetched st) = (page st - 1)%nat ->
  (length (products st) <= cap)%nat ->
  exists st',
    loop fuel category full_url st = Some (Ret st')
    /\ (length (fetched st') <= 10)%nat
    /\ (length (products st') <= cap)%nat.
Proof.
  revert st. induction fuel as [|fuel IH]; intros st Hpg Hfuel Hlog Hcap.
  - lia.
  - simpl. destruct (length (products st) <? cap)%nat eqn:Elt.
    + apply Nat.ltb_lt in Elt.
      destruct (crawl_page_step category full_url st Elt)
        as (st' & again & -> & Hf & Hc & Hagain).
      destruct again.
      * destruct (Hagain eq_refl) as [Hp1 Hp2].
        apply IH; lia.
      * exists st'. repeat split; [lia | exact Hc].
    + exists st. repeat split; [lia | exact Hcap].
Qed.

(** More fuel does not change what the loop returns. *)
Lemma crawl_loop_fuel category full_url fuel fuel' st r :
  (fuel <= fuel')%nat ->
  loop fuel category full_url st = Some r ->
  loop fuel' category full_url st = Some r.
Proof.
  revert fuel' st. induction fuel as [|fuel IH]; intros fuel' st Hle H.
  - simpl in H. destruct fuel'; simpl; destruct (_ <? _)%nat; congruence.
  - destruct fuel' as [|fuel']; [lia |]. simpl in *.
    destruct (_ <? _)%nat; [| exact H].
    destruct (step category full_url st) as [[st' [|]]|e]; try exact H.
    apply IH; [lia | exact H].
Qed.

End Crawl.

(** On the endless site with a cap of 50, the crawl stops at the page
    ceiling: ten pages fetched, ten records. *)
Example crawl_endless_site :
  exists st,
    _scrape_leroymerlin_category
      {| base_url := "https://www.leroymerlin.fr"; max_products_per_category := 50 |}
      join endless_soup endless_get (fun _ _ => "now") 10 "carrelage" "/carrelage"
    = Some (Ret st)
    /\ length (fetched st) = 10%nat /\ length (products st) = 10%nat
    /\ page st = 11%nat.
Proof. eexists; split; [vm_compute; reflexivity | repeat split]. Qed.

(** C8.  Whatever the site, the parser and the extraction do, the crawl of
    a category returns with fuel for ten turns of its loop, and any larger
    fuel gives the same result.  When it returns a state, at most ten pages
    were fetched, ten being a constant of the code, and the records gathered
    are at most the configured cap. *)
Theorem crawl_terminates_bounded (config : Config)
    (urljoin : string -> string -> result string)
    (BeautifulSoup : string -> node) (get : string -> result Response)
    (clock : nat -> nat -> string) (category category_url : string) :
  exists r,
    (forall fuel, (10 <= fuel)%nat ->
       _scrape_leroymerlin_category config urljoin BeautifulSoup get clock fuel
                                    category category_url = Some r)
    /\ match r with
       | Ret st =>
           (length (fetched st) <= 10)%nat
           /\ (length (products st) <= max_products_per_category config)%nat
       | Raise e => urljoin (base_url config) category_url = Raise e
       end.
Proof.
  unfold _scrape_leroymerlin_category.
  destruct (urljoin (base_url config) category_url) as [full_url|e].
  - destruct (crawl_loop_bounded config urljoin BeautifulSoup get clock category
                full_url 10 {| page := 1; products := []; fetched := [] |})
      as (st' & Hrun & Hf & Hc); simpl; try lia.
    exists (Ret st'). split; [| split; assumption].
    intros fuel Hfuel.
    apply (crawl_loop_fuel config urljoin BeautifulSoup get clock category
             full_url 10 fuel _ _ Hfuel Hrun).
  - exists (Raise e). split; [reflexivity | reflexivity].
Qed.

End CrawlSpec.

(** ** Saving and loading the snapshot *)

Module SnapshotSpec.
Import Py Storage Reference Scraper ApiServer.

Lemma asdict_inj (p q : Product.t) : asdict p = asdict q -> p = q.
Proof.
  destruct p, q. unfold asdict. simpl. intros H.
  injection H as -> -> -> -> -> -> -> -> -> -> -> ->. reflexivity.
Qed.

Lemma map_asdict_inj (ps qs : list Product.t) :
  map asdict ps = map asdict qs -> ps = qs.
Proof.
  revert qs. induction ps as [|p ps IH]; intros [|q qs] H; simpl in H;
    try discriminate; [reflexivity |].
  assert (Hp : asdict p = asdict q) by congruence.
  assert (Hr : map asdict ps = map asdict qs) by congruence.
  f_equal; [now apply asdict_inj | now apply IH].
Qed.

Lemma load_missing (fs : gmap string File) (data_file now : string) :
  fs !! data_file = None ->
  _load_data fs data_file now = Ret (empty_dataset now).
Proof. intros H. unfold _load_data, load_json. now rewrite H. Qed.

Lemma load_garbled (fs : gmap string File) (data_file now : string) :
  fs !! data_file = Some Garbled ->
  _load_data fs data_file now = Ret (empty_dataset now).
Proof. intros H. unfold _load_data, load_json. now rewrite H. Qed.

Lemma load_object (fs : gmap string File) (data_file now : string) d :
  fs !! data_file = Some (Document (JObject d)) ->
  _load_data fs data_file now = Ret d.
Proof. intros H. unfold _load_data, load_json. now rewrite H. Qed.

(** C6: the code does not do what the claim asks of it.  A file that
    holds a JSON array is a malformed snapshot; loading it raises
    [AttributeError] at [data.get] in the logging line, which neither
    [except] clause catches, where the claim has the empty catalog
    returned. *)
Lemma load_array_raises :
  _load_data {[ "data/materials.json" := Document (JArray []) ]}
             "data/materials.json" "2024-01-01T00:00:00"
  = Raise AttributeError.
Proof. reflexivity. Qed.

(** A second malformed snapshot the code raises on: a file whose bytes are
    not UTF-8 text.  [UnicodeDecodeError] is a [ValueError] and not a
    [JSONDecodeError], and is not caught. *)
Lemma load_not_text_raises :
  _load_data {[ "data/materials.json" := NotText ]}
             "data/materials.json" "2024-01-01T00:00:00"
  = Raise UnicodeDecodeError.
Proof. reflexivity. Qed.

(** The cases [_load_data] handles.  When the file is missing, or is text
    that does not decode as JSON, loading returns the empty catalog: no
    record, [total_products] 0 and the clock's reading as the timestamp; it
    does not raise.  When the file holds a JSON object, loading returns that
    object. *)
Theorem load_missing_or_garbled (fs : gmap string File) (data_file now : string) :
  (fs !! data_file = None \/ fs !! data_file = Some Garbled ->
   exists d, _load_data fs data_file now = Ret d
             /\ Snapshot.products d = Some []
             /\ Snapshot.total_products d = Some 0%Z
             /\ Snapshot.scraped_at d = Some now)
  /\ (forall d, fs !! data_file = Some (Document (JObject d)) ->
                _load_data fs data_file now = Ret d).
Proof.
  split.
  - intros [H | H]; exists (empty_dataset now);
      (split; [| repeat split]);
      [now apply load_missing | now apply load_garbled].
  - intros d H. now apply load_object.
Qed.

Lemma load_missing_or_garbled_witness :
  exists d, _load_data ∅ "data/materials.json" "2024-01-01T00:00:00" = Ret d
            /\ Snapshot.products d = Some []
            /\ Snapshot.total_products d = Some 0%Z
            /\ Snapshot.scraped_at d = Some "2024-01-01T00:00:00".
Proof.
  apply (proj1 (load_missing_or_garbled ∅ "data/materials.json"
                  "2024-01-01T00:00:00")).
  left. reflexivity.
Defined.

(** C7.  Loading the location that was just saved gives a snapshot whose
    [products] are the saved records, dict by dict and in order, and whose
    [total_products] is their number.  The dicts determine the records: two
    sequences saved as the same dicts are the same sequence. *)
Theorem save_then_load (products : list Product.t) (filepath : string)
    (saved_at loaded_at : string) (fs : gmap string File) :
  (exists d,
      _load_data (save_data products filepath saved_at fs) filepath loaded_at
      = Ret d
      /\ Snapshot.products d = Some (map asdict products)
      /\ Snapshot.total_products d = Some (Z.of_nat (length products))
      /\ Snapshot.scraped_at d = Some saved_at)
  /\ (forall others,
         map asdict others = map asdict products -> others = products).
Proof.
  split.
  - exists (Snapshot.mk (Some saved_at) (Some (Z.of_nat (length products)))
                        (Some (map asdict products))).
    split; [| repeat split].
    apply load_object. unfold save_data. apply lookup_insert_eq.
  - intros others. apply map_asdict_inj.
Qed.

End SnapshotSpec.

(** ** Filtering and pagination *)

Module QuerySpec.
Import Py Storage Reference ApiServer.

Lemma filter_andb {A} (f g : A -> bool) (l : list A) :
  List.filter g (List.filter f l) = List.filter (fun x => f x && g x) l.
Proof.
  induction l as [|x l IH]; simpl; [reflexivity |].
  destruct (f x); simpl; [destruct (g x) |]; now rewrite IH.
Qed.

Lemma filter_true {A} (l : list A) : List.filter (fun _ => true) l = l.
Proof. induction l as [|x l IH]; simpl; [reflexivity | now rewrite IH]. Qed.

Lemma apply_filter_fst {P} (param : option P) test key tag acc :
  fst (apply_filter param test key tag acc)
  = List.filter (supplied param test) (fst acc).
Proof.
  destruct param; simpl; [reflexivity |]. symmetry. apply filter_true.
Qed.

(** The chain of filter steps keeps the records that satisfy all the
    supplied filters, in order. *)
Lemma filter_products_satisfies (data : Snapshot.t) (q : MaterialsQuery) :
  fst (filter_products data q) = List.filter (satisfies q) (records data).
Proof.
  unfold filter_products. rewrite !apply_filter_fst. cbn [fst].
  rewrite !filter_andb. apply filter_ext. intros p. unfold satisfies.
  now rewrite !andb_assoc.
Qed.

Lemma ceil_div_floor (n d : Z) :
  (1 <= d)%Z -> ((n + d - 1) / d = ceil_div n d)%Z.
Proof.
  intros Hd. unfold ceil_div.
  pose proof (Z.div_mod (n + d - 1) d ltac:(lia)) as H1.
  pose proof (Z.mod_pos_bound (n + d - 1) d ltac:(lia)) as B1.
  pose proof (Z.div_mod (- n) d ltac:(lia)) as H2.
  pose proof (Z.mod_pos_bound (- n) d ltac:(lia)) as B2.
  nia.
Qed.

(** [ceil_div n d] is the least number of pages of [d] that hold [n]. *)
Lemma ceil_div_least (n d : Z) :
  (1 <= d)%Z -> (d * (ceil_div n d - 1) < n <= d * ceil_div n d)%Z.
Proof.
  intros Hd. unfold ceil_div.
  pose proof (Z.div_mod (- n) d ltac:(lia)) as H.
  pose proof (Z.mod_pos_bound (- n) d ltac:(lia)) as B.
  nia.
Qed.

(** On a page request the slice is the window of the page. *)
Lemma slice_window {A} (l : list A) (page per_page : Z) :
  (1 <= page)%Z -> (1 <= per_page)%Z ->
  slice l ((page - 1) * per_page) ((page - 1) * per_page + per_page)
  = window l page per_page.
Proof.
  intros Hp Hs. unfold slice, window, slice_index.
  set (start := ((page - 1) * per_page)%Z).
  assert (Hstart : (0 <= start)%Z) by (subst start; nia).
  destruct (Z.ltb_spec start 0) as [|_]; [lia |].
  destruct (Z.ltb_spec (start + per_page) 0) as [|_]; [lia |].
  destruct (Z.le_gt_cases (Z.of_nat (length l)) start) as [Hout | Hin].
  - rewrite !Z.min_r by lia.
    rewrite !skipn_all2 by lia.
    now rewrite !firstn_nil.
  - rewrite (Z.min_l start) by lia.
    destruct (Z.le_gt_cases (start + per_page) (Z.of_nat (length l))) as [Hfit | Hcut].
    + rewrite Z.min_l by lia. f_equal. lia.
    + rewrite Z.min_r by lia.
      rewrite !firstn_all2; [reflexivity | |]; rewrite length_skipn; lia.
Qed.

Lemma to_response_complete (p : ProductDict.t) :
  complete p = true -> exists r, to_response p = Ret r.
Proof.
  unfold complete, to_response.
  destruct (ProductDict.name p), (ProductDict.category p), (ProductDict.price p),
    (ProductDict.product_url p), (ProductDict.supplier p),
    (ProductDict.scraped_at p); try discriminate; eauto.
Qed.

Lemma mapM_complete (l : list ProductDict.t) :
  Forall (fun p => complete p = true) l ->
  exists rs, mapM to_response l = Ret rs /\ length rs = length l.
Proof.
  induction 1 as [|p l Hp _ (rs & Hrs & Hlen)]; simpl; [now exists [] |].
  destruct (to_response_complete p Hp) as [r ->]. rewrite Hrs. simpl.
  exists (r :: rs). split; [reflexivity | simpl; now rewrite Hlen].
Qed.

Lemma Forall_window {A} (P : A -> Prop) (l : list A) page per_page :
  Forall P l -> Forall P (window l page per_page).
Proof.
  intros H. unfold window. now apply Forall_take, Forall_drop.
Qed.

Lemma Forall_filter {A} (P : A -> Prop) f (l : list A) :
  Forall P l -> Forall P (List.filter f l).
Proof.
  intros H. rewrite List.Forall_forall in *. intros x [Hx _]%filter_In. auto.
Qed.

(** [get_materials] on a page request, up to the validation of the window. *)
Lemma get_materials_window (data : Snapshot.t) (q : MaterialsQuery) :
  (1 <= page q)%Z -> (1 <= per_page q)%Z ->
  get_materials data q
  = bind (mapM to_response
            (window (List.filter (satisfies q) (records data)) (page q) (per_page q)))
         (fun responses =>
            Ret (MaterialsResponse.mk
                   (Z.of_nat (length (List.filter (satisfies q) (records data))))
                   (page q) (per_page q)
                   (ceil_div (Z.of_nat (length (List.filter (satisfies q) (records data))))
                             (per_page q))
                   responses (snd (filter_products data q)))).
Proof.
  intros Hp Hs. unfold get_materials.
  pose proof (filter_products_satisfies data q) as Hf.
  destruct (filter_products data q) as [products applied]. simpl in Hf. subst products.
  unfold floordiv. destruct (Z.eqb_spec (per_page q) 0) as [|_]; [lia |].
  simpl bind. rewrite slice_window by assumption.
  rewrite ceil_div_floor by assumption. reflexivity.
Qed.

(** The bounds of a valid query are the ones the properties below need. *)
Lemma query_valid_bounds (q : MaterialsQuery) :
  query_valid q -> (1 <= page q)%Z /\ (1 <= per_page q)%Z.
Proof. unfold query_valid. intuition lia. Qed.

(** C1.  For a page number and a page size of at least 1 and a page whose
    records are complete, [get_materials] answers with [total] the number of
    records that satisfy all the supplied filters, [total_pages] the ceiling
    of [total / per_page], and as products the records of the filtered
    sequence from index [(page - 1) * per_page] up to [page * per_page], each
    turned into its response.  Over 45 records, with no filter, page 1 of
    size 20 has 20 products, [total] 45 and [total_pages] 3. *)
Theorem get_materials_pagination :
  (forall (data : Snapshot.t) (q : MaterialsQuery),
      (1 <= page q)%Z -> (1 <= per_page q)%Z ->
      Forall (fun p => complete p = true)
             (window (List.filter (satisfies q) (records data)) (page q) (per_page q)) ->
      exists r,
        get_materials data q = Ret r
        /\ MaterialsResponse.total r
           = Z.of_nat (length (List.filter (satisfies q) (records data)))
        /\ MaterialsResponse.total_pages r
           = ceil_div (MaterialsResponse.total r) (per_page q)
        /\ mapM to_response
             (window (List.filter (satisfies q) (records data)) (page q) (per_page q))
           = Ret (MaterialsResponse.products r)
        /\ length (MaterialsResponse.products r)
           = length (window (List.filter (satisfies q) (records data))
                            (page q) (per_page q)))
  /\ (forall data : Snapshot.t,
         length (records data) = 45%nat ->
         Forall (fun p => complete p = true) (records data) ->
         exists r,
           get_materials data (unfiltered 1 20) = Ret r
           /\ length (MaterialsResponse.products r) = 20%nat
           /\ MaterialsResponse.total r = 45%Z
           /\ MaterialsResponse.total_pages r = 3%Z).
Proof.
  split.
  - intros data q Hp Hs Hc.
    rewrite (get_materials_window data q Hp Hs).
    destruct (mapM_complete _ Hc) as (rs & Hrs & Hlen).
    rewrite Hrs. simpl. eexists. split; [reflexivity |]. simpl. auto.
  - intros data Hlen Hc.
    rewrite (get_materials_window data (unfiltered 1 20)) by (simpl; lia).
    assert (Hall : List.filter (satisfies (unfiltered 1 20)) (records data)
                   = records data) by apply filter_true.
    rewrite Hall.
    destruct (mapM_complete (window (records data) 1 20)) as (rs & Hrs & Hl).
    { now apply Forall_window. }
    simpl page. simpl per_page. rewrite Hrs. simpl bind.
    eexists. split; [reflexivity |]. simpl.
    rewrite Hl, Hlen. unfold window. rewrite length_firstn, length_skipn, Hlen.
    repeat split.
Qed.

Lemma get_materials_pagination_witness :
  exists r,
    get_materials (Snapshot.mk (Some "t") (Some 3%Z)
                     (Some [record "a" "carrelage" 10 "Leroy Merlin";
                            record "b" "wc" 20 "Leroy Merlin";
                            record "c" "carrelage" 30 "Leroy Merlin"]))
                  (unfiltered 2 2) = Ret r
    /\ MaterialsResponse.total r = 3%Z
    /\ MaterialsResponse.total_pages r = 2%Z
    /\ map ProductResponse.name (MaterialsResponse.products r) = ["c"].
Proof.
  destruct (proj1 get_materials_pagination
              (Snapshot.mk (Some "t") (Some 3%Z)
                 (Some [record "a" "carrelage" 10 "Leroy Merlin";
                        record "b" "wc" 20 "Leroy Merlin";
                        record "c" "carrelage" 30 "Leroy Merlin"]))
              (unfiltered 2 2))
    as (r & Hr & Ht & Hp & Hw & _).
  - simpl. lia.
  - simpl. lia.
  - repeat constructor.
  - exists r. split; [exact Hr |]. split; [exact Ht |].
    split; [rewrite Hp, Ht; reflexivity |].
    cbn in Hw. injection Hw as <-. reflexivity.
Defined.

(** C10.  When the page starts at or after the end of the filtered
    sequence, [get_materials] returns without raising: no products, and
    [total] and [total_pages] computed over the whole filtered sequence. *)
Theorem get_materials_past_the_end (data : Snapshot.t) (q : MaterialsQuery) :
  (1 <= page q)%Z -> (1 <= per_page q)%Z ->
  (Z.of_nat (length (List.filter (satisfies q) (records data)))
   <= (page q - 1) * per_page q)%Z ->
  exists r,
    get_materials data q = Ret r
    /\ MaterialsResponse.products r = []
    /\ MaterialsResponse.total r
       = Z.of_nat (length (List.filter (satisfies q) (records data)))
    /\ MaterialsResponse.total_pages r
       = ceil_div (MaterialsResponse.total r) (per_page q).
Proof.
  intros Hp Hs Hout. rewrite (get_materials_window data q Hp Hs).
  unfold window. rewrite skipn_all2 by lia. rewrite firstn_nil. simpl.
  eexists. split; [reflexivity |]. simpl. auto.
Qed.

Lemma get_materials_past_the_end_witness :
  exists r,
    get_materials (Snapshot.mk (Some "t") (Some 1%Z)
                     (Some [record "a" "carrelage" 10 "Leroy Merlin"]))
                  (unfiltered 3 20) = Ret r
    /\ MaterialsResponse.products r = []
    /\ MaterialsResponse.total r = 1%Z
    /\ MaterialsResponse.total_pages r = 1%Z.
Proof.
  destruct (get_materials_past_the_end
              (Snapshot.mk (Some "t") (Some 1%Z)
                 (Some [record "a" "carrelage" 10 "Leroy Merlin"]))
              (unfiltered 3 20))
    as (r & Hr & Hp & Ht & Hg).
  - simpl. lia.
  - simpl. lia.
  - simpl. lia.
  - exists r. split; [exact Hr |]. split; [exact Hp |]. split; [exact Ht |].
    rewrite Hg, Ht. reflexivity.
Defined.

End QuerySpec.

(** ** Aggregation by category and by supplier *)

Module AggregationSpec.
Import Py Storage Reference ApiServer.

Lemma Qltb_lt (a b : Q) : Qltb a b = true <-> (a < b)%Q.
Proof.
  unfold Qltb. rewrite negb_true_iff, <- not_true_iff_false, Qle_bool_iff.
  split; [apply Qnot_le_lt | apply Qlt_not_le].
Qed.

Lemma Qltb_ge (a b : Q) : Qltb a b = false <-> (b <= a)%Q.
Proof. unfold Qltb. now rewrite negb_false_iff, Qle_bool_iff. Qed.

(** *** [sum], [min] and [max] *)

Lemma fold_left_Qplus (l : list Q) (a : Q) :
  (fold_left Qplus l a == a + total l)%Q.
Proof.
  revert a. induction l as [|x l IH]; intros a; simpl.
  - ring.
  - rewrite IH. ring.
Qed.

Lemma sum_total (l : list Q) : (sum l == total l)%Q.
Proof. unfold sum. rewrite fold_left_Qplus. ring. Qed.

Lemma average_mean (l : list Q) : (average l == mean l)%Q.
Proof.
  destruct l as [|x l]; [reflexivity |].
  unfold average, mean. now rewrite sum_total.
Qed.

Lemma min_of_least (x : Q) (rest : list Q) :
  In (min_of x rest) (x :: rest)
  /\ forall y, In y (x :: rest) -> (min_of x rest <= y)%Q.
Proof.
  unfold min_of. revert x. induction rest as [|z rest IH]; intros x; simpl.
  - split; [now left |]. intros y [<- | []]. apply Qle_refl.
  - destruct (Qltb z x) eqn:E.
    + apply Qltb_lt in E. destruct (IH z) as [Hin Hle]. split.
      * destruct Hin as [H | H]; [right; left; exact H | right; right; exact H].
      * intros y [<- | [<- | Hy]].
        -- apply Qle_trans with z; [apply Hle; now left | now apply Qlt_le_weak].
        -- apply Hle. now left.
        -- apply Hle. now right.
    + apply Qltb_ge in E. destruct (IH x) as [Hin Hle]. split.
      * destruct Hin as [H | H]; [left; exact H | right; right; exact H].
      * intros y [<- | [<- | Hy]].
        -- apply Hle. now left.
        -- apply Qle_trans with x; [apply Hle; now left | exact E].
        -- apply Hle. now right.
Qed.

Lemma max_of_greatest (x : Q) (rest : list Q) :
  In (max_of x rest) (x :: rest)
  /\ forall y, In y (x :: rest) -> (y <= max_of x rest)%Q.
Proof.
  unfold max_of. revert x. induction rest as [|z rest IH]; intros x; simpl.
  - split; [now left |]. intros y [<- | []]. apply Qle_refl.
  - destruct (Qltb x z) eqn:E.
    + apply Qltb_lt in E. destruct (IH z) as [Hin Hle]. split.
      * destruct Hin as [H | H]; [right; left; exact H | right; right; exact H].
      * intros y [<- | [<- | Hy]].
        -- apply Qle_trans with z; [now apply Qlt_le_weak | apply Hle; now left].
        -- apply Hle. now left.
        -- apply Hle. now right.
    + apply Qltb_ge in E. destruct (IH x) as [Hin Hle]. split.
      * destruct Hin as [H | H]; [left; exact H | right; right; exact H].
      * intros y [<- | [<- | Hy]].
        -- apply Hle. now left.
        -- apply Qle_trans with x; [exact E | apply Hle; now left].
        -- apply Hle. now right.
Qed.

Lemma range_least_greatest (prices : list Q) :
  least (PriceRange.min (range prices)) prices
  /\ greatest (PriceRange.max (range prices)) prices.
Proof.
  destruct prices as [|x rest]; simpl; [split; reflexivity |].
  split; [apply (min_of_least x rest) | apply (max_of_greatest x rest)].
Qed.

(** The positive prices of the records of one key. *)
Lemma positive_prices_priced key k (l : list ProductDict.t) :
  positive_prices (with_key key k l) = priced key k l.
Proof.
  unfold positive_prices, with_key, priced, Qltb.
  induction l as [|p l IH]; simpl; [reflexivity |].
  destruct (String.eqb (key p) k); simpl; [| exact IH].
  fold (price_of p). destruct (negb (Qle_bool (price_of p) 0)); simpl;
    now rewrite IH.
Qed.

(** *** The grouping loop *)

Section Grouping.
Variables key other : ProductDict.t -> string.

Lemma entry_of_add k k1 p o (g : groups) :
  entry_of k (group_add k1 p o g)
  = if String.eqb k1 k
    then Some match entry_of k1 g with
              | Some (k', (ps, others)) => (k', (ps ++ [p], others ∪ {[o]}))
              | None => (k1, ([p], {[o]}))
              end
    else entry_of k g.
Proof.
  unfold entry_of. induction g as [|[k0 [ps others]] g IH]; simpl.
  - now destruct (String.eqb k1 k).
  - destruct (String.eqb_spec k0 k1) as [->|Hne]; simpl.
    + destruct (String.eqb_spec k1 k); reflexivity.
    + destruct (String.eqb_spec k0 k) as [->|Hk]; simpl.
      * destruct (String.eqb_spec k1 k); [congruence | reflexivity].
      * exact IH.
Qed.

Lemma keys_add k k1 p o (g : groups) :
  In k (map fst (group_add k1 p o g)) -> k = k1 \/ In k (map fst g).
Proof.
  induction g as [|[k0 [ps others]] g IH]; simpl.
  - intros [<- | []]. now left.
  - destruct (String.eqb k0 k1); simpl; intros [H | H]; auto.
    destruct (IH H); auto.
Qed.

Lemma keys_add_NoDup k1 p o (g : groups) :
  List.NoDup (map fst g) -> List.NoDup (map fst (group_add k1 p o g)).
Proof.
  induction g as [|[k0 [ps others]] g IH]; simpl; intros Hnd.
  - constructor; [intros [] | constructor].
  - destruct (String.eqb_spec k0 k1) as [->|Hne]; simpl; [exact Hnd |].
    inversion Hnd as [|? ? Hnotin Hrest]; subst.
    constructor; [| now apply IH].
    intros [-> | H]%keys_add; [congruence | contradiction].
Qed.

Lemma entry_of_In (g : groups) e :
  List.NoDup (map fst g) -> In e g -> entry_of (fst e) g = Some e.
Proof.
  unfold entry_of. induction g as [|e0 g IH]; simpl; intros Hnd Hin;
    [contradiction |]. destruct Hin as [<- | Hin].
  - now rewrite String.eqb_refl.
  - inversion Hnd as [|? ? Hnotin Hrest]; subst.
    destruct (String.eqb_spec (fst e0) (fst e)) as [Heq|_]; [| now apply IH].
    exfalso. apply Hnotin. rewrite Heq. now apply in_map.
Qed.

Lemma grouped_add (g : groups) seen p :
  grouped key g seen ->
  grouped key (group_add (key p) p (other p) g) (seen ++ [p]).
Proof.
  intros [Hnd Hg]. split; [now apply keys_add_NoDup |].
  intros k. rewrite entry_of_add. unfold with_key in *.
  rewrite List.filter_app. simpl.
  destruct (String.eqb_spec (key p) k) as [<-|Hne].
  - specialize (Hg (key p)).
    destruct (entry_of (key p) g) as [[k' [ps others]]|].
    + destruct Hg as (-> & -> & _). repeat split.
      now destruct (List.filter _ seen).
    + rewrite Hg. repeat split. discriminate.
  - specialize (Hg k). rewrite app_nil_r. exact Hg.
Qed.

Lemma grouped_fold (rest : list ProductDict.t) (g : groups) seen :
  grouped key g seen ->
  grouped key (fold_left (fun g p => group_add (key p) p (other p) g) rest g)
          (seen ++ rest).
Proof.
  revert g seen. induction rest as [|p rest IH]; intros g seen Hg; simpl.
  - now rewrite app_nil_r.
  - replace (seen ++ p :: rest) with ((seen ++ [p]) ++ rest)
      by now rewrite <- app_assoc.
    apply IH. now apply grouped_add.
Qed.

Lemma group_by_grouped (l : list ProductDict.t) :
  grouped key (group_by key other l) l.
Proof.
  apply (grouped_fold l [] []). split; [constructor | reflexivity].
Qed.

(** Every entry of the dict holds the records of its key, and every record
    has an entry. *)
Lemma group_by_entry (l : list ProductDict.t) k ps others :
  In (k, (ps, others)) (group_by key other l) -> ps = with_key key k l.
Proof.
  intros Hin. destruct (group_by_grouped l) as [Hnd Hg].
  specialize (Hg k). pose proof (entry_of_In _ _ Hnd Hin) as He. simpl in He.
  rewrite He in Hg. tauto.
Qed.

Lemma group_by_covers (l : list ProductDict.t) p :
  In p l -> exists ps others, In (key p, (ps, others)) (group_by key other l).
Proof.
  intros Hin. destruct (group_by_grouped l) as [_ Hg]. specialize (Hg (key p)).
  destruct (entry_of (key p) (group_by key other l)) as [[k' [ps others]]|] eqn:E.
  - destruct Hg as (-> & _ & _). exists ps, others.
    now apply find_some in E.
  - exfalso. assert (Hp : In p (with_key key (key p) l)).
    { apply filter_In. split; [exact Hin | apply String.eqb_refl]. }
    rewrite Hg in Hp. exact Hp.
Qed.

End Grouping.

(** *** Sorting keeps the entries *)

Lemma insert_desc_In {A} (key : A -> nat) (x y : A) (l : list A) :
  In y (insert_desc key x l) <-> y = x \/ In y l.
Proof.
  induction l as [|z l IH]; simpl; [intuition |].
  destruct (key x <? key z)%nat; simpl; [rewrite IH |]; intuition.
Qed.

Lemma sorted_desc_In {A} (key : A -> nat) (y : A) (l : list A) :
  In y (sorted_desc key l) <-> In y l.
Proof.
  unfold sorted_desc. induction l as [|x l IH]; simpl; [reflexivity |].
  rewrite insert_desc_In, IH. intuition.
Qed.

(** *** The endpoints *)

Lemma get_categories_entry (data : Snapshot.t) e :
  In e (get_categories data) ->
  CategoryResponse.product_count e
  = length (with_key category_key (CategoryResponse.name e) (records data))
  /\ (CategoryResponse.average_price e
      == mean (priced category_key (CategoryResponse.name e) (records data)))%Q
  /\ least (PriceRange.min (CategoryResponse.price_range e))
           (priced category_key (CategoryResponse.name e) (records data))
  /\ greatest (PriceRange.max (CategoryResponse.price_range e))
              (priced category_key (CategoryResponse.name e) (records data)).
Proof.
  unfold get_categories. rewrite sorted_desc_In, in_map_iff.
  intros ([k [ps others]] & <- & Hin).
  apply group_by_entry in Hin. subst ps. simpl.
  rewrite positive_prices_priced. fold (records data).
  split; [reflexivity |]. split; [apply average_mean |].
  apply range_least_greatest.
Qed.

Lemma get_suppliers_entry (data : Snapshot.t) e :
  In e (get_suppliers data) ->
  SupplierResponse.product_count e
  = length (with_key supplier_key (SupplierResponse.name e) (records data))
  /\ (SupplierResponse.average_price e
      == mean (priced supplier_key (SupplierResponse.name e) (records data)))%Q.
Proof.
  unfold get_suppliers. rewrite sorted_desc_In, in_map_iff.
  intros ([k [ps others]] & <- & Hin).
  apply group_by_entry in Hin. subst ps. simpl.
  rewrite positive_prices_priced. fold (records data).
  split; [reflexivity | apply average_mean].
Qed.

Lemma get_categories_covers (data : Snapshot.t) p :
  In p (records data) ->
  exists e, In e (get_categories data) /\ CategoryResponse.name e = category_key p.
Proof.
  intros Hin.
  destruct (group_by_covers category_key supplier_key _ p Hin) as (ps & others & H).
  exists (category_response (category_key p, (ps, others))). split; [| reflexivity].
  unfold get_categories. rewrite sorted_desc_In. now apply in_map.
Qed.

Lemma get_suppliers_covers (data : Snapshot.t) p :
  In p (records data) ->
  exists e, In e (get_suppliers data) /\ SupplierResponse.name e = supplier_key p.
Proof.
  intros Hin.
  destruct (group_by_covers supplier_key category_key _ p Hin) as (ps & others & H).
  exists (supplier_response (default "" (Snapshot.scraped_at data))
                            (supplier_key p, (ps, others))).
  split; [| reflexivity].
  unfold get_suppliers. rewrite sorted_desc_In. now apply in_map.
Qed.

Lemma positive_prices_all (l : list ProductDict.t) :
  positive_prices l = priced_all l.
Proof.
  unfold positive_prices, priced_all, Qltb.
  induction l as [|p l IH]; simpl; [reflexivity |].
  fold (price_of p). destruct (negb (Qle_bool (price_of p) 0)); simpl;
    now rewrite IH.
Qed.

Lemma get_stats_all (data : Snapshot.t) :
  StatsResponse.total_products (get_stats data) = length (records data)
  /\ (StatsResponse.average_price (get_stats data)
      == mean (priced_all (records data)))%Q
  /\ least (PriceRange.min (StatsResponse.price_range (get_stats data)))
           (priced_all (records data))
  /\ greatest (PriceRange.max (StatsResponse.price_range (get_stats data)))
              (priced_all (records data)).
Proof.
  unfold get_stats. fold (records data).
  destruct (records data) as [|p l] eqn:E.
  - simpl. repeat split; reflexivity.
  - rewrite <- positive_prices_all. cbn [StatsResponse.total_products
      StatsResponse.average_price StatsResponse.price_range].
    split; [reflexivity |]. split; [apply average_mean |].
    apply range_least_greatest.
Qed.

(** C3, as stated, fails for suppliers: the claim has the minimum and
    the maximum reported by supplier as they are by category, and
    [SupplierResponse] has no price range.  Two catalogs in which supplier
    S1 has two records of mean price 15, priced 10 and 20 in one and 5 and 25
    in the other, get the same answer from [get_suppliers]: nothing in it
    tells the least and the greatest price. *)
Lemma supplier_range_not_reported :
  get_suppliers narrow_catalog = get_suppliers wide_catalog
  /\ priced supplier_key "S1" (records narrow_catalog) = [10%Q; 20%Q]
  /\ priced supplier_key "S1" (records wide_catalog) = [5%Q; 25%Q].
Proof. repeat split; reflexivity. Qed.

(** C3, amended.  Every category of the snapshot has an entry in
    [get_categories], and in each entry [product_count] counts all the
    records of that category, while [average_price] is the mean, and the
    price range holds the least and the greatest, of the prices of its
    records priced above 0 (all three 0 when there is none).
    [get_suppliers] reports the count and the average of each supplier in
    the same way, and no minimum or maximum.  [get_stats] takes the count,
    the mean and the range in the same way over the whole snapshot.  In
    [cat1_catalog] the entry of cat1 has [product_count] 3, average 15,
    minimum 10 and maximum 20. *)
Theorem aggregation_positive_prices :
  (forall (data : Snapshot.t) (e : CategoryResponse.t),
      In e (get_categories data) ->
      CategoryResponse.product_count e
      = length (with_key category_key (CategoryResponse.name e) (records data))
      /\ (CategoryResponse.average_price e
          == mean (priced category_key (CategoryResponse.name e) (records data)))%Q
      /\ least (PriceRange.min (CategoryResponse.price_range e))
               (priced category_key (CategoryResponse.name e) (records data))
      /\ greatest (PriceRange.max (CategoryResponse.price_range e))
                  (priced category_key (CategoryResponse.name e) (records data)))
  /\ (forall (data : Snapshot.t) (e : SupplierResponse.t),
         In e (get_suppliers data) ->
         SupplierResponse.product_count e
         = length (with_key supplier_key (SupplierResponse.name e) (records data))
         /\ (SupplierResponse.average_price e
             == mean (priced supplier_key (SupplierResponse.name e) (records data)))%Q)
  /\ (forall (data : Snapshot.t) (p : ProductDict.t),
         In p (records data) ->
         (exists e, In e (get_categories data)
                    /\ CategoryResponse.name e = category_key p)
         /\ (exists e, In e (get_suppliers data)
                       /\ SupplierResponse.name e = supplier_key p))
  /\ (forall data : Snapshot.t,
         StatsResponse.total_products (get_stats data) = length (records data)
         /\ (StatsResponse.average_price (get_stats data)
             == mean (priced_all (records data)))%Q
         /\ least (PriceRange.min (StatsResponse.price_range (get_stats data)))
                  (priced_all (records data))
         /\ greatest (PriceRange.max (StatsResponse.price_range (get_stats data)))
                     (priced_all (records data)))
  /\ (exists e,
         In e (get_categories cat1_catalog)
         /\ CategoryResponse.name e = "cat1"
         /\ CategoryResponse.product_count e = 3%nat
         /\ (CategoryResponse.average_price e == 15)%Q
         /\ CategoryResponse.price_range e = PriceRange.mk 10 20).
Proof.
  split; [exact get_categories_entry |].
  split; [exact get_suppliers_entry |].
  split.
  - intros data p Hin. split;
      [now apply get_categories_covers | now apply get_suppliers_covers].
  - split; [exact get_stats_all |].
    eexists. split; [left; reflexivity |]. repeat split.
Qed.

Lemma aggregation_positive_prices_witness :
  exists e,
    In e (get_categories cat1_catalog)
    /\ CategoryResponse.product_count e
       = length (with_key category_key (CategoryResponse.name e)
                          (records cat1_catalog)).
Proof.
  destruct (proj2 (proj2 (proj2 (proj2 aggregation_positive_prices))))
    as (e & Hin & _).
  exists e. split; [exact Hin |].
  exact (proj1 (proj1 aggregation_positive_prices cat1_catalog e Hin)).
Defined.

End AggregationSpec.

(** ** More on the price parser *)

Module ParsePriceMore.
Import Py PyFacts Reference Scraper.

(** The empty text needs no case of its own: nothing is left of it. *)
Lemma parse_price_of_clean (s : string) :
  _parse_price s
  = match float (clean s) with
    | Some price => (price, "EUR")
    | None => (0%Q, "EUR")
    end.
Proof. rewrite ParsePriceSpec.parse_price_clean_form. now destruct s. Qed.

(** X1.  The parsed price depends only on the decimal digits, commas and
    periods of the text, in their order, a comma counting as a period: two
    texts that clean to the same characters parse alike.  Digits after the
    numeral are therefore glued to it: "12,50 €/m2" parses as 12.502.  The
    digits of every script are kept: the Arabic-Indic numeral for 12 parses
    to 12 and does not clean to what a text without digits cleans to. *)
Theorem parse_price_only_kept_characters :
  (forall s t : string, clean s = clean t -> _parse_price s = _parse_price t)
  /\ _parse_price "12,50 €/m2" = (12.502%Q, "EUR")
  /\ _parse_price "١٢ €" = (12%Q, "EUR")
  /\ clean "١٢" <> clean "abc".
Proof.
  split; [| split; [reflexivity | split; [reflexivity | discriminate]]].
  intros s t H. now rewrite (parse_price_of_clean s), (parse_price_of_clean t), H.
Qed.

Lemma parse_price_only_kept_characters_witness :
  _parse_price "Prix: 29.99 EUR TTC" = _parse_price "29,99 €".
Proof.
  apply (proj1 parse_price_only_kept_characters). reflexivity.
Defined.

(** *** Several separators *)

Lemma points_app (a b : string) : points (a ++ b) = (points a + points b)%nat.
Proof. induction a as [|c a IH]; simpl; [reflexivity | rewrite IH; lia]. Qed.

Lemma points_digits (s : string) : str_forall is_digit s = true -> points s = 0%nat.
Proof.
  induction s as [|c s IH]; simpl; [reflexivity |].
  intros [Hc Hs]%andb_prop. now rewrite (is_digit_not_point c Hc), IH.
Qed.

Lemma separator_chars_cons (ch : char) (t : list char) :
  separator_chars (ch :: t)
  = ((if char_is "," ch || char_is "." ch then 1 else 0) + separator_chars t)%nat.
Proof.
  unfold separator_chars. cbn [List.filter].
  now destruct (char_is "," ch || char_is "." ch).
Qed.

Lemma separator_chars_app (a b : list char) :
  separator_chars (a ++ b) = (separator_chars a + separator_chars b)%nat.
Proof.
  unfold separator_chars. now rewrite List.filter_app, length_app.
Qed.

(** The periods of the cleaned text are the commas and periods of the
    characters: a digit of another script becomes an ASCII digit. *)
Lemma points_clean_chars (t : list char) :
  points (ascii_decimal (List.filter keep (text_replace "," "." t)))
  = separator_chars t.
Proof.
  induction t as [|ch t IH]; [reflexivity |].
  rewrite separator_chars_cons. unfold text_replace in *.
  cbn [map List.filter].
  destruct ch as [a|cp]; cbn [char_is].
  - destruct (Ascii.eqb a ",") eqn:Ec.
    + change (keep (Byte ".")) with true.
      cbn [ascii_decimal to_ascii points orb]. now rewrite IH.
    + rewrite ParsePriceSpec.keep_byte, Ec.
      destruct (Ascii.eqb a ".") eqn:Ep, (is_digit a);
        cbn [orb ascii_decimal to_ascii points]; rewrite ?Ep, IH; reflexivity.
  - rewrite ParsePriceSpec.keep_wide. unfold is_decimal, decimal.
    destruct (wide_decimal cp) as [d|] eqn:Ed; [| exact IH].
    cbn [ascii_decimal to_ascii points]. rewrite Ed.
    now rewrite (is_digit_not_point _ (wide_decimal_digit cp d Ed)), IH.
Qed.

(** Decoding neither makes nor loses a comma or a period, whatever the
    bytes. *)
Lemma separator_chars_from (s : string) (need : nat) (acc : N) :
  separator_chars (chars_from need acc s) = separators s.
Proof.
  revert need acc. induction s as [|c s IH]; intros need acc.
  - now destruct need.
  - cbn [chars_from separators].
    destruct (classify c) eqn:Ec.
    + rewrite separator_chars_app, separator_chars_cons, IH. cbn [char_is].
      now destruct need.
    + assert (Hs : Ascii.eqb c "," || Ascii.eqb c "." = false).
      { destruct (_ || _) eqn:E; [| reflexivity].
        rewrite (separator_single c E) in Ec. discriminate. }
      rewrite Hs. destruct need as [|[|k]];
        rewrite ?separator_chars_cons, IH; reflexivity.
    + assert (Hs : Ascii.eqb c "," || Ascii.eqb c "." = false).
      { destruct (_ || _) eqn:E; [| reflexivity].
        rewrite (separator_single c E) in Ec. discriminate. }
      rewrite Hs, separator_chars_app, IH. now destruct need.
    + assert (Hs : Ascii.eqb c "," || Ascii.eqb c "." = false).
      { destruct (_ || _) eqn:E; [| reflexivity].
        rewrite (separator_single c E) in Ec. discriminate. }
      rewrite Hs, separator_chars_app, separator_chars_cons, IH.
      now destruct need.
Qed.

Lemma points_clean (s : string) :
  points (ascii_decimal (clean s)) = separators s.
Proof.
  unfold clean. rewrite points_clean_chars. apply separator_chars_from.
Qed.

(** The parser fails on a string with two periods or more. *)
Lemma string_to_double_two_points (s : string) :
  (2 <= points s)%nat -> string_to_double s = None.
Proof.
  intros H. unfold string_to_double. pose proof (split_point_spell s) as Hs.
  destruct (split_point s) as [ip [fp|]]; simpl in Hs.
  - destruct (str_forall is_digit ip) eqn:Hip; [| reflexivity].
    destruct (str_forall is_digit fp) eqn:Hfp; [| reflexivity].
    exfalso. rewrite Hs, points_app in H. simpl in H.
    rewrite (points_digits ip Hip), (points_digits fp Hfp) in H. lia.
  - rewrite app_empty_r in Hs. subst ip.
    destruct (str_forall is_digit s) eqn:Hd; [| reflexivity].
    rewrite (points_digits s Hd) in H. lia.
Qed.

(** X2.  A text with two or more separators (commas or periods) has price
    0: a thousands separator beside the decimal one, as in "1.299,00 €",
    makes [float] fail. *)
Theorem parse_price_two_separators (s : string) :
  (2 <= separators s)%nat -> _parse_price s = (0%Q, "EUR").
Proof.
  intros H. rewrite ParsePriceSpec.parse_price_clean_form.
  destruct (is_empty s); [reflexivity |].
  unfold float.
  rewrite string_to_double_two_points; [reflexivity | now rewrite points_clean].
Qed.

Lemma parse_price_two_separators_witness :
  _parse_price "1.299,00 €" = (0%Q, "EUR").
Proof. apply parse_price_two_separators. simpl. lia. Defined.

(** *** Sign *)

Lemma digits_value_from_nonneg (s : string) (acc : Z) :
  (0 <= acc)%Z -> (0 <= digits_value_from acc s)%Z.
Proof.
  revert acc. induction s as [|c s IH]; intros acc H; simpl; [exact H |].
  apply IH. unfold digit_value. lia.
Qed.

Lemma float_nonneg (t : list char) (v : Q) : float t = Some v -> (0 <= v)%Q.
Proof.
  unfold float, string_to_double.
  destruct (split_point (ascii_decimal t)) as [ip [fp|]].
  - destruct (_ && _); [| discriminate]. intros [= <-].
    unfold Qle. simpl.
    pose proof (digits_value_from_nonneg ip 0 ltac:(lia)).
    pose proof (digits_value_from_nonneg fp 0 ltac:(lia)).
    unfold digits_value. nia.
  - destruct (_ && _); [| discriminate]. intros [= <-].
    unfold Qle. simpl.
    pose proof (digits_value_from_nonneg ip 0 ltac:(lia)).
    unfold digits_value. lia.
Qed.

(** X3.  The parsed price is never negative: a minus sign does not survive
    the cleaning, and a failed parse gives 0. *)
Theorem parse_price_nonneg (s : string) : (0 <= fst (_parse_price s))%Q.
Proof.
  rewrite ParsePriceSpec.parse_price_clean_form.
  destruct (is_empty s); [apply Qle_refl |].
  destruct (float (clean s)) as [v|] eqn:E; [| apply Qle_refl].
  exact (float_nonneg _ _ E).
Qed.

End ParsePriceMore.

(** ** Unit extraction *)

Module UnitSpec.
Import Py PyFacts Reference Scraper.

Lemma startswith_app_l (a b h : string) :
  startswith (a ++ b) h = true -> startswith a h = true.
Proof.
  revert h. induction a as [|c a IH]; intros h; simpl; [reflexivity |].
  destruct h as [|d h]; [discriminate |].
  intros [Hc Hr]%andb_prop. rewrite Hc. simpl. now apply IH.
Qed.

(** A text that contains [a ++ b] contains [a]. *)
Lemma contains_app_l (a b h : string) :
  contains (a ++ b) h = true -> contains a h = true.
Proof.
  induction h as [|d h IH]; simpl.
  - rewrite !orb_false_r. apply startswith_app_l.
  - intros [H | H]%orb_prop.
    + now rewrite (startswith_app_l a b _ H).
    + rewrite (IH H). apply orb_true_r.
Qed.

(** Walks down the tests of [_extract_unit], one unit after the other. *)
Ltac next_unit :=
  match goal with
  | |- context [if contains ?u ?t then _ else _] =>
      let E := fresh "E" in destruct (contains u t) eqn:E
  end.

(** X4.  The unit returned is one of the fixed list and occurs in the text
    without regard to case; the tests run in list order and the first hit
    wins.  Because "l" stands before "lot", "lot" is never returned, and every
    text with the letter l gets a unit: "Simple product name" gets "l". *)
Theorem extract_unit_first_hit :
  (forall (text u : string),
      _extract_unit text = Some u ->
      In u units /\ contains (lower u) (lower text) = true)
  /\ (forall text : string, _extract_unit text <> Some "lot")
  /\ (forall text : string,
         contains "l" (lower text) = true -> exists u, _extract_unit text = Some u)
  /\ _extract_unit "Simple product name" = Some "l".
Proof.
  split; [| split; [| split; [| reflexivity]]].
  - intros text u. unfold _extract_unit.
    destruct (is_empty text); [discriminate |].
    intros H. now apply find_some in H.
  - intros text. unfold _extract_unit.
    destruct (is_empty text); [discriminate |].
    unfold units. cbn [List.find].
    repeat (next_unit; [discriminate |]).
    next_unit; [| repeat (next_unit; [discriminate |]); discriminate].
    exfalso.
    assert (Hl : contains "l" (lower text) = true).
    { apply (contains_app_l "l" "ot"). assumption. }
    match goal with
    | Hf : contains (lower "l") _ = false |- _ =>
        change (contains "l" (lower text) = false) in Hf; congruence
    end.
  - intros text Hl. unfold _extract_unit.
    destruct (is_empty text) eqn:Ee.
    + destruct text; [discriminate Hl | discriminate Ee].
    + unfold units. cbn [List.find].
      repeat (next_unit; [eexists; reflexivity |]).
      match goal with
      | Hf : contains (lower "l") _ = false |- _ =>
          change (contains "l" (lower text) = false) in Hf; congruence
      end.
Qed.

Lemma extract_unit_first_hit_witness :
  In "kg" units /\ contains (lower "kg") (lower "Ciment - sac 5 KG") = true.
Proof.
  apply (proj1 extract_unit_first_hit "Ciment - sac 5 KG" "kg").
  reflexivity.
Defined.

End UnitSpec.

(** ** More on the extraction of one product *)

Module ExtractMore.
Import Py Bs4 Reference Scraper.

Section Extract.
Variable urljoin : string -> string -> result string.

Abbreviation parse := (_parse_leroymerlin_product urljoin).

(** The fields of a built record that do not come from the name or the
    stock element. *)
Lemma parse_record (c : node) (category base now : string) (p : Product.t) :
  parse c category base now = Some p ->
  Product.category p = category
  /\ Product.supplier p = "Leroy Merlin"
  /\ Product.currency p = "EUR"
  /\ Product.pack_size p = None
  /\ Product.scraped_at p = now
  /\ (0 <= Product.price p)%Q
  /\ Product.unit p = _extract_unit (Product.name p)
  /\ exists url_elem,
       find ["a"] (has_attr "href") c = Some url_elem
       /\ urljoin base (default "" (Bs4.get "href" url_elem))
          = Ret (Product.product_url p).
Proof.
  unfold _parse_leroymerlin_product, parse_product_body. intros H.
  destruct (or_else _ _) as [name_elem|]; [| discriminate H].
  destruct (find ["a"] (has_attr "href") c) as [url_elem|]; [| discriminate H].
  destruct (urljoin base _) as [product_url|] eqn:Eu; [| discriminate H].
  simpl in H.
  match type of H with
  | context [_parse_price ?t] =>
      pose proof (ParsePriceSpec.parse_price_currency t) as Hcur;
      pose proof (ParsePriceSpec.parse_price_clean_form t) as Hform;
      destruct (_parse_price t) as [price currency]
  end.
  simpl in Hcur.
  assert (Hpos : (0 <= price)%Q).
  { destruct (is_empty _) in Hform; [injection Hform as -> _; apply Qle_refl |].
    destruct (float _) as [v|] eqn:Ef in Hform;
      injection Hform as -> _; [exact (ParsePriceMore.float_nonneg _ _ Ef) | apply Qle_refl]. }
  match type of H with
  | context [bind ?x _] => destruct x as [image_url|]; [| discriminate H]
  end.
  simpl in H. injection H as <-. unfold Product.post_init. simpl.
  repeat split; try assumption. exists url_elem. split; [reflexivity | exact Eu].
Qed.

(** When [urljoin] does not raise, a record is built from every container
    with a name candidate and an anchor with [href]. *)
Lemma parse_builds (c : node) (category base now : string) name_elem url_elem :
  (forall a b, exists u, urljoin a b = Ret u) ->
  or_else (find ["h2"; "h3"; "a"] (class_matches ["title"; "name"; "product"]) c)
          (find ["a"] (has_attr "title") c) = Some name_elem ->
  find ["a"] (has_attr "href") c = Some url_elem ->
  exists p, parse c category base now = Some p.
Proof.
  intros Hj Hn Hu. unfold _parse_leroymerlin_product, parse_product_body.
  rewrite Hn, Hu.
  destruct (Hj base (default "" (Bs4.get "href" url_elem))) as [u ->].
  cbn [bind]. destruct (_parse_price _) as [price currency].
  destruct (find ["img"] _ c) as [img|]; cbn [bind]; [| eexists; reflexivity].
  destruct (match Bs4.get "src" img with
            | Some s => if is_empty s then Bs4.get "data-src" img else Some s
            | None => Bs4.get "data-src" img
            end) as [ref|]; cbn [bind]; [| eexists; reflexivity].
  destruct (negb (is_empty ref) && negb (startswith "http" ref)); cbn [bind];
    [| eexists; reflexivity].
  destruct (Hj base ref) as [j ->]. cbn [bind]. eexists; reflexivity.
Qed.

End Extract.

(** X5.  Every record that is built carries the category it was asked
    for, the supplier "Leroy Merlin", the currency EUR, no pack size, the
    clock's reading as its timestamp, a price that is not negative, and the
    unit extracted from its own name. *)
Theorem parse_fixed_fields (urljoin : string -> string -> result string)
    (c : node) (category base now : string) (p : Product.t) :
  _parse_leroymerlin_product urljoin c category base now = Some p ->
  Product.category p = category
  /\ Product.supplier p = "Leroy Merlin"
  /\ Product.currency p = "EUR"
  /\ Product.pack_size p = None
  /\ Product.scraped_at p = now
  /\ (0 <= Product.price p)%Q
  /\ Product.unit p = _extract_unit (Product.name p).
Proof.
  intros H. destruct (parse_record urljoin c category base now p H)
    as (H1 & H2 & H3 & H4 & H5 & H6 & H7 & _).
  repeat split; assumption.
Qed.

Lemma parse_fixed_fields_witness :
  exists p,
    _parse_leroymerlin_product join out_of_stock_card "lavabos"
                               "https://www.leroymerlin.fr" "2024-01-01" = Some p
    /\ Product.category p = "lavabos"
    /\ Product.supplier p = "Leroy Merlin".
Proof.
  eexists. split; [reflexivity |].
  pose proof (parse_fixed_fields join out_of_stock_card "lavabos"
                "https://www.leroymerlin.fr" "2024-01-01" _ eq_refl) as H.
  split; [exact (proj1 H) | exact (proj1 (proj2 H))].
Defined.

(** X6.  The source URL is mandatory and resolved against the base: a
    record is built only from a container that has an anchor with [href], and
    its [product_url] is [urljoin] of the base and the [href] of the first
    such anchor; when that [urljoin] raises, no record is built.  When
    [urljoin] never raises, a record is built exactly when the container has
    a name candidate and an anchor with [href]. *)
Theorem parse_needs_url (urljoin : string -> string -> result string)
    (c : node) (category base now : string) :
  (forall p,
      _parse_leroymerlin_product urljoin c category base now = Some p ->
      exists url_elem,
        find ["a"] (has_attr "href") c = Some url_elem
        /\ urljoin base (default "" (Bs4.get "href" url_elem))
           = Ret (Product.product_url p))
  /\ ((forall a b, exists u, urljoin a b = Ret u) ->
      ((exists p, _parse_leroymerlin_product urljoin c category base now = Some p)
       <-> (exists name_elem url_elem,
              or_else (find ["h2"; "h3"; "a"]
                            (class_matches ["title"; "name"; "product"]) c)
                      (find ["a"] (has_attr "title") c) = Some name_elem
              /\ find ["a"] (has_attr "href") c = Some url_elem))).
Proof.
  split.
  - intros p H. now destruct (parse_record urljoin c category base now p H)
      as (_ & _ & _ & _ & _ & _ & _ & Hu).
  - intros Hj. split.
    + intros [p H].
      destruct (ExtractSpec.parse_some urljoin c category base now p H)
        as (name_elem & Hn & _).
      destruct (parse_record urljoin c category base now p H)
        as (_ & _ & _ & _ & _ & _ & _ & url_elem & Hu & _).
      now exists name_elem, url_elem.
    + intros (name_elem & url_elem & Hn & Hu).
      now apply (parse_builds urljoin c category base now name_elem url_elem).
Qed.

Lemma parse_needs_url_witness :
  exists url_elem,
    find ["a"] (has_attr "href") out_of_stock_card = Some url_elem
    /\ join "https://www.leroymerlin.fr" (default "" (Bs4.get "href" url_elem))
       = Ret "https://www.leroymerlin.fr/p/2".
Proof.
  exact (proj1 (parse_needs_url join out_of_stock_card "lavabos"
                  "https://www.leroymerlin.fr" "now") _ eq_refl).
Defined.

End ExtractMore.

(** ** More on the crawl of one category *)

Module CrawlMore.
Import Py Bs4 Reference Scraper.

Section Crawl.
Variable config : Config.
Variable urljoin : string -> string -> result string.
Variable BeautifulSoup : string -> node.
Variable get : string -> result Response.
Variable clock : nat -> nat -> string.

Abbreviation cap := (max_products_per_category config).
Abbreviation step := (crawl_page config urljoin BeautifulSoup get clock).
Abbreviation loop := (crawl_loop config urljoin BeautifulSoup get clock).
Abbreviation parse_all := (parse_containers config urljoin clock).

Lemma parse_containers_stamped category pg i containers :
  Forall (stamped category) (parse_all category pg i containers).
Proof.
  revert i. induction containers as [|c rest IH]; intros i; simpl; [constructor |].
  destruct (_parse_leroymerlin_product _ _ _ _ _) as [p|] eqn:E; [| apply IH].
  constructor; [| apply IH].
  destruct (ExtractMore.parse_record _ _ _ _ _ _ E) as (H1 & H2 & H3 & _ & _ & H6 & _).
  repeat split; assumption.
Qed.

(** What one turn of the loop body does, whatever the page holds. *)
Lemma crawl_page_outcome category full_url st :
  exists st' again parsed,
    step category full_url st = Ret (st', again)
    /\ fetched st' = page_url full_url (page st) :: fetched st
    /\ products st' = products st ++ parsed
    /\ Forall (stamped category) parsed
    /\ (again = true -> page st' = S (page st))
    /\ (again = false -> page st' = page st \/ page st' = S (page st))
    /\ (parsed = [] -> again = false /\ page st' = page st).
Proof.
  unfold crawl_page, page_url.
  destruct (CrawlSpec.fetch_page_returns get
              (full_url ++ "?page=" ++ str_of_nat (page st))%string)
    as [content ->].
  simpl bind.
  assert (Hstop : exists st' again parsed,
             Ret ({| page := page st; products := products st;
                     fetched := (full_url ++ "?page=" ++ str_of_nat (page st))%string
                                :: fetched st |}, false)
             = Ret (st', again)
             /\ fetched st' = (full_url ++ "?page=" ++ str_of_nat (page st))%string
                              :: fetched st
             /\ products st' = products st ++ parsed
             /\ Forall (stamped category) parsed
             /\ (again = true -> page st' = S (page st))
             /\ (again = false -> page st' = page st \/ page st' = S (page st))
             /\ (parsed = [] -> again = false /\ page st' = page st)).
  { eexists _, _, []. split; [reflexivity |]. simpl. rewrite app_nil_r.
    repeat split; auto; discriminate. }
  destruct content as [content|]; [| exact Hstop].
  destruct (is_empty content); [exact Hstop |].
  set (by_class := find_all _ _ _).
  set (containers := match by_class with [] => _ | _ => _ end).
  destruct containers as [|c0 cs] eqn:Ec; [exact Hstop |].
  set (parsed := parse_containers _ _ _ _ _ _ _).
  assert (Hgood : Forall (stamped category) parsed)
    by apply parse_containers_stamped.
  destruct (length parsed =? 0)%nat eqn:E0.
  - apply Nat.eqb_eq in E0.
    exists {| page := page st; products := products st ++ parsed;
              fetched := (full_url ++ "?page=" ++ str_of_nat (page st))%string
                         :: fetched st |}, false, parsed.
    simpl. repeat split; auto; discriminate.
  - apply Nat.eqb_neq in E0.
    assert (Hne : parsed <> []) by (intros Hnil; rewrite Hnil in E0; now apply E0).
    destruct (10 <? _)%nat;
      eexists _, _, parsed; (split; [reflexivity |]); simpl;
      repeat split; auto; try discriminate; try contradiction; lia.
Qed.

Lemma log_next full_url k :
  (1 <= k)%nat ->
  page_url full_url k :: rev (map (page_url full_url) (seq 1 (k - 1)))
  = rev (map (page_url full_url) (seq 1 k)).
Proof.
  intros Hk. destruct k as [|j]; [lia |].
  replace (S j - 1)%nat with j by lia.
  rewrite seq_S, map_app, rev_app_distr. reflexivity.
Qed.

Lemma crawl_loop_trace category full_url fuel st st' :
  in_sequence full_url st ->
  Forall (stamped category) (products st) ->
  loop fuel category full_url st = Some (Ret st') ->
  fetched st' = rev (map (page_url full_url) (seq 1 (length (fetched st'))))
  /\ Forall (stamped category) (products st').
Proof.
  revert st. induction fuel as [|fuel IH]; intros st [Hpg Hlog] Hgood; simpl.
  - destruct (_ <? _)%nat; [discriminate |]. intros [= <-].
    split; [| exact Hgood].
    rewrite Hlog at 2. rewrite length_rev, length_map, length_seq. exact Hlog.
  - destruct (_ <? _)%nat.
    + destruct (crawl_page_outcome category full_url st)
        as (st1 & again & parsed & -> & Hf & Hp & Hg & Hyes & Hno & _).
      assert (Hlog1 : fetched st1 = rev (map (page_url full_url) (seq 1 (page st)))).
      { rewrite Hf, Hlog. now apply log_next. }
      assert (Hgood1 : Forall (stamped category) (products st1)).
      { rewrite Hp. apply Forall_app. now split. }
      destruct again.
      * apply IH; [| exact Hgood1]. unfold in_sequence.
        rewrite (Hyes eq_refl). split; [lia |].
        replace (S (page st) - 1)%nat with (page st) by lia. exact Hlog1.
      * intros [= <-]. split; [| exact Hgood1].
        rewrite Hlog1 at 2. rewrite length_rev, length_map, length_seq. exact Hlog1.
    + intros [= <-]. split; [| exact Hgood].
      rewrite Hlog at 2. rewrite length_rev, length_map, length_seq. exact Hlog.
Qed.

(** The crawl returns with fuel for ten turns, within the bounds. *)
Lemma scrape_returns category category_url fuel :
  (10 <= fuel)%nat ->
  exists r,
    _scrape_leroymerlin_category config urljoin BeautifulSoup get clock fuel
                                 category category_url = Some r
    /\ match r with
       | Ret st => (length (fetched st) <= 10)%nat
                   /\ (length (products st) <= cap)%nat
       | Raise _ => True
       end.
Proof.
  intros Hfuel. unfold _scrape_leroymerlin_category.
  destruct (urljoin (base_url config) category_url) as [full_url|e];
    [| exists (Raise e); now split].
  destruct (CrawlSpec.crawl_loop_bounded config urljoin BeautifulSoup get clock
              category full_url 10 {| page := 1; products := []; fetched := [] |})
    as (st' & Hrun & Hf & Hc); simpl; try lia.
  exists (Ret st'). split; [| now split].
  exact (CrawlSpec.crawl_loop_fuel config urljoin BeautifulSoup get clock category
           full_url 10 fuel _ _ Hfuel Hrun).
Qed.

End Crawl.

(** X7.  With a cap of 0 the crawl fetches nothing.  With a cap of at
    least 1 it stops after the first page, with one fetch and no record, when
    that fetch fails, when the page is empty, or when no record comes out of
    its containers (there are none, or none can be extracted). *)
Theorem crawl_stops_on_first_page (config : Config)
    (urljoin : string -> string -> result string)
    (BeautifulSoup : string -> node) (get : string -> result Response)
    (clock : nat -> nat -> string) (category category_url full_url : string) :
  urljoin (base_url config) category_url = Ret full_url ->
  (max_products_per_category config = 0%nat ->
   forall fuel,
     _scrape_leroymerlin_category config urljoin BeautifulSoup get clock fuel
                                  category category_url
     = Some (Ret {| page := 1; products := []; fetched := [] |}))
  /\ ((1 <= max_products_per_category config)%nat ->
      _fetch_page get (page_url full_url 1) = Ret None
      \/ (exists content,
            _fetch_page get (page_url full_url 1) = Ret (Some content)
            /\ (content = ""
                \/ parse_containers config urljoin clock category 1 0
                     (firstn (max_products_per_category config)
                             (containers_of (BeautifulSoup content))) = [])) ->
      forall fuel, (1 <= fuel)%nat ->
        _scrape_leroymerlin_category config urljoin BeautifulSoup get clock fuel
                                     category category_url
        = Some (Ret {| page := 1; products := [];
                       fetched := [page_url full_url 1] |})).
Proof.
  intros Hjoin. unfold _scrape_leroymerlin_category. rewrite Hjoin. split.
  - intros Hcap fuel. destruct fuel; simpl; rewrite Hcap; reflexivity.
  - intros Hcap Hpage fuel Hfuel. destruct fuel as [|fuel]; [lia |].
    simpl. destruct (Nat.ltb_spec 0 (max_products_per_category config)) as [_|]; [| lia].
    unfold crawl_page. simpl page. simpl products. simpl fetched.
    fold (page_url full_url 1).
    destruct Hpage as [-> | (content & -> & Hc)]; [reflexivity |].
    simpl bind. destruct Hc as [-> | Hnone]; [reflexivity |].
    destruct (is_empty content); [reflexivity |].
    rewrite Nat.sub_0_r.
    unfold containers_of in Hnone. cbv zeta in Hnone.
    set (by_class := find_all _ _ _) in *.
    set (containers := match by_class with [] => _ | _ => _ end) in *.
    destruct containers as [|c0 cs]; [reflexivity |].
    rewrite Hnone. reflexivity.
Qed.

Lemma crawl_stops_on_first_page_witness :
  _scrape_leroymerlin_category
    {| base_url := "https://www.leroymerlin.fr"; max_products_per_category := 5 |}
    join (fun _ => Tag "[document]" [] [Tag "p" [] [Text "Aucun produit"]])
    endless_get (fun _ _ => "now") 3 "wc" "/wc"
  = Some (Ret {| page := 1; products := [];
                 fetched := [page_url "https://www.leroymerlin.fr/wc" 1] |}).
Proof.
  apply (proj2 (crawl_stops_on_first_page
                  {| base_url := "https://www.leroymerlin.fr";
                     max_products_per_category := 5 |}
                  join (fun _ => Tag "[document]" [] [Tag "p" [] [Text "Aucun produit"]])
                  endless_get (fun _ _ => "now") "wc" "/wc"
                  "https://www.leroymerlin.fr/wc" eq_refl)).
  - simpl. lia.
  - right. exists "<html>page</html>". split; [reflexivity |]. right. reflexivity.
  - lia.
Defined.

(** X8.  Every record a crawl returns carries the category the crawl was
    started for, the supplier "Leroy Merlin", the currency EUR and a price
    that is not negative. *)
Theorem crawl_stamps_records (config : Config)
    (urljoin : string -> string -> result string)
    (BeautifulSoup : string -> node) (get : string -> result Response)
    (clock : nat -> nat -> string) (category category_url : string)
    (fuel : nat) (st : state) :
  _scrape_leroymerlin_category config urljoin BeautifulSoup get clock fuel
                               category category_url = Some (Ret st) ->
  Forall (stamped category) (products st).
Proof.
  unfold _scrape_leroymerlin_category.
  destruct (urljoin (base_url config) category_url) as [full_url|e]; [| discriminate].
  intros H.
  apply (crawl_loop_trace config urljoin BeautifulSoup get clock category
           full_url fuel _ st) in H; [tauto | | constructor].
  split; [simpl; lia | reflexivity].
Qed.

Lemma crawl_stamps_records_witness :
  exists st,
    _scrape_leroymerlin_category
      {| base_url := "https://www.leroymerlin.fr"; max_products_per_category := 50 |}
      join endless_soup endless_get (fun _ _ => "now") 10 "carrelage" "/carrelage"
    = Some (Ret st)
    /\ Forall (stamped "carrelage") (products st).
Proof.
  destruct CrawlSpec.crawl_endless_site as (st & Hst & _).
  exists st. split; [exact Hst |].
  exact (crawl_stamps_records
           {| base_url := "https://www.leroymerlin.fr";
              max_products_per_category := 50 |}
           join endless_soup endless_get (fun _ _ => "now")
           "carrelage" "/carrelage" 10 st Hst).
Defined.

(** X9.  The pages of a category are requested in sequence: the URLs
    fetched are those of pages 1, 2, ..., n, each once and in this order, for
    some n of at most 10. *)
Theorem crawl_fetches_in_sequence (config : Config)
    (urljoin : string -> string -> result string)
    (BeautifulSoup : string -> node) (get : string -> result Response)
    (clock : nat -> nat -> string) (category category_url full_url : string)
    (fuel : nat) (st : state) :
  urljoin (base_url config) category_url = Ret full_url ->
  _scrape_leroymerlin_category config urljoin BeautifulSoup get clock fuel
                               category category_url = Some (Ret st) ->
  rev (fetched st) = map (page_url full_url) (seq 1 (length (fetched st)))
  /\ (length (fetched st) <= 10)%nat.
Proof.
  intros Hjoin H.
  assert (Hlen : (length (fetched st) <= 10)%nat).
  { destruct (scrape_returns config urljoin BeautifulSoup get clock category
                category_url (Nat.max fuel 10) ltac:(lia)) as (r & Hr & Hb).
    unfold _scrape_leroymerlin_category in H, Hr. rewrite Hjoin in H, Hr.
    rewrite (CrawlSpec.crawl_loop_fuel config urljoin BeautifulSoup get clock
               category full_url fuel (Nat.max fuel 10) _ _ ltac:(lia) H) in Hr.
    injection Hr as <-. tauto. }
  split; [| exact Hlen].
  unfold _scrape_leroymerlin_category in H. rewrite Hjoin in H.
  apply (crawl_loop_trace config urljoin BeautifulSoup get clock category
           full_url fuel _ st) in H; [| split; [simpl; lia | reflexivity] | constructor].
  destruct H as [Hlog _]. rewrite Hlog at 1. apply rev_involutive.
Qed.

Lemma crawl_fetches_in_sequence_witness :
  exists st,
    _scrape_leroymerlin_category
      {| base_url := "https://www.leroymerlin.fr"; max_products_per_category := 50 |}
      join endless_soup endless_get (fun _ _ => "now") 10 "carrelage" "/carrelage"
    = Some (Ret st)
    /\ rev (fetched st)
       = map (page_url "https://www.leroymerlin.fr/carrelage")
             (seq 1 (length (fetched st))).
Proof.
  destruct CrawlSpec.crawl_endless_site as (st & Hst & _).
  exists st. split; [exact Hst |].
  exact (proj1 (crawl_fetches_in_sequence
                  {| base_url := "https://www.leroymerlin.fr";
                     max_products_per_category := 50 |}
                  join endless_soup endless_get (fun _ _ => "now")
                  "carrelage" "/carrelage" "https://www.leroymerlin.fr/carrelage"
                  10 st eq_refl Hst)).
Defined.

End CrawlMore.

(** ** The coordinator *)

Module CoordinatorSpec.
Import Py Bs4 Reference Scraper.

Lemma gather_bounded (P : state -> Prop) (tasks : list (option (result state))) :
  Forall (fun t => exists r, t = Some r
                             /\ match r with Ret st => P st | Raise _ => True end)
         tasks ->
  exists R,
    gather tasks = Some R
    /\ match R with
       | Ret sts => Forall P sts /\ length sts = length tasks
       | Raise _ => True
       end.
Proof.
  induction 1 as [|t tasks (r & -> & Hr) _ (R & HR & Hsts)]; simpl.
  - exists (Ret []). split; [reflexivity | split; [constructor | reflexivity]].
  - rewrite HR. destruct r as [st|e].
    + destruct R as [sts|e].
      * exists (Ret (st :: sts)). split; [reflexivity |].
        destruct Hsts as [Hall Hlen]. split; [now constructor | simpl; now rewrite Hlen].
      * exists (Raise e). now split.
    + exists (Raise e). now split.
Qed.

Lemma products_bound (cap : nat) (sts : list state) :
  Forall (fun st => (length (fetched st) <= 10)%nat
                    /\ (length (products st) <= cap)%nat) sts ->
  (length (flat_map products sts) <= cap * length sts)%nat
  /\ Forall (fun log => (length log <= 10)%nat) (map fetched sts).
Proof.
  induction 1 as [|st sts [Hf Hp] _ [IH1 IH2]]; simpl.
  - split; [lia | constructor].
  - rewrite length_app. split; [lia | now constructor].
Qed.

Section Coordinator.
Variable urljoin : string -> string -> result string.
Variable BeautifulSoup : string -> node.
Variable get : string -> result Response.
Variable clock : string -> nat -> nat -> string.

Abbreviation run_supplier := (scrape_supplier urljoin BeautifulSoup get clock).
Abbreviation run_suppliers := (scrape_suppliers urljoin BeautifulSoup get clock).

(** A run over one supplier returns with fuel for ten turns, within the cap
    and the page ceiling of each of its categories. *)
Lemma scrape_supplier_returns fuel config supplier_name :
  (10 <= fuel)%nat ->
  exists r,
    run_supplier fuel config supplier_name = Some r
    /\ match r with
       | Ret (found, logs) =>
           (length found
            <= scraping_max_products config * category_count config supplier_name)%nat
           /\ (length logs <= category_count config supplier_name)%nat
           /\ Forall (fun log => (length log <= 10)%nat) logs
       | Raise _ => True
       end.
Proof.
  intros Hfuel. unfold scrape_supplier, category_count.
  destruct (supplier_config config supplier_name) as [supplier|].
  - set (tasks := flat_map _ _).
    assert (Hlen : (length tasks <= length (supplier_categories supplier))%nat).
    { subst tasks. induction (supplier_categories supplier) as [|cu l IH]; simpl;
        [lia |]. destruct (String.eqb _ _); simpl; lia. }
    destruct (gather_bounded
                (fun st => (length (fetched st) <= 10)%nat
                           /\ (length (products st) <= scraping_max_products config)%nat)
                tasks) as (R & -> & HR).
    { subst tasks. apply List.Forall_forall. intros t [cu [_ Ht]]%in_flat_map.
      destruct (String.eqb _ _); [| contradiction].
      destruct Ht as [<- | []].
      destruct (CrawlMore.scrape_returns
                  {| base_url := supplier_base_url supplier;
                     max_products_per_category := scraping_max_products config |}
                  urljoin BeautifulSoup get (clock (fst cu)) (fst cu) (snd cu) fuel Hfuel)
        as (r & Hr & Hb).
      exists r. split; [exact Hr |]. destruct r; [exact Hb | exact I]. }
    destruct R as [sts|e]; [| exists (Raise e); now split].
    destruct HR as [Hall Hn]. destruct (products_bound _ _ Hall) as [Hp Hl].
    exists (Ret (flat_map products sts, map fetched sts)). split; [reflexivity |].
    rewrite length_map. repeat split; [nia | lia | exact Hl].
  - exists (Ret ([], [])). split; [reflexivity |]. simpl.
    split; [lia | split; [lia | constructor]].
Qed.

Lemma scrape_suppliers_returns fuel config names :
  (10 <= fuel)%nat ->
  exists r,
    run_suppliers fuel config names = Some r
    /\ match r with
       | Ret (found, logs) =>
           (length found
            <= scraping_max_products config
               * list_sum (map (category_count config) names))%nat
           /\ Forall (fun log => (length log <= 10)%nat) logs
       | Raise _ => True
       end.
Proof.
  intros Hfuel. induction names as [|name names (r' & Hr' & Hb')]; simpl.
  - exists (Ret ([], [])). split; [reflexivity |]. simpl. split; [lia | constructor].
  - destruct (scrape_supplier_returns fuel config name Hfuel) as (r & -> & Hb).
    destruct r as [[found log]|e]; [| exists (Raise e); now split].
    rewrite Hr'. destruct r' as [[more logs]|e]; [| exists (Raise e); now split].
    exists (Ret (found ++ more, log ++ logs)). split; [reflexivity |].
    destruct Hb as (H1 & _ & H3), Hb' as (H4 & H5).
    rewrite length_app. split; [nia | apply Forall_app; now split].
Qed.

End Coordinator.

(** X10.  A supplier that is not configured, or that is not "leroymerlin",
    yields no record and no fetch.  With fuel for ten turns per category a
    run over a supplier returns; when it returns records, they are at most
    the cap times the number of its categories, with at most one crawl per
    category and at most ten pages fetched in each.  A run over all the
    suppliers returns likewise, within the cap times the number of
    categories of the configured names. *)
Theorem scrape_supplier_bounds (urljoin : string -> string -> result string)
    (BeautifulSoup : string -> node) (get : string -> result Response)
    (clock : string -> nat -> nat -> string) (config : FullConfig) :
  (forall fuel supplier_name,
      supplier_config config supplier_name = None
      \/ supplier_name <> "leroymerlin" ->
      scrape_supplier urljoin BeautifulSoup get clock fuel config supplier_name
      = Some (Ret ([], [])))
  /\ (forall fuel supplier_name,
         (10 <= fuel)%nat ->
         exists r,
           scrape_supplier urljoin BeautifulSoup get clock fuel config supplier_name
           = Some r
           /\ match r with
              | Ret (found, logs) =>
                  (length found
                   <= scraping_max_products config
                      * category_count config supplier_name)%nat
                  /\ (length logs <= category_count config supplier_name)%nat
                  /\ Forall (fun log => (length log <= 10)%nat) logs
              | Raise _ => True
              end)
  /\ (forall fuel,
         (10 <= fuel)%nat ->
         exists r,
           scrape_all urljoin BeautifulSoup get clock fuel config = Some r
           /\ match r with
              | Ret (found, logs) =>
                  (length found
                   <= scraping_max_products config
                      * list_sum (map (category_count config)
                                      (map fst (suppliers config))))%nat
                  /\ Forall (fun log => (length log <= 10)%nat) logs
              | Raise _ => True
              end).
Proof.
  split; [| split].
  - intros fuel supplier_name H. unfold scrape_supplier.
    destruct (supplier_config config supplier_name) as [supplier|]; [| reflexivity].
    destruct H as [H | H]; [discriminate |].
    destruct (String.eqb_spec supplier_name "leroymerlin") as [|_]; [contradiction |].
    assert (Hnil : forall l : list (string * string),
               flat_map (fun _ : string * string =>
                           @nil (option (result state))) l = []).
    { induction l; simpl; auto. }
    rewrite Hnil. reflexivity.
  - intros fuel supplier_name Hfuel. now apply scrape_supplier_returns.
  - intros fuel Hfuel. unfold scrape_all. now apply scrape_suppliers_returns.
Qed.

Lemma scrape_supplier_bounds_witness :
  scrape_supplier join endless_soup endless_get (fun _ _ _ => "now") 10
    {| suppliers :=
         [("castorama",
           {| supplier_base_url := "https://www.castorama.fr";
              supplier_categories := [("carrelage", "/carrelage")] |})];
       scraping_max_products := 50 |}
    "castorama"
  = Some (Ret ([], [])).
Proof.
  apply (proj1 (scrape_supplier_bounds join endless_soup endless_get
                  (fun _ _ _ => "now") _)).
  right. discriminate.
Defined.

End CoordinatorSpec.

(** ** Serving what the scraper saved *)

Module ServeSpec.
Import Py Storage Reference Scraper ApiServer.

Lemma to_response_asdict (p : Product.t) :
  to_response (asdict p) = Ret (response_of p).
Proof. reflexivity. Qed.

Lemma mapM_asdict (ps : list Product.t) :
  mapM to_response (map asdict ps) = Ret (map response_of ps).
Proof.
  induction ps as [|p ps IH]; [reflexivity |].
  cbn [map mapM]. rewrite to_response_asdict, IH. reflexivity.
Qed.

Lemma complete_asdict (ps : list Product.t) :
  Forall (fun d => complete d = true) (map asdict ps).
Proof. induction ps; simpl; constructor; auto. Qed.

Lemma window_whole {A} (l : list A) (per_page : Z) :
  (Z.of_nat (length l) <= per_page)%Z -> window l 1 per_page = l.
Proof.
  intros H. unfold window. simpl. apply firstn_all2. lia.
Qed.

(** X11.  A server started on the file the scraper just saved holds the
    saved records; its root reports their number and the time of the save,
    and its stats count them.  It answers every page request without a
    validation error, and an unfiltered page that is large enough returns
    every saved record, field for field and in order.  A refresh of a running
    server picks the saved records up in the same way. *)
Theorem serve_saved_snapshot (products : list Product.t)
    (filepath saved_at now : string) (fs : gmap string File) :
  exists api,
    DonizoAPI_init (save_data products filepath saved_at fs) filepath now = Ret api
    /\ records (data api) = map asdict products
    /\ root_total_products (data api) = Z.of_nat (length products)
    /\ root_last_updated (data api) = saved_at
    /\ StatsResponse.total_products (get_stats (data api)) = length products
    /\ (forall q, (1 <= page q)%Z -> (1 <= per_page q)%Z ->
                  exists r, get_materials (data api) q = Ret r)
    /\ (forall per_page,
           (1 <= per_page)%Z -> (Z.of_nat (length products) <= per_page)%Z ->
           exists r,
             get_materials (data api) (unfiltered 1 per_page) = Ret r
             /\ MaterialsResponse.products r = map response_of products
             /\ MaterialsResponse.total r = Z.of_nat (length products))
    /\ (forall old : DonizoAPI,
           data_file old = filepath ->
           refresh_data old (save_data products filepath saved_at fs) now
           = Ret ({| data_file := filepath; data := data api |},
                  Z.of_nat (length products))).
Proof.
  set (saved := Snapshot.mk (Some saved_at) (Some (Z.of_nat (length products)))
                            (Some (map asdict products))).
  assert (Hload : _load_data (save_data products filepath saved_at fs) filepath now
                  = Ret saved).
  { apply SnapshotSpec.load_object. unfold save_data. apply lookup_insert_eq. }
  exists {| data_file := filepath; data := saved |}.
  split; [unfold DonizoAPI_init; now rewrite Hload |].
  split; [reflexivity |]. split; [reflexivity |]. split; [reflexivity |].
  split.
  { pose proof (AggregationSpec.get_stats_all saved) as [H _].
    cbn [data]. rewrite H. unfold records. simpl. apply length_map. }
  split.
  { intros q Hp Hs. cbn [data].
    rewrite (QuerySpec.get_materials_window saved q Hp Hs).
    destruct (QuerySpec.mapM_complete
                (window (List.filter (satisfies q) (records saved)) (page q) (per_page q)))
      as (rs & -> & _).
    - apply QuerySpec.Forall_window, QuerySpec.Forall_filter.
      apply complete_asdict.
    - simpl. eauto. }
  split.
  { intros per_page Hs Hall. cbn [data].
    rewrite (QuerySpec.get_materials_window saved (unfiltered 1 per_page))
      by (simpl; lia).
    assert (Hf : List.filter (satisfies (unfiltered 1 per_page)) (records saved)
                 = map asdict products) by apply QuerySpec.filter_true.
    rewrite Hf. simpl page. simpl ApiServer.per_page.
    rewrite window_whole by (rewrite length_map; lia).
    rewrite mapM_asdict. simpl bind. eexists. split; [reflexivity |].
    simpl. now rewrite length_map. }
  intros old Hold. unfold refresh_data. rewrite Hold, Hload. reflexivity.
Qed.

End ServeSpec.

(** ** Pages and filters *)

Module PagesSpec.
Import Py Storage Reference ApiServer.

Lemma firstn_add {A} (a b : nat) (l : list A) :
  firstn (a + b) l = firstn a l ++ firstn b (skipn a l).
Proof.
  revert l. induction a as [|a IH]; intros l; simpl; [reflexivity |].
  destruct l as [|x l]; simpl; [now rewrite firstn_nil | now rewrite IH].
Qed.

(** The first [k] pages, one after the other, are the first [k * per_page]
    records. *)
Lemma windows_concat {A} (l : list A) (per_page : Z) (k : nat) :
  (1 <= per_page)%Z ->
  concat (map (fun p => window l (Z.of_nat p) per_page) (seq 1 k))
  = firstn (k * Z.to_nat per_page) l.
Proof.
  intros Hs. induction k as [|k IH]; [reflexivity |].
  rewrite seq_S, map_app, concat_app, IH. simpl. rewrite app_nil_r.
  unfold window.
  replace (Z.to_nat ((Z.of_nat (S k) - 1) * per_page)) with (k * Z.to_nat per_page)%nat
    by nia.
  replace (Z.to_nat per_page + k * Z.to_nat per_page)%nat
    with (k * Z.to_nat per_page + Z.to_nat per_page)%nat by lia.
  symmetry. apply firstn_add.
Qed.

Lemma mapM_ret {A B} (f : A -> result B) (g : A -> B) (l : list A) :
  (forall x, In x l -> f x = Ret (g x)) -> mapM f l = Ret (map g l).
Proof.
  induction l as [|x l IH]; intros H; [reflexivity |].
  cbn [mapM map]. rewrite (H x (or_introl eq_refl)), IH; [reflexivity |].
  intros y Hy. apply H. now right.
Qed.

Lemma to_response_defaults (p : ProductDict.t) :
  complete p = true -> to_response p = Ret (response_with_defaults p).
Proof.
  unfold complete, to_response, response_with_defaults.
  destruct (ProductDict.name p), (ProductDict.category p), (ProductDict.price p),
    (ProductDict.product_url p), (ProductDict.supplier p),
    (ProductDict.scraped_at p); try discriminate; reflexivity.
Qed.

(** The answer to a page request over complete records. *)
Lemma get_materials_complete (data : Snapshot.t) (q : MaterialsQuery) :
  (1 <= page q)%Z -> (1 <= per_page q)%Z ->
  Forall (fun p => complete p = true) (records data) ->
  get_materials data q
  = Ret (MaterialsResponse.mk
           (Z.of_nat (length (List.filter (satisfies q) (records data))))
           (page q) (per_page q)
           (ceil_div (Z.of_nat (length (List.filter (satisfies q) (records data))))
                     (per_page q))
           (map response_with_defaults
                (window (List.filter (satisfies q) (records data)) (page q) (per_page q)))
           (snd (filter_products data q))).
Proof.
  intros Hp Hs Hc. rewrite (QuerySpec.get_materials_window data q Hp Hs).
  rewrite (mapM_ret to_response response_with_defaults); [reflexivity |].
  intros x Hx. apply to_response_defaults.
  assert (Hw : Forall (fun p => complete p = true)
                 (window (List.filter (satisfies q) (records data)) (page q) (per_page q)))
    by now apply QuerySpec.Forall_window, QuerySpec.Forall_filter.
  rewrite List.Forall_forall in Hw. now apply Hw.
Qed.

(** X12.  The pages partition the filtered records: over complete records
    and for a page size of at least 1, requesting the pages 1 to
    [total_pages] one after the other succeeds, and their products, put end
    to end, are the responses of all the records that satisfy the filters,
    each once and in the order of the snapshot. *)
Theorem pages_cover_filtered (data : Snapshot.t) (q : MaterialsQuery) :
  (1 <= per_page q)%Z ->
  Forall (fun p => complete p = true) (records data) ->
  exists rs,
    mapM (fun p => get_materials data (on_page q (Z.of_nat p)))
         (seq 1 (Z.to_nat (ceil_div
                             (Z.of_nat (length (List.filter (satisfies q) (records data))))
                             (per_page q))))
    = Ret rs
    /\ concat (map MaterialsResponse.products rs)
       = map response_with_defaults (List.filter (satisfies q) (records data)).
Proof.
  intros Hs Hc.
  set (filtered := List.filter (satisfies q) (records data)).
  set (n := Z.to_nat (ceil_div (Z.of_nat (length filtered)) (per_page q))).
  eexists. split.
  - apply mapM_ret. intros p Hp. apply in_seq in Hp.
    apply (get_materials_complete data (on_page q (Z.of_nat p))); [simpl; lia | exact Hs | exact Hc].
  - rewrite map_map. cbn [MaterialsResponse.products].
    change (satisfies (on_page q _)) with (satisfies q).
    cbn [page per_page on_page]. fold filtered.
    rewrite <- (map_map (fun p => window filtered (Z.of_nat p) (per_page q))
                        (map response_with_defaults)).
    rewrite <- concat_map. f_equal.
    rewrite windows_concat by exact Hs.
    apply firstn_all2.
    pose proof (QuerySpec.ceil_div_least (Z.of_nat (length filtered)) (per_page q) Hs).
    subst n. nia.
Qed.

Lemma pages_cover_filtered_witness :
  exists rs,
    mapM (fun p => get_materials cat1_catalog (on_page (unfiltered 1 3) (Z.of_nat p)))
         (seq 1 (Z.to_nat (ceil_div
                             (Z.of_nat (length (List.filter (satisfies (unfiltered 1 3))
                                                            (records cat1_catalog))))
                             3)))
    = Ret rs
    /\ concat (map MaterialsResponse.products rs)
       = map response_with_defaults
             (List.filter (satisfies (unfiltered 1 3)) (records cat1_catalog)).
Proof.
  apply (pages_cover_filtered cat1_catalog (unfiltered 1 3)).
  - simpl. lia.
  - repeat constructor.
Defined.

End PagesSpec.

Module FilterSpec.
Import Py Storage Reference ApiServer.

Lemma filter_none {A} (f : A -> bool) (l : list A) :
  (forall x, In x l -> f x = false) -> List.filter f l = [].
Proof.
  induction l as [|x l IH]; intros H; simpl; [reflexivity |].
  rewrite (H x (or_introl eq_refl)). apply IH. intros y Hy. apply H. now right.
Qed.

Lemma apply_filter_snd {P} (param : option P) test key tag acc :
  snd (apply_filter param test key tag acc) = snd acc ++ echo param key tag.
Proof. destruct param; simpl; [reflexivity | now rewrite app_nil_r]. Qed.

Lemma filters_applied_echo (data : Snapshot.t) (q : MaterialsQuery) :
  snd (filter_products data q) = applied q.
Proof.
  unfold filter_products, applied. rewrite !apply_filter_snd. cbn [snd].
  rewrite <- !app_assoc. reflexivity.
Qed.

Lemma given_given (o : option string) : given (given o) = given o.
Proof. destruct o as [[|c s]|]; reflexivity. Qed.

Lemma ceil_div_zero (d : Z) : (1 <= d)%Z -> ceil_div 0 d = 0%Z.
Proof. intros H. unfold ceil_div. simpl. now rewrite Z.div_0_l by lia. Qed.

(** X13.  Filters that match nothing give a valid empty answer: [total]
    0, [total_pages] 0, no products, and the supplied filters echoed.  A
    price range whose minimum lies above its maximum is such a filter: no
    record satisfies it. *)
Theorem no_match_is_empty :
  (forall (data : Snapshot.t) (q : MaterialsQuery),
      (1 <= page q)%Z -> (1 <= per_page q)%Z ->
      (forall p, In p (records data) -> satisfies q p = false) ->
      get_materials data q
      = Ret (MaterialsResponse.mk 0 (page q) (per_page q) 0 [] (applied q)))
  /\ (forall (q : MaterialsQuery) (lo hi : Q) (p : ProductDict.t),
         min_price q = Some lo -> max_price q = Some hi -> (hi < lo)%Q ->
         satisfies q p = false).
Proof.
  split.
  - intros data q Hp Hs Hnone.
    rewrite (QuerySpec.get_materials_window data q Hp Hs).
    rewrite (filter_none _ _ Hnone). simpl length.
    unfold window. rewrite skipn_nil, firstn_nil. simpl.
    now rewrite ceil_div_zero, filters_applied_echo.
  - intros q lo hi p Hlo Hhi Hlt. unfold satisfies. rewrite Hlo, Hhi. simpl.
    unfold matches_min_price, matches_max_price.
    destruct (Qle_bool lo _) eqn:E1; [| now rewrite !andb_false_r].
    destruct (Qle_bool _ hi) eqn:E2; [| now rewrite !andb_false_r].
    exfalso. apply Qle_bool_iff in E1, E2.
    apply (Qlt_irrefl hi). apply Qlt_le_trans with lo; [exact Hlt |].
    now apply Qle_trans with (default 0%Q (ProductDict.price p)).
Qed.

Lemma no_match_is_empty_witness :
  get_materials cat1_catalog
    {| page := 1; per_page := 20; category := Some "plomberie"; supplier := None;
       min_price := None; max_price := None; brand := None; in_stock := None;
       search := None |}
  = Ret (MaterialsResponse.mk 0 1 20 0 []
           [("category", MaterialsResponse.FStr "plomberie")]).
Proof.
  apply (proj1 no_match_is_empty cat1_catalog
           {| page := 1; per_page := 20; category := Some "plomberie";
              supplier := None; min_price := None; max_price := None;
              brand := None; in_stock := None; search := None |}).
  - simpl. lia.
  - simpl. lia.
  - intros p Hp. simpl in Hp.
    destruct Hp as [<- | [<- | [<- | [<- | []]]]]; reflexivity.
Defined.

(** X14.  [filters_applied] holds one entry for each filter the query
    supplies, under its key, with the value as it was given, in the order
    category, supplier, min_price, max_price, brand, in_stock, search.  A
    string parameter that is empty counts as not supplied: it filters nothing
    and is not echoed, so the answer is that of the query without it. *)
Theorem filters_echoed_empty_ignored (data : Snapshot.t) (q : MaterialsQuery) :
  snd (filter_products data q) = applied q
  /\ (forall r, get_materials data q = Ret r ->
                MaterialsResponse.filters_applied r = applied q)
  /\ get_materials data (without_empty q) = get_materials data q.
Proof.
  split; [apply filters_applied_echo |]. split.
  - intros r. unfold get_materials.
    pose proof (filters_applied_echo data q) as He.
    destruct (filter_products data q) as [products fa]. simpl in He. subst fa.
    destruct (floordiv _ _); [| discriminate]. simpl.
    destruct (mapM _ _); [| discriminate]. simpl. now intros [= <-].
  - unfold get_materials, filter_products, without_empty.
    cbn [page per_page category supplier min_price max_price brand in_stock search].
    now rewrite !given_given.
Qed.

(** X18.  [GET /materials/{category}] never answers.  Its handler calls
    [get_materials] as a plain function with three of the nine parameters;
    the six others are then their [Query] defaults, and [search.lower()]
    raises [AttributeError] on such an object whatever the data (the
    supplier step raises it first when a record matches the category).
    Called with every parameter passed, as the framework calls it, the same
    body is [get_materials]. *)
Theorem by_category_always_raises :
  (forall (data : Snapshot.t) (category : string) (page per_page : Z),
      get_materials_by_category data category page per_page
      = Raise AttributeError)
  /\ (forall (data : Snapshot.t) (q : MaterialsQuery),
         get_materials_call data (passed q) = get_materials data q).
Proof.
  split.
  - intros data category pg pp.
    unfold get_materials_by_category, get_materials_call.
    cbn [call_category call_supplier call_min_price call_max_price call_brand
         call_in_stock call_search step_lower bind].
    unfold filter_raising at 1.
    destruct (fst (apply_filter _ _ _ _ _)); reflexivity.
  - intros data q. reflexivity.
Qed.

End FilterSpec.

(** ** The order of the aggregated lists *)

Module OrderSpec.
Import Py Storage Reference ApiServer.

Section Sorting.
Context {A : Type} (key : A -> nat).

Lemma insert_desc_sorted (x : A) (l : list A) :
  StronglySorted (fun a b => (key b <= key a)%nat) l ->
  StronglySorted (fun a b => (key b <= key a)%nat) (insert_desc key x l).
Proof.
  induction 1 as [|y r Hr IH Hy]; simpl; [repeat constructor |].
  destruct (Nat.ltb_spec (key x) (key y)) as [Hlt | Hge].
  - constructor; [exact IH |].
    apply List.Forall_forall. intros z [-> | Hz]%AggregationSpec.insert_desc_In; [lia |].
    rewrite List.Forall_forall in Hy. now apply Hy.
  - constructor; [now constructor |].
    constructor; [exact Hge |].
    apply List.Forall_forall. intros z Hz.
    rewrite List.Forall_forall in Hy. specialize (Hy z Hz). lia.
Qed.

Lemma sorted_desc_sorted (l : list A) :
  StronglySorted (fun a b => (key b <= key a)%nat) (sorted_desc key l).
Proof.
  unfold sorted_desc. induction l as [|x l IH]; simpl; [constructor |].
  now apply insert_desc_sorted.
Qed.

(** An entry is put before the entries of its own key. *)
Lemma insert_desc_stable (c : nat) (x : A) (l : list A) :
  List.filter (fun a => key a =? c)%nat (insert_desc key x l)
  = List.filter (fun a => key a =? c)%nat (x :: l).
Proof.
  induction l as [|y r IH]; [reflexivity |]. simpl.
  destruct (Nat.ltb_spec (key x) (key y)) as [Hlt | Hge]; [| reflexivity].
  simpl. rewrite IH. simpl.
  destruct (Nat.eqb_spec (key x) c) as [Ex|_], (Nat.eqb_spec (key y) c) as [Ey|_];
    try reflexivity.
  lia.
Qed.

Lemma sorted_desc_stable (c : nat) (l : list A) :
  List.filter (fun a => key a =? c)%nat (sorted_desc key l)
  = List.filter (fun a => key a =? c)%nat l.
Proof.
  unfold sorted_desc. induction l as [|x l IH]; [reflexivity |].
  simpl fold_right. rewrite insert_desc_stable. simpl. now rewrite IH.
Qed.

Lemma insert_desc_perm (x : A) (l : list A) :
  Permutation (insert_desc key x l) (x :: l).
Proof.
  induction l as [|y r IH]; simpl; [reflexivity |].
  destruct (key x <? key y)%nat; [| reflexivity].
  rewrite IH. apply perm_swap.
Qed.

Lemma sorted_desc_perm (l : list A) : Permutation (sorted_desc key l) l.
Proof.
  unfold sorted_desc. induction l as [|x l IH]; simpl; [reflexivity |].
  rewrite insert_desc_perm. now constructor.
Qed.

End Sorting.

(** *** The keys of the grouping dict *)

Lemma keys_group_add k p o (g : groups) :
  map fst (group_add k p o g)
  = if existsb (String.eqb k) (map fst g) then map fst g else map fst g ++ [k].
Proof.
  induction g as [|[k0 [ps others]] g IH]; simpl; [reflexivity |].
  rewrite (String.eqb_sym k k0).
  destruct (String.eqb k0 k); simpl; [reflexivity |].
  rewrite IH. now destruct (existsb _ _).
Qed.

Lemma group_by_keys key other (l : list ProductDict.t) :
  map fst (group_by key other l) = first_seen (map key l).
Proof.
  unfold group_by, first_seen.
  assert (H : forall g : groups,
             map fst (fold_left (fun g p => group_add (key p) p (other p) g) l g)
             = fold_left (fun seen k => if existsb (String.eqb k) seen
                                        then seen else seen ++ [k])
                         (map key l) (map fst g)).
  { induction l as [|p l IH]; intros g; simpl; [reflexivity |].
    rewrite IH, keys_group_add. reflexivity. }
  apply (H []).
Qed.

Lemma group_add_total k p o (g : groups) :
  list_sum (map (fun e => length (fst (snd e))) (group_add k p o g))
  = S (list_sum (map (fun e => length (fst (snd e))) g)).
Proof.
  induction g as [|[k0 [ps others]] g IH]; simpl; [reflexivity |].
  destruct (String.eqb k0 k); simpl; [rewrite length_app; simpl; lia |].
  rewrite IH. lia.
Qed.

Lemma group_by_total key other (l : list ProductDict.t) :
  list_sum (map (fun e => length (fst (snd e))) (group_by key other l)) = length l.
Proof.
  unfold group_by.
  assert (H : forall g,
             list_sum (map (fun e => length (fst (snd e)))
                           (fold_left (fun g p => group_add (key p) p (other p) g) l g))
             = (list_sum (map (fun e => length (fst (snd e))) g) + length l)%nat).
  { induction l as [|p l IH]; intros g; simpl; [lia |].
    rewrite IH, group_add_total. lia. }
  now rewrite H.
Qed.

(** X15.  [get_categories] lists each category once, in decreasing order
    of [product_count]; among entries with the same count the order is that
    of the grouping dict, whose keys stand in the order in which the
    categories first occur in the snapshot.  The counts of the list add up to
    the number of records.  [get_suppliers] is ordered in the same way. *)
Theorem get_categories_order (data : Snapshot.t) :
  StronglySorted (fun a b => (CategoryResponse.product_count b
                              <= CategoryResponse.product_count a)%nat)
                 (get_categories data)
  /\ (forall c,
         List.filter (fun e => CategoryResponse.product_count e =? c)%nat
                     (get_categories data)
         = List.filter (fun e => CategoryResponse.product_count e =? c)%nat
                       (map category_response
                            (group_by category_key supplier_key (records data))))
  /\ map CategoryResponse.name
         (map category_response (group_by category_key supplier_key (records data)))
     = first_seen (map category_key (records data))
  /\ List.NoDup (map CategoryResponse.name (get_categories data))
  /\ list_sum (map CategoryResponse.product_count (get_categories data))
     = length (records data)
  /\ StronglySorted (fun a b => (SupplierResponse.product_count b
                                 <= SupplierResponse.product_count a)%nat)
                    (get_suppliers data).
Proof.
  assert (Hnames : map CategoryResponse.name
                       (map category_response
                            (group_by category_key supplier_key (records data)))
                   = map fst (group_by category_key supplier_key (records data))).
  { rewrite map_map. apply map_ext. now intros [k [ps others]]. }
  split; [apply sorted_desc_sorted |].
  split; [intros c; apply sorted_desc_stable |].
  split; [rewrite Hnames; apply group_by_keys |].
  split.
  - unfold get_categories. fold (records data).
    apply (Permutation_NoDup
             (Permutation_sym
                (Permutation_map CategoryResponse.name
                   (sorted_desc_perm CategoryResponse.product_count _)))).
    rewrite Hnames.
    apply (AggregationSpec.group_by_grouped category_key supplier_key).
  - split; [| apply sorted_desc_sorted].
    unfold get_categories. fold (records data).
    rewrite (Permutation_list_sum
               (Permutation_map CategoryResponse.product_count
                  (sorted_desc_perm CategoryResponse.product_count _))).
    rewrite map_map.
    rewrite <- (group_by_total category_key supplier_key (records data)).
    f_equal. apply map_ext. now intros [k [ps others]].
Qed.

(** *** The counts of distinct keys *)

Lemma group_by_key_In key other (l : list ProductDict.t) k :
  In k (map fst (group_by key other l)) <-> In k (map key l).
Proof.
  split.
  - intros ([k' [ps others]] & <- & Hin)%in_map_iff. simpl.
    destruct (AggregationSpec.group_by_grouped key other l) as [Hnd Hg].
    specialize (Hg k').
    pose proof (AggregationSpec.entry_of_In _ _ Hnd Hin) as He. simpl in He.
    rewrite He in Hg. destruct Hg as (_ & -> & Hne).
    unfold with_key in Hne.
    destruct (List.filter _ l) as [|p r] eqn:Ef; [contradiction |].
    assert (Hp : In p (List.filter (fun p => String.eqb (key p) k') l))
      by (rewrite Ef; now left).
    apply filter_In in Hp as [Hp Hk]. apply String.eqb_eq in Hk. subst k'.
    now apply in_map.
  - intros (p & <- & Hin)%in_map_iff.
    destruct (AggregationSpec.group_by_covers key other l p Hin) as (ps & others & H).
    apply in_map_iff. now exists (key p, (ps, others)).
Qed.

Lemma distinct_keys key other (l : list ProductDict.t) :
  size (list_to_set (map key l) : gset string) = length (group_by key other l).
Proof.
  rewrite <- (length_map fst (group_by key other l)).
  rewrite <- (size_list_to_set (C := gset string) (map fst (group_by key other l))).
  - apply set_size_proper. intros k.
    rewrite !elem_of_list_to_set, !list_elem_of_In. symmetry.
    apply group_by_key_In.
  - apply NoDup_ListNoDup.
    apply (AggregationSpec.group_by_grouped key other l).
Qed.

(** X16.  The endpoints agree on the distinct keys: [total_categories] of
    [get_stats] is the number of entries of [get_categories], and
    [total_suppliers] the number of entries of [get_suppliers]; on an empty
    snapshot all of them are 0. *)
Theorem stats_count_the_lists (data : Snapshot.t) :
  StatsResponse.total_categories (get_stats data) = length (get_categories data)
  /\ StatsResponse.total_suppliers (get_stats data) = length (get_suppliers data).
Proof.
  unfold get_stats, get_categories, get_suppliers. fold (records data).
  rewrite !(Permutation_length (sorted_desc_perm _ _)), !length_map.
  destruct (records data) as [|p l] eqn:E; [split; reflexivity |].
  cbn [StatsResponse.total_categories StatsResponse.total_suppliers].
  split; apply distinct_keys.
Qed.

End OrderSpec.

(** ** The summary of a run *)

Module SummarySpec.
Import Py Storage Reference ApiServer Summary.

Lemma count_add_sizes k p o (g : groups) :
  count_add k (map size_of g) = map size_of (group_add k p o g).
Proof.
  induction g as [|[k0 [ps others]] g IH]; simpl; [reflexivity |].
  destruct (String.eqb k0 k); simpl.
  - unfold size_of. simpl. now rewrite length_app.
  - now rewrite IH.
Qed.

(** The counting loop of the summary and the grouping loop of the server
    build the same keys with the same counts. *)
Lemma counts_are_group_sizes (key : Product.t -> string)
    (dkey other : ProductDict.t -> string) (products : list Product.t) :
  (forall p, dkey (asdict p) = key p) ->
  fold_left (fun d p => count_add (key p) d) products []
  = map size_of (group_by dkey other (map asdict products)).
Proof.
  intros Hkey. unfold group_by.
  assert (H : forall g : groups,
             fold_left (fun d p => count_add (key p) d) products (map size_of g)
             = map size_of
                   (fold_left (fun g p => group_add (dkey p) p (other p) g)
                              (map asdict products) g)).
  { induction products as [|p ps IH]; intros g; simpl; [reflexivity |].
    rewrite <- IH, Hkey. f_equal. apply count_add_sizes. }
  apply (H []).
Qed.

Lemma total_value_total (l : list Product.t) (a : Q) :
  (fold_left (fun v p => v + Product.price p) l a
   == a + total (map Product.price l))%Q.
Proof.
  revert a. induction l as [|p l IH]; intros a; simpl.
  - ring.
  - rewrite IH. ring.
Qed.

(** X17.  Nothing scraped gives the empty summary.  Otherwise the summary
    counts every product; its categories are the keys of the server's
    grouping of the saved records with the same counts in the same order, so
    a category has a count in the summary exactly when [get_categories] lists
    it with that count.  Its average is the mean of all the prices, and its
    range the least and the greatest of all the prices, those of 0 included:
    for products priced 10, 20 and 0 the summary says 10 from 0 to 20 where
    [get_categories] says 15 from 10 to 20. *)
Theorem summary_and_server :
  get_summary [] = None
  /\ (forall (products : list Product.t) (s : Summary.t) (data : Snapshot.t),
         get_summary products = Some s ->
         records data = map asdict products ->
         total_products s = length products
         /\ categories s
            = map size_of (group_by category_key supplier_key (records data))
         /\ suppliers s
            = map size_of (group_by supplier_key category_key (records data))
         /\ (forall k n,
                In (k, n) (categories s)
                <-> exists e, In e (get_categories data)
                              /\ CategoryResponse.name e = k
                              /\ CategoryResponse.product_count e = n)
         /\ list_sum (map snd (categories s)) = length products
         /\ (average_price s == mean (map Product.price products))%Q
         /\ least (PriceRange.min (price_range s)) (map Product.price products)
         /\ greatest (PriceRange.max (price_range s)) (map Product.price products))
  /\ (exists s e,
         get_summary three_products = Some s
         /\ (average_price s == 10)%Q
         /\ price_range s = PriceRange.mk 0 20
         /\ In e (get_categories (Snapshot.mk None None (Some (map asdict three_products))))
         /\ (CategoryResponse.average_price e == 15)%Q
         /\ CategoryResponse.price_range e = PriceRange.mk 10 20).
Proof.
  split; [reflexivity |]. split.
  - intros products s data Hs Hdata.
    destruct products as [|first rest]; [discriminate |].
    injection Hs as Hs. rewrite Hdata.
    assert (Hc : categories s
                 = map size_of (group_by category_key supplier_key
                                         (map asdict (first :: rest)))).
    { rewrite <- Hs.
      exact (counts_are_group_sizes Product.category category_key supplier_key
               (first :: rest) (fun _ => eq_refl)). }
    assert (Hsup : suppliers s
                   = map size_of (group_by supplier_key category_key
                                           (map asdict (first :: rest)))).
    { rewrite <- Hs.
      exact (counts_are_group_sizes Product.supplier supplier_key category_key
               (first :: rest) (fun _ => eq_refl)). }
    split; [now rewrite <- Hs |]. split; [exact Hc |]. split; [exact Hsup |].
    split.
    { intros k n. rewrite Hc. unfold get_categories. fold (records data).
      rewrite Hdata. split.
      - intros ([k' [ps others]] & [= <- <-] & Hin)%in_map_iff.
        exists (category_response (k', (ps, others))).
        split; [| split; reflexivity].
        apply AggregationSpec.sorted_desc_In. now apply in_map.
      - intros (e & He & <- & <-).
        apply AggregationSpec.sorted_desc_In in He.
        apply in_map_iff in He as ([k' [ps others]] & <- & Hin).
        apply in_map_iff. now exists (k', (ps, others)). }
    split.
    { rewrite Hc, map_map.
      rewrite <- (length_map asdict (first :: rest)).
      rewrite <- (OrderSpec.group_by_total category_key supplier_key
                    (map asdict (first :: rest))).
      reflexivity. }
    rewrite <- Hs. cbn [average_price price_range PriceRange.min PriceRange.max].
    split.
    { rewrite total_value_total. unfold mean.
      cbn [map total fold_right length]. rewrite length_map.
      assert (H0 : (0 + Product.price first
                    + fold_right Qplus 0 (map Product.price rest)
                    == Product.price first
                       + fold_right Qplus 0 (map Product.price rest))%Q) by ring.
      now rewrite H0. }
    cbn [map]. split.
    + apply (AggregationSpec.min_of_least (Product.price first) (map Product.price rest)).
    + apply (AggregationSpec.max_of_greatest (Product.price first) (map Product.price rest)).
  - eexists _, _. split; [reflexivity |]. split; [reflexivity |].
    split; [reflexivity |]. split; [left; reflexivity |]. split; reflexivity.
Qed.

Lemma summary_and_server_witness :
  exists s,
    get_summary three_products = Some s
    /\ total_products s = 3%nat
    /\ list_sum (map snd (categories s)) = 3%nat.
Proof.
  eexists. split; [reflexivity |].
  destruct (proj1 (proj2 summary_and_server) three_products _
              (Snapshot.mk None None (Some (map asdict three_products)))
              eq_refl eq_refl) as (H1 & _ & _ & _ & H5 & _).
  split; [exact H1 | exact H5].
Defined.

End SummarySpec.

(** ** The image of a product and the cap of a crawl *)

Module ImageSpec.
Import Py Bs4 Reference Scraper.

(** X19.  The image URL of a built record comes from the first [img] of
    the container: there is none without an [img]; a [src] that starts with
    "http" is kept as it is; any other non-empty [src] is resolved against the
    base with [urljoin]. *)
Theorem parse_image_url (urljoin : string -> string -> result string)
    (c : node) (category base now : string) (p : Product.t) :
  _parse_leroymerlin_product urljoin c category base now = Some p ->
  (find ["img"] (fun _ => true) c = None -> Product.image_url p = None)
  /\ (forall img src,
         find ["img"] (fun _ => true) c = Some img ->
         Bs4.get "src" img = Some src ->
         startswith "http" src = true ->
         Product.image_url p = Some src)
  /\ (forall img src,
         find ["img"] (fun _ => true) c = Some img ->
         Bs4.get "src" img = Some src ->
         is_empty src = false ->
         startswith "http" src = false ->
         urljoin base src = Ret (default "" (Product.image_url p))
         /\ Product.image_url p <> None).
Proof.
  unfold _parse_leroymerlin_product, parse_product_body. intros H.
  destruct (or_else _ _) as [name_elem|]; [| discriminate H].
  destruct (find ["a"] (has_attr "href") c) as [url_elem|]; [| discriminate H].
  destruct (urljoin base (default "" _)) as [product_url|]; [| discriminate H].
  cbn [bind] in H. destruct (_parse_price _) as [price currency].
  destruct (find ["img"] (fun _ => true) c) as [img|].
  - split; [discriminate |].
    assert (Hsame : forall img0 src0,
               Some img = Some img0 -> Bs4.get "src" img0 = Some src0 ->
               Bs4.get "src" img = Some src0).
    { intros img0 src0 [= <-] Hs. exact Hs. }
    split; intros img0 src0 Hi Hs; specialize (Hsame img0 src0 Hi Hs);
      clear img0 Hi Hs; rewrite Hsame in H.
    + intros Hh.
      assert (He : is_empty src0 = false) by (destruct src0; [discriminate Hh | reflexivity]).
      repeat (rewrite ?He, ?Hh in H; cbn [negb andb bind] in H; cbv beta iota in H).
      injection H as <-. reflexivity.
    + intros He Hh.
      repeat (rewrite ?He, ?Hh in H; cbn [negb andb] in H; cbv beta iota in H).
      destruct (urljoin base src0) as [j|]; [| discriminate H].
      cbn [bind] in H. cbv beta iota in H.
      injection H as <-. split; [reflexivity | discriminate].
  - cbn [bind] in H. cbv beta iota in H. injection H as <-.
    split; [reflexivity |]. split; intros ? ? Hf; discriminate.
Qed.

Lemma parse_image_url_witness :
  exists p,
    _parse_leroymerlin_product join image_only_card "carrelage"
                               "https://www.leroymerlin.fr" "now" = Some p
    /\ join "https://www.leroymerlin.fr" "/img/1.jpg"
       = Ret (default "" (Product.image_url p)).
Proof.
  eexists. split; [reflexivity |].
  refine (proj1 (proj2 (proj2 (parse_image_url join image_only_card "carrelage"
                                 "https://www.leroymerlin.fr" "now" _ eq_refl))
                   (Tag "img" [("src", "/img/1.jpg")] []) "/img/1.jpg" _ _ _ _));
    reflexivity.
Defined.

(** X20.  When the first page yields as many records as the cap allows,
    the crawl returns after that one fetch with exactly the cap: the loop test
    ends it before page 2 is requested. *)
Theorem crawl_stops_at_cap (config : Config)
    (urljoin : string -> string -> result string)
    (BeautifulSoup : string -> node) (get : string -> result Response)
    (clock : nat -> nat -> string) (category category_url full_url content : string)
    (fuel : nat) :
  urljoin (base_url config) category_url = Ret full_url ->
  (1 <= max_products_per_category config)%nat ->
  _fetch_page get (page_url full_url 1) = Ret (Some content) ->
  is_empty content = false ->
  length (parse_containers config urljoin clock category 1 0
            (firstn (max_products_per_category config)
                    (containers_of (BeautifulSoup content))))
  = max_products_per_category config ->
  (1 <= fuel)%nat ->
  _scrape_leroymerlin_category config urljoin BeautifulSoup get clock fuel
                               category category_url
  = Some (Ret {| page := 2;
                 products :=
                   parse_containers config urljoin clock category 1 0
                     (firstn (max_products_per_category config)
                             (containers_of (BeautifulSoup content)));
                 fetched := [page_url full_url 1] |}).
Proof.
  intros Hjoin Hcap Hfetch Hne Hfull Hfuel.
  unfold _scrape_leroymerlin_category. rewrite Hjoin.
  destruct fuel as [|fuel]; [lia |]. cbn [crawl_loop products length].
  destruct (Nat.ltb_spec 0 (max_products_per_category config)) as [_|]; [| lia].
  unfold crawl_page. cbn [page products fetched length].
  fold (page_url full_url 1). rewrite Hfetch. cbn [bind]. rewrite Hne.
  rewrite Nat.sub_0_r.
  unfold containers_of in Hfull |- *. cbv zeta in Hfull |- *.
  set (by_class := find_all _ _ _) in *.
  set (containers := match by_class with [] => _ | _ => _ end) in *.
  set (parsed := parse_containers _ _ _ _ _ _ _) in *.
  destruct containers as [|c0 cs] eqn:Ec.
  - subst parsed. rewrite firstn_nil in Hfull. simpl in Hfull. lia.
  - destruct (Nat.eqb_spec (length parsed) 0) as [E0|_]; [lia |].
    cbn [page products fetched app].
    destruct (Nat.ltb_spec 10 (1 + 1)) as [|_]; [lia |].
    destruct fuel as [|fuel]; cbn [crawl_loop products app];
      rewrite Hfull, Nat.ltb_irrefl; reflexivity.
Qed.

Lemma crawl_stops_at_cap_witness :
  _scrape_leroymerlin_category
    {| base_url := "https://www.leroymerlin.fr"; max_products_per_category := 1 |}
    join endless_soup endless_get (fun _ _ => "now") 1 "carrelage" "/carrelage"
  = Some (Ret {| page := 2;
                 products :=
                   parse_containers
                     {| base_url := "https://www.leroymerlin.fr";
                        max_products_per_category := 1 |}
                     join (fun _ _ => "now") "carrelage" 1 0
                     (firstn 1 (containers_of (endless_soup "<html>page</html>")));
                 fetched := [page_url "https://www.leroymerlin.fr/carrelage" 1] |}).
Proof.
  refine (crawl_stops_at_cap
            {| base_url := "https://www.leroymerlin.fr";
               max_products_per_category := 1 |}
            join endless_soup endless_get (fun _ _ => "now") "carrelage" "/carrelage"
            "https://www.leroymerlin.fr/carrelage" "<html>page</html>" 1
            eq_refl _ eq_refl eq_refl eq_refl _); simpl; lia.
Defined.

End ImageSpec.
